(** * Photo-album backend: data model, serializers and view sets

    A shallow embedding of [photos/models.py], [photos/serializers.py],
    [photos/views.py] and the routes of [photos/urls.py].

    The relational store is a record of tables, each table a list of rows;
    a view is a function from the store to an outcome and a new store.  The
    generic behaviour the application inherits from its web framework
    (model view sets, model serializers, the object-relational mapper) is
    written out next to the code that relies on it. *)

From stdpp Require Import base option list gmap strings pretty.

Open Scope Z_scope.
Open Scope string_scope.

(** ** models.py: the four tables *)

(** A row of [User].  Of the inherited account columns only those exposed
    by [UserSerializer] are kept. *)
Record User := mkUser {
  user_id : Z;
  username : string;
  email : string;
  first_name : string;
  last_name : string;
  profile_image : option string;
  bio : string;
  date_joined : Z
}.

Record Album := mkAlbum {
  album_id : Z;
  album_title : string;
  album_description : string;
  created_at : Z;
  updated_at : Z;
  album_owner : Z
}.

Record Tag := mkTag {
  tag_id : Z;
  name : string
}.

(** The many-to-many field [tags] lives in the through table
    [photo_tags] below. *)
Record Photo := mkPhoto {
  photo_id : Z;
  title : string;
  description : string;
  image : string;
  uploaded_at : Z;
  album : Z;
  owner : Z
}.

#[global] Instance User_eq_dec : EqDecision User.
Proof. solve_decision. Defined.
#[global] Instance Album_eq_dec : EqDecision Album.
Proof. solve_decision. Defined.
#[global] Instance Tag_eq_dec : EqDecision Tag.
Proof. solve_decision. Defined.
#[global] Instance Photo_eq_dec : EqDecision Photo.
Proof. solve_decision. Defined.

(** The store.  [photo_tags] holds the rows [(photo pk, tag pk)] of the
    through table of [Photo.tags]. *)
Record DB := mkDB {
  users : list User;
  albums : list Album;
  tags : list Tag;
  photos : list Photo;
  photo_tags : list (Z * Z)
}.

Definition set_users (l : list User) (db : DB) : DB :=
  mkDB l (albums db) (tags db) (photos db) (photo_tags db).
Definition set_albums (l : list Album) (db : DB) : DB :=
  mkDB (users db) l (tags db) (photos db) (photo_tags db).
Definition set_tags (l : list Tag) (db : DB) : DB :=
  mkDB (users db) (albums db) l (photos db) (photo_tags db).
Definition set_photos (l : list Photo) (db : DB) : DB :=
  mkDB (users db) (albums db) (tags db) l (photo_tags db).
Definition set_photo_tags (l : list (Z * Z)) (db : DB) : DB :=
  mkDB (users db) (albums db) (tags db) (photos db) l.

(** A primary key no row of the table carries yet (auto-increment). *)
Definition fresh_pk (pks : list Z) : Z := 1 + foldr Z.max 0 pks.

(** Primary keys are unique per table, [Tag.name] and [User.username] are
    unique, the through table holds each pair once and only for photos and
    tags that exist. *)
Definition db_consistent (db : DB) : Prop :=
  NoDup (user_id <$> users db) ∧
  NoDup (username <$> users db) ∧
  NoDup (album_id <$> albums db) ∧
  NoDup (tag_id <$> tags db) ∧
  NoDup (name <$> tags db) ∧
  NoDup (photo_id <$> photos db) ∧
  NoDup (photo_tags db) ∧
  Forall (λ r, r.1 ∈ photo_id <$> photos db ∧ r.2 ∈ tag_id <$> tags db)
         (photo_tags db).

#[global] Instance db_consistent_dec db : Decision (db_consistent db).
Proof. unfold db_consistent. apply _. Defined.

(** ** Requests, responses and the values they carry *)

#[warnings="-register-all"]
Inductive json :=
| JNull
| JBool (b : bool)
| JInt (z : Z)
| JStr (s : string)
| JList (l : list json)
| JObj (o : list (string * json)).

(** [req_user] is the primary key of the account the bearer token was
    issued for, [None] for an anonymous request; [req_data] the parsed
    body; [req_query] the query string, one pair per occurrence of a
    parameter; [req_now] the clock at the time of the request. *)
Record Request := mkRequest {
  req_user : option Z;
  req_data : gmap string json;
  req_query : list (string * string);
  req_now : Z
}.

Record Response := mkResponse {
  status : Z;
  data : json
}.

Definition HTTP_200_OK : Z := 200.
Definition HTTP_201_CREATED : Z := 201.
Definition HTTP_204_NO_CONTENT : Z := 204.
Definition HTTP_400_BAD_REQUEST : Z := 400.
Definition HTTP_401_UNAUTHORIZED : Z := 401.
Definition HTTP_404_NOT_FOUND : Z := 404.
Definition HTTP_500_INTERNAL_SERVER_ERROR : Z := 500.

(** A field-keyed error mapping: field name, then its messages. *)
Definition Errors := list (string * list string).

Inductive Exc :=
| NotAuthenticated
| Http404
| ValidationError (errors : Errors)
| IntegrityError
| OverflowError.

(** ** Handlers: store passing with exceptions

    An exception leaves the store as it was when it was raised. *)
Definition Handler (A : Type) : Type := DB → (Exc + A) * DB.

Definition ret {A} (a : A) : Handler A := λ db, (inr a, db).
Definition raise {A} (e : Exc) : Handler A := λ db, (inl e, db).
Definition bind {A B} (m : Handler A) (k : A → Handler B) : Handler B :=
  λ db, match m db with
        | (inr a, db') => k a db'
        | (inl e, db') => (inl e, db')
        end.
Definition query {A} (q : DB → A) : Handler A := λ db, (inr (q db), db).
Definition modify (f : DB → DB) : Handler unit := λ db, (inr tt, f db).

Declare Scope handler_scope.
Delimit Scope handler_scope with handler.
Notation "x <~ m ;; k" := (bind m (λ x, k))
  (at level 100, m at next level, right associativity) : handler_scope.
Notation "m ;;; k" := (bind m (λ _, k))
  (at level 100, right associativity) : handler_scope.

(** ** The object-relational mapper, as far as the application uses it *)

(** [Album.objects.filter(owner=u)] *)
Definition Album_objects_filter_owner (u : Z) (db : DB) : list Album :=
  filter (λ a, album_owner a = u) (albums db).

(** [Photo.objects.filter(owner=u)] *)
Definition Photo_objects_filter_owner (u : Z) (db : DB) : list Photo :=
  filter (λ p, owner p = u) (photos db).

(** [Tag.objects.filter(id__in=ids)] *)
Definition Tag_objects_filter_id_in (ids : list Z) (db : DB) : list Tag :=
  filter (λ t, tag_id t ∈ ids) (tags db).

(** The database adapter: which integers it takes as parameters of a
    query.  A backend that compares integers of any size takes all of
    them; SQLite stores 64-bit integers and raises [OverflowError] for any
    other. *)
Class Backend := {
  database_integer : Z → bool
}.

Definition unbounded : Backend := {| database_integer := λ _, true |}.

Definition sqlite : Backend :=
  {| database_integer := λ z, bool_decide (- 2 ^ 63 ≤ z < 2 ^ 63) |}.

(** Where a statement names no backend, it is about [unbounded]. *)
#[global] Existing Instance unbounded.

(** The queryset [Tag.objects.filter(id__in=ids)] is lazy; its rows are
    fetched when it is first iterated, and the identifiers are then handed
    to the backend. *)
Definition Tag_objects_filter_id_in_fetch `{Backend} (ids : list Z)
  : Handler (list Tag) :=
  if forallb database_integer ids
  then query (Tag_objects_filter_id_in ids)
  else raise OverflowError.

(** [photo.tags.all()]: the tags joined to the photo by the through table. *)
Definition photo_tags_all (db : DB) (pk : Z) : list Tag :=
  filter (λ t, (pk, tag_id t) ∈ photo_tags db) (tags db).

(** [album.photos.all()], the reverse side of [Photo.album]. *)
Definition album_photos_all (db : DB) (pk : Z) : list Photo :=
  filter (λ p, album p = pk) (photos db).

(** [queryset.get(pk=pk)], [None] when no row matches; primary keys being
    unique, at most one row does. *)
Definition get_by_pk {Row} (pk_of : Row → Z) (pk : Z) (qs : list Row) : option Row :=
  head (filter (λ r, pk_of r = pk) qs).

(** [instance.save()] of an existing row: [UPDATE ... WHERE id = pk]. *)
Definition save_row {Row} (pk_of : Row → Z) (r : Row) (table : list Row) : list Row :=
  (λ x, if decide (pk_of x = pk_of r) then r else x) <$> table.

(** [photo.tags.set(tags)]: rows of the photo whose tag is not among
    [tags] are removed, then a row is added for each tag not yet joined. *)
Definition photo_tags_set (pk : Z) (new : list Tag) (db : DB) : DB :=
  let ids := remove_dups (tag_id <$> new) in
  let kept := filter (λ r, r.1 ≠ pk ∨ r.2 ∈ ids) (photo_tags db) in
  let added := filter (λ t, (pk, t) ∉ kept) ids in
  set_photo_tags (kept ++ ((λ t, (pk, t)) <$> added))%list db.

(** [photo.tags.set(Tag.objects.filter(id__in=ids))]: the queryset is
    fetched first, then the rows of the photo are replaced. *)
Definition photo_tags_set_queryset `{Backend} (pk : Z) (ids : list Z) : Handler unit :=
  bind (Tag_objects_filter_id_in_fetch ids) (λ tags, modify (photo_tags_set pk tags)).

(** ** models.py: [on_delete=models.CASCADE]

    Deleting a row first collects the rows whose cascading foreign key
    points to it, and theirs in turn, then deletes them all.  The through
    table of [Photo.tags] references both sides with cascading keys. *)

Definition Photo_delete_in (pks : list Z) (db : DB) : DB :=
  set_photos (filter (λ p, photo_id p ∉ pks) (photos db))
    (set_photo_tags (filter (λ r, r.1 ∉ pks) (photo_tags db)) db).

Definition Album_delete_in (pks : list Z) (db : DB) : DB :=
  let contained := photo_id <$> filter (λ p, album p ∈ pks) (photos db) in
  set_albums (filter (λ a, album_id a ∉ pks) (albums db))
    (Photo_delete_in contained db).

Definition Photo_delete (p : Photo) (db : DB) : DB :=
  Photo_delete_in [photo_id p] db.

Definition Album_delete (a : Album) (db : DB) : DB :=
  Album_delete_in [album_id a] db.

Definition Tag_delete (t : Tag) (db : DB) : DB :=
  set_tags (filter (λ x, tag_id x ≠ tag_id t) (tags db))
    (set_photo_tags (filter (λ r, r.2 ≠ tag_id t) (photo_tags db)) db).

Definition User_delete (u : User) (db : DB) : DB :=
  let owned_albums :=
    album_id <$> filter (λ a, album_owner a = user_id u) (albums db) in
  let owned_photos :=
    photo_id <$> filter (λ p, owner p = user_id u) (photos db) in
  set_users (filter (λ x, user_id x ≠ user_id u) (users db))
    (Album_delete_in owned_albums (Photo_delete_in owned_photos db)).

(** ** Serializer fields

    A field reads its key from the request body.  An absent key is an error
    for a required field of a full (non-partial) request and is skipped
    otherwise; a present value is converted and then checked by every
    validator of the field, whose messages are collected. *)

Inductive FieldResult (A : Type) :=
| Skipped
| Invalid (msgs : list string)
| Valid (a : A).
Arguments Skipped {A}.
Arguments Invalid {A} msgs.
Arguments Valid {A} a.

Definition run_validators {A} (validators : list (A → option string)) (a : A)
  : list string + A :=
  match omap (λ v, v a) validators with
  | [] => inr a
  | msgs => inl msgs
  end.

(** A field: how it turns the submitted value into the validated one. *)
Definition run_field {A} (partial required : bool)
    (run_validation : json → list string + A) (v : option json) : FieldResult A :=
  match v with
  | None => if required && negb partial
            then Invalid ["This field is required."] else Skipped
  | Some x =>
      match run_validation x with
      | inl msgs => Invalid msgs
      | inr a => Valid a
      end
  end.

(** Conversion first, then the validators. *)
Definition validated {A} (to_internal_value : json → list string + A)
    (validators : list (A → option string)) (x : json) : list string + A :=
  match to_internal_value x with
  | inl msgs => inl msgs
  | inr a => run_validators validators a
  end.

Definition field_errors {A} (field : string) (r : FieldResult A) : Errors :=
  match r with Invalid msgs => [(field, msgs)] | _ => [] end.

Definition field_value {A} (r : FieldResult A) : option A :=
  match r with Valid a => Some a | _ => None end.

(** Text is a sequence of characters with code points below 256.  White
    space as [str.strip] sees it: tab to carriage return, the four
    separators, the space, next line and the no-break space. *)
Definition is_space (c : Ascii.ascii) : bool :=
  let n := Ascii.nat_of_ascii c in
  ((9 <=? n)%nat && (n <=? 13)%nat) || ((28 <=? n)%nat && (n <=? 32)%nat)
  || (n =? 133)%nat || (n =? 160)%nat.

Fixpoint lstrip (s : string) : string :=
  match s with
  | String c s' => if is_space c then lstrip s' else s
  | EmptyString => EmptyString
  end.

Fixpoint rstrip (s : string) : string :=
  match s with
  | String c s' =>
      match rstrip s' with
      | EmptyString => if is_space c then EmptyString else String c EmptyString
      | r => String c r
      end
  | EmptyString => EmptyString
  end.

Definition strip (s : string) : string := rstrip (lstrip s).

Fixpoint has_null (s : string) : bool :=
  match s with
    | String c s' => (Ascii.nat_of_ascii c =? 0)%nat || has_null s'
  | EmptyString => false
  end.

Definition ProhibitNullCharactersValidator (s : string) : option string :=
  if has_null s then Some "Null characters are not allowed." else None.

Definition MaxLengthValidator (max_length : nat) (s : string) : option string :=
  if (max_length <? String.length s)%nat
  then Some ("Ensure this field has no more than " +:+ pretty max_length +:+ " characters.")
  else None.

(** Text.  A JSON string is trimmed and a JSON integer is written out in
    decimal; booleans, lists and objects are refused.  Text that is blank
    once trimmed is refused unless the column has [blank=True], and is then
    taken as the empty text without being shown to the validators; any
    other text is shown to all of them. *)
Definition text_value (allow_blank : bool) (validators : list (string → option string))
    (x : json) : list string + string :=
  match x with
  | JStr s =>
      if decide (strip s = EmptyString) then
        if allow_blank then inr EmptyString
        else inl ["This field may not be blank."]
      else run_validators validators (strip s)
  | JInt z => run_validators validators (pretty z)
  | JNull => inl ["This field may not be null."]
  | _ => inl ["Not a valid string."]
  end.

(** [CharField]: the validators of the model column, then the length
    bound, then the check for null characters. *)
Definition CharField (allow_blank : bool) (max_length : option nat)
    (validators : list (string → option string)) : json → list string + string :=
  text_value allow_blank
    (validators ++ match max_length with Some n => [MaxLengthValidator n] | None => [] end
       ++ [ProhibitNullCharactersValidator])%list.

(** [EmailField]: a [CharField] whose last validator is the address
    check. *)
Definition EmailField (allow_blank : bool) (max_length : option nat)
    (EmailValidator : string → option string) : json → list string + string :=
  text_value allow_blank
    (match max_length with Some n => [MaxLengthValidator n] | None => [] end
       ++ [ProhibitNullCharactersValidator; EmailValidator])%list.

Definition IntegerField (x : json) : list string + Z :=
  match x with
  | JInt z => inr z
  | JNull => inl ["This field may not be null."]
  | _ => inl ["A valid integer is required."]
  end.

(** [ListField(child=IntegerField())]: every item must be an integer; the
    list may be empty. *)
Definition ListField_of_IntegerField (x : json) : list string + list Z :=
  match x with
  | JList items =>
      match mapM (λ i, match IntegerField i with inr z => Some z | inl _ => None end) items with
      | Some zs => inr zs
      | None => inl ["A valid integer is required."]
      end
  | JNull => inl ["This field may not be null."]
  | _ => inl ["Expected a list of items."]
  end.

(** A related row given by primary key: the row must exist in the
    queryset, here the primary keys [pks]. *)
Definition PrimaryKeyRelatedField (pks : list Z) (x : json) : list string + Z :=
  match x with
  | JInt z => if decide (z ∈ pks) then inr z
              else inl ["Invalid pk - object does not exist."]
  | JNull => inl ["This field may not be null."]
  | _ => inl ["Incorrect type. Expected pk value."]
  end.

(** An uploaded file, named by the path it is stored under; a nullable
    column also takes [null]. *)
Definition ImageField (x : json) : list string + string :=
  match x with
  | JStr f => inr f
  | JNull => inl ["This field may not be null."]
  | _ => inl ["The submitted data was not a file."]
  end.

Definition nullable {A} (f : json → list string + A) (x : json)
  : list string + option A :=
  match x with
  | JNull => inr None
  | _ => match f x with inl e => inl e | inr a => inr (Some a) end
  end.

(** What the application takes from outside its own code: the character
    checks on user names, e-mail addresses and uploaded images, and the
    token library, which gives the encoded refresh and access tokens for an
    account. *)
Class Framework := {
  valid_username : string → bool;
  valid_email : string → bool;
  valid_image : string → bool;
  RefreshToken_for_user : User → string * string
}.

Definition check (ok : string → bool) (msg : string) (s : string) : option string :=
  if ok s then None else Some msg.

(** ** serializers.py *)

(** Validated data: one optional entry per writable field, present when
    the request supplied the field, and for [owner] when the view passes
    it to [save]. *)
Record UserData := mkUserData {
  ud_username : option string;
  ud_email : option string;
  ud_first_name : option string;
  ud_last_name : option string;
  ud_profile_image : option (option string);
  ud_bio : option string
}.

Record TagData := mkTagData {
  td_name : option string
}.

Record AlbumData := mkAlbumData {
  ad_title : option string;
  ad_description : option string;
  ad_owner : option Z
}.

Record PhotoData := mkPhotoData {
  pd_title : option string;
  pd_description : option string;
  pd_image : option string;
  pd_album : option Z;
  pd_tag_ids : option (list Z);
  pd_owner : option Z
}.

Definition UniqueValidator (taken : list string) (msg : string) (s : string)
  : option string :=
  if decide (s ∈ taken) then Some msg else None.

Local Open Scope handler_scope.

Module UserSerializer.
Section with_framework.
Context `{Framework}.

(** fields: id, username, email, first_name, last_name, profile_image,
    bio, date_joined; read-only: id, date_joined. *)
Definition to_representation (db : DB) (u : User) : json :=
  JObj [("id", JInt (user_id u)); ("username", JStr (username u));
        ("email", JStr (email u)); ("first_name", JStr (first_name u));
        ("last_name", JStr (last_name u));
        ("profile_image", match profile_image u with Some f => JStr f | None => JNull end);
        ("bio", JStr (bio u)); ("date_joined", JInt (date_joined u))].

(** On an update the uniqueness check leaves the updated row itself out. *)
Definition run_validation (partial : bool) (instance : option User) (db : DB)
    (d : gmap string json) : Errors + UserData :=
  let others := filter (λ u, Some (user_id u) ≠ user_id <$> instance) (users db) in
  let f_username := run_field partial true
      (CharField false (Some 150%nat)
         [check valid_username "Enter a valid username.";
          UniqueValidator (username <$> others)
            "A user with that username already exists."])
      (d !! "username") in
  let f_email := run_field partial false
      (EmailField true (Some 254%nat)
         (check valid_email "Enter a valid email address."))
      (d !! "email") in
  let f_first_name := run_field partial false
      (CharField true (Some 150%nat) []) (d !! "first_name") in
  let f_last_name := run_field partial false
      (CharField true (Some 150%nat) []) (d !! "last_name") in
  let f_profile_image := run_field partial false
      (validated (nullable ImageField)
         [λ o, match o with
               | Some f => check valid_image "Upload a valid image." f
               | None => None
               end])
      (d !! "profile_image") in
  let f_bio := run_field partial false
      (CharField true (Some 500%nat) []) (d !! "bio") in
  match concat [field_errors "username" f_username; field_errors "email" f_email;
                field_errors "first_name" f_first_name;
                field_errors "last_name" f_last_name;
                field_errors "profile_image" f_profile_image;
                field_errors "bio" f_bio] with
  | [] => inr (mkUserData (field_value f_username) (field_value f_email)
                 (field_value f_first_name) (field_value f_last_name)
                 (field_value f_profile_image) (field_value f_bio))
  | errors => inl errors
  end.

End with_framework.

(** [User.objects.create], called with the validated data as keyword
    arguments; [date_joined] defaults to the current time. *)
Definition create (now : Z) (validated_data : UserData) : Handler User :=
  λ db,
    let user :=
      mkUser (fresh_pk (user_id <$> users db))
        (default EmptyString (ud_username validated_data))
        (default EmptyString (ud_email validated_data))
        (default EmptyString (ud_first_name validated_data))
        (default EmptyString (ud_last_name validated_data))
        (default None (ud_profile_image validated_data))
        (default EmptyString (ud_bio validated_data))
        now in
    (inr user, set_users (users db ++ [user])%list db).

(** Every validated attribute is set on the instance, which is saved. *)
Definition update (now : Z) (instance : User) (validated_data : UserData)
  : Handler User :=
  let user :=
    mkUser (user_id instance)
      (default (username instance) (ud_username validated_data))
      (default (email instance) (ud_email validated_data))
      (default (first_name instance) (ud_first_name validated_data))
      (default (last_name instance) (ud_last_name validated_data))
      (default (profile_image instance) (ud_profile_image validated_data))
      (default (bio instance) (ud_bio validated_data))
      (date_joined instance) in
  modify (λ db, set_users (save_row user_id user (users db)) db) ;;;
  ret user.

End UserSerializer.

Module TagSerializer.

(** fields: id, name. *)
Definition to_representation (db : DB) (t : Tag) : json :=
  JObj [("id", JInt (tag_id t)); ("name", JStr (name t))].

Definition run_validation (partial : bool) (instance : option Tag) (db : DB)
    (d : gmap string json) : Errors + TagData :=
  let others := filter (λ t, Some (tag_id t) ≠ tag_id <$> instance) (tags db) in
  let f_name := run_field partial true
      (CharField false (Some 50%nat)
         [UniqueValidator (name <$> others) "tag with this name already exists."])
      (d !! "name") in
  match field_errors "name" f_name with
  | [] => inr (mkTagData (field_value f_name))
  | errors => inl errors
  end.

Definition create (now : Z) (validated_data : TagData) : Handler Tag :=
  λ db,
    let tag := mkTag (fresh_pk (tag_id <$> tags db))
                 (default EmptyString (td_name validated_data)) in
    (inr tag, set_tags (tags db ++ [tag])%list db).

Definition update (now : Z) (instance : Tag) (validated_data : TagData)
  : Handler Tag :=
  let tag := mkTag (tag_id instance)
               (default (name instance) (td_name validated_data)) in
  modify (λ db, set_tags (save_row tag_id tag (tags db)) db) ;;;
  ret tag.

End TagSerializer.

(** The nested, read-only [owner]: the row the foreign key points to. *)
Definition owner_representation (db : DB) (pk : Z) : json :=
  match get_by_pk user_id pk (users db) with
  | Some u => UserSerializer.to_representation db u
  | None => JNull
  end.

Module PhotoSerializer.

(** fields: id, title, description, image, uploaded_at, album, owner, tags,
    tag_ids; read-only: id, uploaded_at, owner and the nested [tags];
    [tag_ids] is write-only and optional. *)
Definition to_representation (db : DB) (p : Photo) : json :=
  JObj [("id", JInt (photo_id p)); ("title", JStr (title p));
        ("description", JStr (description p)); ("image", JStr (image p));
        ("uploaded_at", JInt (uploaded_at p)); ("album", JInt (album p));
        ("owner", owner_representation db (owner p));
        ("tags", JList (TagSerializer.to_representation db <$>
                          photo_tags_all db (photo_id p)))].

Definition run_validation `{Framework} (partial : bool) (instance : option Photo)
    (db : DB) (d : gmap string json) : Errors + PhotoData :=
  let f_title := run_field partial true
      (CharField false (Some 200%nat) []) (d !! "title") in
  let f_description := run_field partial false
      (CharField true None []) (d !! "description") in
  let f_image := run_field partial true
      (validated ImageField [check valid_image "Upload a valid image."])
      (d !! "image") in
  let f_album := run_field partial true
      (PrimaryKeyRelatedField (album_id <$> albums db)) (d !! "album") in
  let f_tag_ids := run_field partial false ListField_of_IntegerField
      (d !! "tag_ids") in
  match concat [field_errors "title" f_title;
                field_errors "description" f_description;
                field_errors "image" f_image; field_errors "album" f_album;
                field_errors "tag_ids" f_tag_ids] with
  | [] => inr (mkPhotoData (field_value f_title) (field_value f_description)
                 (field_value f_image) (field_value f_album)
                 (field_value f_tag_ids) None)
  | errors => inl errors
  end.

(** [validated_data.pop('tag_ids', ...)]: what is left of the data. *)
Definition pop_tag_ids (vd : PhotoData) : PhotoData :=
  mkPhotoData (pd_title vd) (pd_description vd) (pd_image vd) (pd_album vd)
    None (pd_owner vd).

(** [Photo.objects.create]: text columns default to the empty text,
    [uploaded_at] is set on insertion, the two foreign keys may not be
    null. *)
Definition Photo_objects_create (now : Z) (vd : PhotoData) : Handler Photo :=
  match pd_album vd, pd_owner vd with
  | Some a, Some o =>
      λ db,
        let photo :=
          mkPhoto (fresh_pk (photo_id <$> photos db))
            (default EmptyString (pd_title vd)) (default EmptyString (pd_description vd))
            (default EmptyString (pd_image vd)) now a o in
        (inr photo, set_photos (photos db ++ [photo])%list db)
  | _, _ => raise IntegrityError
  end.

Definition create `{Backend} (now : Z) (validated_data : PhotoData) : Handler Photo :=
  let tag_ids := default [] (pd_tag_ids validated_data) in
  let validated_data := pop_tag_ids validated_data in
  photo <~ Photo_objects_create now validated_data ;;
  (if decide (tag_ids ≠ []) then
     photo_tags_set_queryset (photo_id photo) tag_ids
   else ret tt) ;;;
  ret photo.

(** The inherited [update]: every validated attribute is set on the
    instance, which is saved. *)
Definition super_update (now : Z) (instance : Photo) (validated_data : PhotoData)
  : Handler Photo :=
  let photo :=
    mkPhoto (photo_id instance)
      (default (title instance) (pd_title validated_data))
      (default (description instance) (pd_description validated_data))
      (default (image instance) (pd_image validated_data))
      (uploaded_at instance)
      (default (album instance) (pd_album validated_data))
      (default (owner instance) (pd_owner validated_data)) in
  modify (λ db, set_photos (save_row photo_id photo (photos db)) db) ;;;
  ret photo.

Definition update `{Backend} (now : Z) (instance : Photo) (validated_data : PhotoData)
  : Handler Photo :=
  let tag_ids := pd_tag_ids validated_data in
  let validated_data := pop_tag_ids validated_data in
  (match tag_ids with
   | Some tag_ids => photo_tags_set_queryset (photo_id instance) tag_ids
   | None => ret tt
   end) ;;;
  super_update now instance validated_data.

End PhotoSerializer.

Module AlbumSerializer.

(** fields: id, title, description, created_at, updated_at, owner, photos;
    read-only: id, created_at, updated_at, owner and the nested [photos]. *)
Definition to_representation (db : DB) (a : Album) : json :=
  JObj [("id", JInt (album_id a)); ("title", JStr (album_title a));
        ("description", JStr (album_description a));
        ("created_at", JInt (created_at a)); ("updated_at", JInt (updated_at a));
        ("owner", owner_representation db (album_owner a));
        ("photos", JList (PhotoSerializer.to_representation db <$>
                            album_photos_all db (album_id a)))].

Definition run_validation (partial : bool) (instance : option Album) (db : DB)
    (d : gmap string json) : Errors + AlbumData :=
  let f_title := run_field partial true
      (CharField false (Some 200%nat) []) (d !! "title") in
  let f_description := run_field partial false
      (CharField true None []) (d !! "description") in
  match concat [field_errors "title" f_title;
                field_errors "description" f_description] with
  | [] => inr (mkAlbumData (field_value f_title) (field_value f_description) None)
  | errors => inl errors
  end.

(** [Album.objects.create]: both timestamps are set on insertion; the
    owner may not be null. *)
Definition create (now : Z) (validated_data : AlbumData) : Handler Album :=
  match ad_owner validated_data with
  | Some o =>
      λ db,
        let album :=
          mkAlbum (fresh_pk (album_id <$> albums db))
            (default EmptyString (ad_title validated_data))
            (default EmptyString (ad_description validated_data)) now now o in
        (inr album, set_albums (albums db ++ [album])%list db)
  | None => raise IntegrityError
  end.

(** [updated_at] is refreshed by every save. *)
Definition update (now : Z) (instance : Album) (validated_data : AlbumData)
  : Handler Album :=
  let album :=
    mkAlbum (album_id instance)
      (default (album_title instance) (ad_title validated_data))
      (default (album_description instance) (ad_description validated_data))
      (created_at instance) now
      (default (album_owner instance) (ad_owner validated_data)) in
  modify (λ db, set_albums (save_row album_id album (albums db)) db) ;;;
  ret album.

End AlbumSerializer.

(** ** views.py *)

(** Permission classes. *)
Definition IsAuthenticated (req : Request) : bool :=
  bool_decide (is_Some (req_user req)).
Definition AllowAny (req : Request) : bool := true.

(** What a model view set is made of: its serializer class and the hooks
    a view set of the application may override. *)
Record ModelViewSet (Row VD : Type) := mkModelViewSet {
  vs_pk : Row → Z;
  vs_to_representation : DB → Row → json;
  vs_run_validation : bool → option Row → DB → gmap string json → Errors + VD;
  vs_serializer_create : Z → VD → Handler Row;
  vs_serializer_update : Z → Row → VD → Handler Row;
  vs_delete : Row → DB → DB;
  vs_get_permissions : string → list (Request → bool);
  vs_get_queryset : Request → DB → list Row;
  vs_perform_create : Request → VD → VD
}.
Arguments vs_pk {Row VD}.
Arguments vs_to_representation {Row VD}.
Arguments vs_run_validation {Row VD}.
Arguments vs_serializer_create {Row VD}.
Arguments vs_serializer_update {Row VD}.
Arguments vs_delete {Row VD}.
Arguments vs_get_permissions {Row VD}.
Arguments vs_get_queryset {Row VD}.
Arguments vs_perform_create {Row VD}.

Definition error_detail (errors : Errors) : json :=
  JObj ((λ e, (e.1, JList (JStr <$> e.2))) <$> errors).

(** The exception handler of the framework. *)
Definition handle_exception (e : Exc) : Response :=
  match e with
  | NotAuthenticated =>
      mkResponse HTTP_401_UNAUTHORIZED
        (JObj [("detail", JStr "Authentication credentials were not provided.")])
  | Http404 =>
      mkResponse HTTP_404_NOT_FOUND (JObj [("detail", JStr "Not found.")])
  | ValidationError errors =>
      mkResponse HTTP_400_BAD_REQUEST (error_detail errors)
  | IntegrityError | OverflowError =>
      mkResponse HTTP_500_INTERNAL_SERVER_ERROR JNull
  end.

Definition dispatch (h : Handler Response) (db : DB) : Response * DB :=
  match h db with
  | (inr response, db') => (response, db')
  | (inl e, db') => (handle_exception e, db')
  end.

(** The actions every model view set inherits. *)
Section mixins.
Context {Row VD : Type} (vs : ModelViewSet Row VD).

Definition check_permissions (action : string) (req : Request) : Handler unit :=
  if forallb (λ permission, permission req) (vs_get_permissions vs action)
  then ret tt else raise NotAuthenticated.

(** The object is looked up in the queryset of the view set, never in the
    whole table. *)
Definition get_object (req : Request) (pk : Z) : Handler Row :=
  queryset <~ query (vs_get_queryset vs req) ;;
  match get_by_pk (vs_pk vs) pk queryset with
  | Some obj => ret obj
  | None => raise Http404
  end.

Definition is_valid (partial : bool) (instance : option Row) (req : Request)
  : Handler VD :=
  r <~ query (λ db, vs_run_validation vs partial instance db (req_data req)) ;;
  match r with
  | inl errors => raise (ValidationError errors)
  | inr validated_data => ret validated_data
  end.

Definition serializer_data (obj : Row) : Handler json :=
  query (λ db, vs_to_representation vs db obj).

Definition list_action (req : Request) : Handler Response :=
  check_permissions "list" req ;;;
  queryset <~ query (vs_get_queryset vs req) ;;
  body <~ query (λ db, JList (vs_to_representation vs db <$> queryset)) ;;
  ret (mkResponse HTTP_200_OK body).

Definition create_action (req : Request) : Handler Response :=
  check_permissions "create" req ;;;
  validated_data <~ is_valid false None req ;;
  obj <~ vs_serializer_create vs (req_now req)
           (vs_perform_create vs req validated_data) ;;
  body <~ serializer_data obj ;;
  ret (mkResponse HTTP_201_CREATED body).

Definition retrieve_action (req : Request) (pk : Z) : Handler Response :=
  check_permissions "retrieve" req ;;;
  obj <~ get_object req pk ;;
  body <~ serializer_data obj ;;
  ret (mkResponse HTTP_200_OK body).

Definition update_action (partial : bool) (req : Request) (pk : Z)
  : Handler Response :=
  check_permissions (if partial then "partial_update" else "update") req ;;;
  instance <~ get_object req pk ;;
  validated_data <~ is_valid partial (Some instance) req ;;
  obj <~ vs_serializer_update vs (req_now req) instance validated_data ;;
  body <~ serializer_data obj ;;
  ret (mkResponse HTTP_200_OK body).

Definition destroy_action (req : Request) (pk : Z) : Handler Response :=
  check_permissions "destroy" req ;;;
  instance <~ get_object req pk ;;
  modify (vs_delete vs instance) ;;;
  ret (mkResponse HTTP_204_NO_CONTENT JNull).

End mixins.

(** [request.query_params.getlist(key, [])]: every value given for the
    key, in order; the empty list when the key does not occur. *)
Definition getlist (key : string) (q : list (string * string)) : list string :=
  (filter (λ kv, kv.1 = key) q).*2.

(** [Photo.objects.filter(tags__name__in=names)]: photos joined to their
    tags through the through table, one row per matching pair. *)
Definition Photo_objects_filter_tags_name_in (names : list string) (db : DB)
  : list Photo :=
  p ← photos db;
  r ← photo_tags db;
  t ← tags db;
  if decide (r.1 = photo_id p ∧ r.2 = tag_id t ∧ name t ∈ names) then [p] else [].

(** [queryset.distinct()] *)
Definition distinct {Row} `{EqDecision Row} (qs : list Row) : list Row :=
  remove_dups qs.

Module UserViewSet.
Section with_framework.
Context `{Framework}.

(** [queryset = User.objects.all()] *)
Definition get_queryset (req : Request) (db : DB) : list User := users db.

Definition get_permissions (action : string) : list (Request → bool) :=
  if decide (action = "create") then [AllowAny] else [IsAuthenticated].

Definition viewset : ModelViewSet User UserData :=
  mkModelViewSet User UserData user_id UserSerializer.to_representation
    UserSerializer.run_validation UserSerializer.create UserSerializer.update
    User_delete get_permissions get_queryset (λ _ validated_data, validated_data).

Definition create (req : Request) : Handler Response :=
  check_permissions viewset "create" req ;;;
  r <~ query (λ db, UserSerializer.run_validation false None db (req_data req)) ;;
  match r with
  | inr validated_data =>
      user <~ UserSerializer.create (req_now req) validated_data ;;
      let refresh := RefreshToken_for_user user in
      body <~ serializer_data viewset user ;;
      ret (mkResponse HTTP_201_CREATED
             (JObj [("user", body); ("refresh", JStr refresh.1);
                    ("access", JStr refresh.2)]))
  | inl errors => ret (mkResponse HTTP_400_BAD_REQUEST (error_detail errors))
  end.

(** [request.user]: the row of the authenticated account. *)
Definition request_user (req : Request) : Handler User :=
  found <~ query (λ db, req_user req ≫= λ pk, get_by_pk user_id pk (users db)) ;;
  match found with
  | Some user => ret user
  | None => raise NotAuthenticated
  end.

Definition me (req : Request) : Handler Response :=
  check_permissions viewset "me" req ;;;
  user <~ request_user req ;;
  body <~ serializer_data viewset user ;;
  ret (mkResponse HTTP_200_OK body).

Definition update_profile (req : Request) : Handler Response :=
  check_permissions viewset "update_profile" req ;;;
  user <~ request_user req ;;
  r <~ query (λ db, UserSerializer.run_validation true (Some user) db (req_data req)) ;;
  match r with
  | inr validated_data =>
      user' <~ UserSerializer.update (req_now req) user validated_data ;;
      body <~ serializer_data viewset user' ;;
      ret (mkResponse HTTP_200_OK body)
  | inl errors => ret (mkResponse HTTP_400_BAD_REQUEST (error_detail errors))
  end.

(** The inherited actions, routed at [users/] and [users/<pk>/]. *)
Definition retrieve := retrieve_action viewset.
Definition update := update_action viewset false.
Definition partial_update := update_action viewset true.
Definition destroy := destroy_action viewset.
Definition list := list_action viewset.

End with_framework.
End UserViewSet.

Module AlbumViewSet.

(** [Album.objects.filter(owner=self.request.user)]; the permission check
    has let only authenticated requests through. *)
Definition get_queryset (req : Request) (db : DB) : list Album :=
  match req_user req with
  | Some u => Album_objects_filter_owner u db
  | None => []
  end.

(** [serializer.save(owner=self.request.user)]: the keyword argument is
    laid over the validated data. *)
Definition perform_create (req : Request) (validated_data : AlbumData) : AlbumData :=
  mkAlbumData (ad_title validated_data) (ad_description validated_data)
    (req_user req).

Definition viewset : ModelViewSet Album AlbumData :=
  mkModelViewSet Album AlbumData album_id AlbumSerializer.to_representation
    AlbumSerializer.run_validation AlbumSerializer.create AlbumSerializer.update
    Album_delete (λ _, [IsAuthenticated]) get_queryset perform_create.

(** The inherited actions, routed at [albums/] and [albums/<pk>/]. *)
Definition create := create_action viewset.
Definition retrieve := retrieve_action viewset.
Definition update := update_action viewset false.
Definition partial_update := update_action viewset true.
Definition destroy := destroy_action viewset.
Definition list := list_action viewset.

End AlbumViewSet.

Module PhotoViewSet.
Section with_framework.
Context `{Framework} {backend : Backend}.

(** [Photo.objects.filter(owner=self.request.user)] *)
Definition get_queryset (req : Request) (db : DB) : list Photo :=
  match req_user req with
  | Some u => Photo_objects_filter_owner u db
  | None => []
  end.

(** [serializer.save(owner=self.request.user)] *)
Definition perform_create (req : Request) (validated_data : PhotoData) : PhotoData :=
  mkPhotoData (pd_title validated_data) (pd_description validated_data)
    (pd_image validated_data) (pd_album validated_data)
    (pd_tag_ids validated_data) (req_user req).

Definition viewset : ModelViewSet Photo PhotoData :=
  mkModelViewSet Photo PhotoData photo_id PhotoSerializer.to_representation
    PhotoSerializer.run_validation PhotoSerializer.create PhotoSerializer.update
    Photo_delete (λ _, [IsAuthenticated]) get_queryset perform_create.

(** The rows the search selects: the query does not go through
    [get_queryset]. *)
Definition search_by_tags_queryset (req : Request) (db : DB) : list Photo :=
  let tags := getlist "tags" (req_query req) in
  distinct (Photo_objects_filter_tags_name_in tags db).

Definition search_by_tags (req : Request) : Handler Response :=
  check_permissions viewset "search_by_tags" req ;;;
  photos <~ query (search_by_tags_queryset req) ;;
  body <~ query (λ db, JList (PhotoSerializer.to_representation db <$> photos)) ;;
  ret (mkResponse HTTP_200_OK body).

(** The inherited actions, routed at [photos/] and [photos/<pk>/]. *)
Definition create := create_action viewset.
Definition retrieve := retrieve_action viewset.
Definition update := update_action viewset false.
Definition partial_update := update_action viewset true.
Definition destroy := destroy_action viewset.
Definition list := list_action viewset.

End with_framework.
End PhotoViewSet.

Module TagViewSet.

(** [queryset = Tag.objects.all()] *)
Definition get_queryset (req : Request) (db : DB) : list Tag := tags db.

Definition viewset : ModelViewSet Tag TagData :=
  mkModelViewSet Tag TagData tag_id TagSerializer.to_representation
    TagSerializer.run_validation TagSerializer.create TagSerializer.update
    Tag_delete (λ _, [IsAuthenticated]) get_queryset (λ _ validated_data, validated_data).

(** The inherited actions, routed at [tags/] and [tags/<pk>/]. *)
Definition create := create_action viewset.
Definition retrieve := retrieve_action viewset.
Definition update := update_action viewset false.
Definition partial_update := update_action viewset true.
Definition destroy := destroy_action viewset.
Definition list := list_action viewset.

End TagViewSet.

(** Every permission of the action lets the request through. *)
Definition permitted {Row VD} (vs : ModelViewSet Row VD) (action : string)
    (req : Request) : Prop :=
  forallb (λ permission, permission req) (vs_get_permissions vs action) = true.

(** The request with another body. *)
Definition with_data (d : gmap string json) (req : Request) : Request :=
  mkRequest (req_user req) d (req_query req) (req_now req).

(** The actions routed at [<prefix>/<pk>/]. *)
Definition detail_actions {Row VD} (vs : ModelViewSet Row VD)
  : list (Request → Z → Handler Response) :=
  [retrieve_action vs; update_action vs false; update_action vs true;
   destroy_action vs].

(** Every foreign key points to a row: an album to its owner, a photo to
    its album and its owner. *)
Definition db_references (db : DB) : Prop :=
  Forall (λ a, album_owner a ∈ user_id <$> users db) (albums db) ∧
  Forall (λ p, album p ∈ album_id <$> albums db ∧ owner p ∈ user_id <$> users db)
         (photos db).

#[global] Instance db_references_dec db : Decision (db_references db).
Proof. unfold db_references. apply _. Defined.

(** The keys [UserSerializer] reads from a request body. *)
Definition user_fields : list string :=
  ["username"; "email"; "first_name"; "last_name"; "profile_image"; "bio"].

(** How a validated entry relates to the body: absent when the key is,
    the trimmed text of a JSON string, the decimal form of a JSON
    integer. *)
Definition text_entry (d : gmap string json) (key : string) (entry : option string)
  : Prop :=
  (d !! key = None → entry = None) ∧
  (∀ s, d !! key = Some (JStr s) → entry = Some (strip s)) ∧
  (∀ z, d !! key = Some (JInt z) → entry = Some (pretty z)).

(** ** A small store to run the views on *)

Module Sample.

Definition framework : Framework :=
  {| valid_username := λ _, true;
     valid_email := λ _, true;
     valid_image := λ _, true;
     RefreshToken_for_user := λ u, ("refresh:" +:+ username u, "access:" +:+ username u) |}.

Definition alice : User :=
  mkUser 1 "alice" "alice@example.org" "Alice" "A" None EmptyString 100.
Definition bob : User :=
  mkUser 2 "bob" "bob@example.org" "Bob" "B" None EmptyString 101.

Definition holidays : Album := mkAlbum 1 "Holidays" EmptyString 110 110 1.
Definition garden : Album := mkAlbum 2 "Garden" EmptyString 111 111 2.

Definition vacation : Tag := mkTag 1 "vacation".
Definition family : Tag := mkTag 2 "family".

Definition beach : Photo := mkPhoto 1 "Beach" EmptyString "photos/beach.jpg" 120 1 1.
Definition roses : Photo := mkPhoto 2 "Roses" EmptyString "photos/roses.jpg" 121 2 2.
Definition dunes : Photo := mkPhoto 3 "Dunes" EmptyString "photos/dunes.jpg" 122 1 1.

Definition db : DB :=
  mkDB [alice; bob] [holidays; garden] [vacation; family] [beach; roses; dunes]
    [(1, 1); (1, 2); (2, 1)].

(** The body of a photo upload that names an existing and a non-existing
    tag. *)
Definition sunset_body : list (string * json) :=
  [("title", JStr "Sunset"); ("image", JStr "photos/sunset.jpg");
   ("album", JInt 1); ("tag_ids", JList (JInt <$> [1; 9999]))].

(** The same upload, naming an existing tag and an integer one past the
    largest 64-bit one. *)
Definition overflow_body : list (string * json) :=
  [("title", JStr "Sunset"); ("image", JStr "photos/sunset.jpg");
   ("album", JInt 1); ("tag_ids", JList (JInt <$> [1; 9223372036854775808]))].

Definition carol_body : list (string * json) :=
  [("username", JStr "carol"); ("email", JStr "carol@example.org");
   ("password", JStr "secret")].

(** A registration that pads the user name with spaces. *)
Definition padded_carol_body : list (string * json) :=
  [("username", JStr " carol "); ("email", JStr "carol@example.org");
   ("password", JStr "secret")].

(** A request of the account [u] made at time 200. *)
Definition request (u : option Z) (body : list (string * json))
    (q : list (string * string)) : Request :=
  mkRequest u (list_to_map body) q 200.

End Sample.

(** * Properties *)

(** ** Handlers and queries *)

Lemma get_by_pk_Some {Row} (pk_of : Row → Z) pk (qs : list Row) r :
  get_by_pk pk_of pk qs = Some r → r ∈ qs ∧ pk_of r = pk.
Proof.
  unfold get_by_pk. intros Hhd. apply head_Some_elem_of in Hhd.
  apply list_elem_of_filter in Hhd. tauto.
Qed.

Lemma get_by_pk_None {Row} (pk_of : Row → Z) pk (qs : list Row) :
  get_by_pk pk_of pk qs = None ↔ ∀ r, r ∈ qs → pk_of r ≠ pk.
Proof.
  unfold get_by_pk. split.
  - intros Hhd r Hr Hpk.
    assert (Hin : r ∈ filter (λ r, pk_of r = pk) qs)
      by (apply list_elem_of_filter; done).
    destruct (filter _ qs); [by apply not_elem_of_nil in Hin | done].
  - intros Hall. destruct (filter _ qs) as [|x l] eqn:Hf; [done|].
    assert (Hx : x ∈ filter (λ r, pk_of r = pk) qs) by (rewrite Hf; left).
    apply list_elem_of_filter in Hx as [Hpk Hx]. by destruct (Hall x Hx).
Qed.

Lemma NoDup_fmap_eq {A B} (f : A → B) (l : list A) x y :
  NoDup (f <$> l) → x ∈ l → y ∈ l → f x = f y → x = y.
Proof.
  induction l as [|a l IH]; simpl; intros Hnd Hx Hy Hf.
  - by apply not_elem_of_nil in Hx.
  - apply NoDup_cons in Hnd as [Hna Hnd].
    apply elem_of_cons in Hx as [->|Hx]; apply elem_of_cons in Hy as [->|Hy];
      auto.
    + destruct Hna. rewrite Hf. by apply list_elem_of_fmap_2.
    + destruct Hna. rewrite <- Hf. by apply list_elem_of_fmap_2.
Qed.

Lemma get_by_pk_unique {Row} (pk_of : Row → Z) (qs : list Row) r :
  NoDup (pk_of <$> qs) → r ∈ qs → get_by_pk pk_of (pk_of r) qs = Some r.
Proof.
  intros Hnd Hr. destruct (get_by_pk pk_of (pk_of r) qs) as [r'|] eqn:Hget.
  - apply get_by_pk_Some in Hget as [Hr' Hpk]. f_equal.
    by apply (NoDup_fmap_eq pk_of qs).
  - rewrite get_by_pk_None in Hget. by destruct (Hget r Hr).
Qed.

(** Runs a handler symbolically: the plumbing is unfolded, the permission
    check is taken from the context. *)
Ltac run_handler Hperm :=
  unfold dispatch, list_action, create_action, retrieve_action, update_action,
    destroy_action, check_permissions, get_object, is_valid, serializer_data,
    bind, query, modify, ret, raise;
  unfold permitted in Hperm; rewrite Hperm.

Section mixin_facts.
Context {Row VD : Type} (vs : ModelViewSet Row VD).

Lemma list_action_run req db :
  permitted vs "list" req →
  dispatch (list_action vs req) db =
    (mkResponse HTTP_200_OK
       (JList (vs_to_representation vs db <$> vs_get_queryset vs req db)), db).
Proof.
  intros Hperm. by run_handler Hperm.
Qed.

Lemma retrieve_action_run req pk db :
  permitted vs "retrieve" req →
  dispatch (retrieve_action vs req pk) db =
    (match get_by_pk (vs_pk vs) pk (vs_get_queryset vs req db) with
     | Some obj => mkResponse HTTP_200_OK (vs_to_representation vs db obj)
     | None => handle_exception Http404
     end, db).
Proof.
  intros Hperm. run_handler Hperm.
  by destruct (get_by_pk _ _ _).
Qed.

(** A primary key outside the queryset of the view set: every detail
    action answers "not found" and leaves the store alone. *)
Lemma detail_actions_not_found req pk db act :
  (∀ action, permitted vs action req) →
  get_by_pk (vs_pk vs) pk (vs_get_queryset vs req db) = None →
  act ∈ detail_actions vs →
  dispatch (act req pk) db = (handle_exception Http404, db).
Proof.
  intros Hperm Hget Hact. unfold detail_actions in Hact.
  assert (Hp : ∀ action, forallb (λ permission, permission req)
                 (vs_get_permissions vs action) = true) by apply Hperm.
  repeat (apply elem_of_cons in Hact as [->|Hact]);
    [..|by apply not_elem_of_nil in Hact];
    unfold dispatch, retrieve_action, update_action, destroy_action,
      check_permissions, get_object, bind, query, ret, raise;
    rewrite Hp, Hget; done.
Qed.

End mixin_facts.

Lemma authenticated_permitted req u :
  req_user req = Some u →
  forallb (λ permission : Request → bool, permission req) [IsAuthenticated] = true.
Proof.
  intros Hu. simpl. unfold IsAuthenticated. rewrite Hu.
  rewrite bool_decide_true; [done | by eexists].
Qed.

(** ** Owner scoping *)

(** C1.  For an authenticated caller, the album list and the photo list
    hold exactly the rows the caller owns, and retrieving by primary key
    answers either with a row the caller owns or with "not found",
    whatever key is supplied. *)
Theorem list_and_retrieve_owner_scoped `{Framework} (db : DB) (req : Request) (u : Z) :
  req_user req = Some u →
  (∃ rows,
     dispatch (AlbumViewSet.list req) db =
       (mkResponse HTTP_200_OK (JList (AlbumSerializer.to_representation db <$> rows)), db) ∧
     ∀ a, a ∈ rows ↔ a ∈ albums db ∧ album_owner a = u) ∧
  (∃ rows,
     dispatch (PhotoViewSet.list req) db =
       (mkResponse HTTP_200_OK (JList (PhotoSerializer.to_representation db <$> rows)), db) ∧
     ∀ p, p ∈ rows ↔ p ∈ photos db ∧ owner p = u) ∧
  (∀ pk,
     (∃ a, a ∈ albums db ∧ album_owner a = u ∧ album_id a = pk ∧
        dispatch (AlbumViewSet.retrieve req pk) db =
          (mkResponse HTTP_200_OK (AlbumSerializer.to_representation db a), db)) ∨
     dispatch (AlbumViewSet.retrieve req pk) db = (handle_exception Http404, db)) ∧
  (∀ pk,
     (∃ p, p ∈ photos db ∧ owner p = u ∧ photo_id p = pk ∧
        dispatch (PhotoViewSet.retrieve req pk) db =
          (mkResponse HTTP_200_OK (PhotoSerializer.to_representation db p), db)) ∨
     dispatch (PhotoViewSet.retrieve req pk) db = (handle_exception Http404, db)).
Proof.
  intros Hu. pose proof (authenticated_permitted req u Hu) as Hperm.
  split; [|split; [|split]].
  - exists (Album_objects_filter_owner u db). split.
    + unfold AlbumViewSet.list. rewrite list_action_run by exact Hperm.
      simpl. unfold AlbumViewSet.get_queryset. by rewrite Hu.
    + intros a. unfold Album_objects_filter_owner.
      rewrite list_elem_of_filter. tauto.
  - exists (Photo_objects_filter_owner u db). split.
    + unfold PhotoViewSet.list. rewrite list_action_run by exact Hperm.
      simpl. unfold PhotoViewSet.get_queryset. by rewrite Hu.
    + intros p. unfold Photo_objects_filter_owner.
      rewrite list_elem_of_filter. tauto.
  - intros pk. unfold AlbumViewSet.retrieve.
    rewrite retrieve_action_run by exact Hperm. simpl.
    unfold AlbumViewSet.get_queryset. rewrite Hu.
    destruct (get_by_pk album_id pk (Album_objects_filter_owner u db))
      as [a|] eqn:Hget; [left|by right].
    apply get_by_pk_Some in Hget as [Ha Hpk].
    apply list_elem_of_filter in Ha as [Hown Ha]. by exists a.
  - intros pk. unfold PhotoViewSet.retrieve.
    rewrite retrieve_action_run by exact Hperm. simpl.
    unfold PhotoViewSet.get_queryset. rewrite Hu.
    destruct (get_by_pk photo_id pk (Photo_objects_filter_owner u db))
      as [p|] eqn:Hget; [left|by right].
    apply get_by_pk_Some in Hget as [Hp Hpk].
    apply list_elem_of_filter in Hp as [Hown Hp]. by exists p.
Qed.

Lemma list_and_retrieve_owner_scoped_witness :
  req_user (Sample.request (Some 1) [] []) = Some 1 ∧
  ∃ rows,
    dispatch (AlbumViewSet.list (Sample.request (Some 1) [] [])) Sample.db =
      (mkResponse HTTP_200_OK
         (JList (AlbumSerializer.to_representation Sample.db <$> rows)), Sample.db) ∧
    ∀ a, a ∈ rows ↔ a ∈ albums Sample.db ∧ album_owner a = 1.
Proof.
  split; [reflexivity|].
  exact (proj1 (@list_and_retrieve_owner_scoped Sample.framework Sample.db
                  (Sample.request (Some 1) [] []) 1 eq_refl)).
Defined.

Lemma get_by_pk_filter_unique {Row} (pk_of : Row → Z) (P : Row → Prop)
    `{∀ r, Decision (P r)} (qs : list Row) r :
  NoDup (pk_of <$> qs) → r ∈ qs → P r →
  get_by_pk pk_of (pk_of r) (filter P qs) = Some r.
Proof.
  intros Hnd Hr HP.
  destruct (get_by_pk pk_of (pk_of r) (filter P qs)) as [r'|] eqn:Hget.
  - apply get_by_pk_Some in Hget as [Hr' Hpk].
    apply list_elem_of_filter in Hr' as [_ Hr']. f_equal.
    by apply (NoDup_fmap_eq pk_of qs).
  - rewrite get_by_pk_None in Hget. destruct (Hget r); [|done].
    by apply list_elem_of_filter.
Qed.

Lemma get_by_pk_filter_foreign {Row} (pk_of : Row → Z) (P : Row → Prop)
    `{∀ r, Decision (P r)} (qs : list Row) r :
  NoDup (pk_of <$> qs) → r ∈ qs → ¬ P r →
  get_by_pk pk_of (pk_of r) (filter P qs) = None.
Proof.
  intros Hnd Hr HP. apply get_by_pk_None. intros r' Hr' Hpk.
  apply list_elem_of_filter in Hr' as [HP' Hr'].
  assert (r' = r) as -> by by apply (NoDup_fmap_eq pk_of qs).
  done.
Qed.

Lemma get_by_pk_missing {Row} (pk_of : Row → Z) (P : Row → Prop)
    `{∀ r, Decision (P r)} (qs : list Row) pk :
  pk ∉ pk_of <$> qs → get_by_pk pk_of pk (filter P qs) = None.
Proof.
  intros Hpk. apply get_by_pk_None. intros r Hr <-.
  apply list_elem_of_filter in Hr as [_ Hr].
  apply Hpk. by apply list_elem_of_fmap_2.
Qed.

(** C7.  For an authenticated caller, retrieving, updating or deleting an
    album or photo that another user owns answers 404 "not found", the
    very response given for a primary key that no row carries, and the
    store is left as it was. *)
Theorem foreign_record_not_found `{Framework} (db : DB) (req : Request) (u : Z) :
  req_user req = Some u →
  db_consistent db →
  (∀ a act, a ∈ albums db → album_owner a ≠ u →
     act ∈ detail_actions AlbumViewSet.viewset →
     dispatch (act req (album_id a)) db =
       (mkResponse HTTP_404_NOT_FOUND (JObj [("detail", JStr "Not found.")]), db) ∧
     ∀ missing, missing ∉ album_id <$> albums db →
       dispatch (act req missing) db = dispatch (act req (album_id a)) db) ∧
  (∀ p act, p ∈ photos db → owner p ≠ u →
     act ∈ detail_actions PhotoViewSet.viewset →
     dispatch (act req (photo_id p)) db =
       (mkResponse HTTP_404_NOT_FOUND (JObj [("detail", JStr "Not found.")]), db) ∧
     ∀ missing, missing ∉ photo_id <$> photos db →
       dispatch (act req missing) db = dispatch (act req (photo_id p)) db).
Proof.
  intros Hu (_ & _ & Halb & _ & _ & Hpho & _).
  assert (Hperm : ∀ (action : string),
            forallb (λ permission : Request → bool, permission req)
              [IsAuthenticated] = true)
    by (intros _; by apply (authenticated_permitted req u)).
  split.
  - intros a act Ha Hown Hact.
    assert (Hnf : dispatch (act req (album_id a)) db = (handle_exception Http404, db)).
    { apply (detail_actions_not_found AlbumViewSet.viewset); [exact Hperm| |exact Hact].
      simpl. unfold AlbumViewSet.get_queryset. rewrite Hu.
      by apply get_by_pk_filter_foreign. }
    split; [exact Hnf|]. intros missing Hmiss. rewrite Hnf.
    apply (detail_actions_not_found AlbumViewSet.viewset); [exact Hperm| |exact Hact].
    simpl. unfold AlbumViewSet.get_queryset. rewrite Hu.
    by apply get_by_pk_missing.
  - intros p act Hp Hown Hact.
    assert (Hnf : dispatch (act req (photo_id p)) db = (handle_exception Http404, db)).
    { apply (detail_actions_not_found PhotoViewSet.viewset); [exact Hperm| |exact Hact].
      simpl. unfold PhotoViewSet.get_queryset. rewrite Hu.
      by apply get_by_pk_filter_foreign. }
    split; [exact Hnf|]. intros missing Hmiss. rewrite Hnf.
    apply (detail_actions_not_found PhotoViewSet.viewset); [exact Hperm| |exact Hact].
    simpl. unfold PhotoViewSet.get_queryset. rewrite Hu.
    by apply get_by_pk_missing.
Qed.

Lemma sample_db_consistent : db_consistent Sample.db.
Proof. apply (bool_decide_unpack _). vm_compute. exact I. Defined.

Lemma foreign_record_not_found_witness :
  req_user (Sample.request (Some 1) [] []) = Some 1 ∧
  db_consistent Sample.db ∧
  dispatch (destroy_action AlbumViewSet.viewset (Sample.request (Some 1) [] [])
              (album_id Sample.garden)) Sample.db =
    (mkResponse HTTP_404_NOT_FOUND (JObj [("detail", JStr "Not found.")]), Sample.db).
Proof.
  split; [reflexivity|]. split; [exact sample_db_consistent|].
  refine (proj1 (proj1 (@foreign_record_not_found Sample.framework Sample.db
                          (Sample.request (Some 1) [] []) 1 eq_refl
                          sample_db_consistent) Sample.garden _ _ _ _)).
  - right. left.
  - simpl. lia.
  - do 3 right. left.
Defined.

(** ** Text fields *)

Lemma run_validators_inr {A} (validators : list (A → option string)) a a' :
  run_validators validators a = inr a' → a' = a.
Proof.
  unfold run_validators. destruct (omap _ validators); [|done].
  by intros [= ->].
Qed.

Lemma run_validators_fail {A} (validators : list (A → option string)) v a msg :
  v ∈ validators → v a = Some msg →
  ∃ msgs, run_validators validators a = inl msgs.
Proof.
  intros Hv Hmsg. unfold run_validators.
  assert (Hin : msg ∈ omap (λ v, v a) validators)
    by (apply list_elem_of_omap; eauto).
  destruct (omap _ validators) as [|m msgs]; [by apply not_elem_of_nil in Hin|].
  by eexists.
Qed.

Lemma run_validators_pass {A} (validators : list (A → option string)) v a a' :
  run_validators validators a = inr a' → v ∈ validators → v a = None.
Proof.
  unfold run_validators. intros Hrun Hv.
  destruct (v a) as [msg|] eqn:Hmsg; [|done].
  assert (Hin : msg ∈ omap (λ v, v a) validators)
    by (apply list_elem_of_omap; eauto).
  destruct (omap _ validators); [by apply not_elem_of_nil in Hin|done].
Qed.

(** Text that may not be blank has been shown to every validator. *)
Lemma text_value_passes validators x s' v :
  text_value false validators x = inr s' → v ∈ validators → v s' = None.
Proof.
  intros Hrun Hv. destruct x as [| |z|s| |]; simpl in Hrun; try done.
  - pose proof (run_validators_inr _ _ _ Hrun) as ->.
    by apply (run_validators_pass _ _ _ _ Hrun).
  - destruct (decide (strip s = EmptyString)); [done|].
    pose proof (run_validators_inr _ _ _ Hrun) as ->.
    by apply (run_validators_pass _ _ _ _ Hrun).
Qed.

(** Text one validator objects to is refused, trimmed first. *)
Lemma text_value_str_refused validators v s msg :
  v ∈ validators → v (strip s) = Some msg →
  ∃ msgs, text_value false validators (JStr s) = inl msgs.
Proof.
  intros Hv Hmsg. simpl.
  destruct (decide (strip s = EmptyString)); [by eexists|].
  by apply (run_validators_fail validators v (strip s) msg).
Qed.

Lemma text_value_int_refused allow_blank validators v z msg :
  v ∈ validators → v (pretty z) = Some msg →
  ∃ msgs, text_value allow_blank validators (JInt z) = inl msgs.
Proof.
  intros Hv Hmsg. simpl.
  by apply (run_validators_fail validators v (pretty z) msg).
Qed.

(** What a text field that raised no error holds: the trimmed text of a
    JSON string, the decimal form of a JSON integer. *)
Lemma text_value_inr allow_blank validators x s' :
  text_value allow_blank validators x = inr s' →
  (∀ s, x = JStr s → s' = strip s) ∧ (∀ z, x = JInt z → s' = pretty z).
Proof.
  intros Hrun. split.
  - intros s ->. simpl in Hrun.
    destruct (decide (strip s = EmptyString)) as [Hblank|_].
    + destruct allow_blank; [|done]. rewrite Hblank. by simplify_eq.
    + by apply run_validators_inr in Hrun.
  - intros z ->. simpl in Hrun. by apply run_validators_inr in Hrun.
Qed.

Lemma run_field_text (partial required : bool) allow_blank validators field v :
  field_errors field
    (run_field partial required (text_value allow_blank validators) v) = [] →
  (v = None →
     field_value (run_field partial required (text_value allow_blank validators) v) = None) ∧
  (∀ s, v = Some (JStr s) →
     field_value (run_field partial required (text_value allow_blank validators) v)
       = Some (strip s)) ∧
  (∀ z, v = Some (JInt z) →
     field_value (run_field partial required (text_value allow_blank validators) v)
       = Some (pretty z)).
Proof.
  intros Herrs. split; [|split].
  - intros ->. simpl in *. by destruct (required && negb partial).
  - intros s ->. unfold run_field in *.
    destruct (text_value _ _ (JStr s)) as [msgs|s'] eqn:Hrun; [done|].
    apply text_value_inr in Hrun as [Hstr _]. simpl. by rewrite (Hstr s).
  - intros z ->. unfold run_field in *.
    destruct (text_value _ _ (JInt z)) as [msgs|s'] eqn:Hrun; [done|].
    apply text_value_inr in Hrun as [_ Hint]. simpl. by rewrite (Hint z).
Qed.

(** ** Creation *)

(** Setting the tags of a photo from a queryset: the backend takes the
    identifiers, or raises before a row is written. *)
Lemma photo_tags_set_queryset_run `{Backend} pk ids db :
  forallb database_integer ids = true →
  photo_tags_set_queryset pk ids db =
    (inr tt, photo_tags_set pk (Tag_objects_filter_id_in ids db) db).
Proof.
  intros Hids. unfold photo_tags_set_queryset, Tag_objects_filter_id_in_fetch, bind.
  by rewrite Hids.
Qed.

Lemma photo_tags_set_queryset_overflow `{Backend} pk ids db :
  forallb database_integer ids = false →
  photo_tags_set_queryset pk ids db = (inl OverflowError, db).
Proof.
  intros Hids. unfold photo_tags_set_queryset, Tag_objects_filter_id_in_fetch, bind.
  by rewrite Hids.
Qed.

Lemma unbounded_takes ids : forallb (@database_integer unbounded) ids = true.
Proof. by induction ids. Qed.

Lemma album_validation_ignores_owner partial instance db d v :
  AlbumSerializer.run_validation partial instance db (<["owner" := v]> d) =
  AlbumSerializer.run_validation partial instance db d.
Proof.
  unfold AlbumSerializer.run_validation.
  by rewrite !lookup_insert_ne by done.
Qed.

Lemma photo_validation_ignores_owner `{Framework} partial instance db d v :
  PhotoSerializer.run_validation partial instance db (<["owner" := v]> d) =
  PhotoSerializer.run_validation partial instance db d.
Proof.
  unfold PhotoSerializer.run_validation.
  by rewrite !lookup_insert_ne by done.
Qed.

Lemma create_action_run {Row VD} (vs : ModelViewSet Row VD) req db vd :
  permitted vs "create" req →
  vs_run_validation vs false None db (req_data req) = inr vd →
  dispatch (create_action vs req) db =
    match vs_serializer_create vs (req_now req) (vs_perform_create vs req vd) db with
    | (inr obj, db') =>
        (mkResponse HTTP_201_CREATED (vs_to_representation vs db' obj), db')
    | (inl e, db') => (handle_exception e, db')
    end.
Proof.
  intros Hperm Hvalid. run_handler Hperm. rewrite Hvalid.
  by destruct (vs_serializer_create _ _ _ _) as [[e|obj] db'].
Qed.

Lemma create_action_invalid {Row VD} (vs : ModelViewSet Row VD) req db errors :
  permitted vs "create" req →
  vs_run_validation vs false None db (req_data req) = inl errors →
  dispatch (create_action vs req) db =
    (mkResponse HTTP_400_BAD_REQUEST (error_detail errors), db).
Proof.
  intros Hperm Hvalid. run_handler Hperm. by rewrite Hvalid.
Qed.

Lemma required_field_value {A} field (run_validation : json → list string + A) v :
  field_errors field (run_field false true run_validation v) = [] →
  is_Some (field_value (run_field false true run_validation v)).
Proof.
  unfold run_field. destruct v as [x|]; simpl; [|done].
  destruct (run_validation x) as [msgs|a]; simpl; [done|by eexists].
Qed.

(** A value that passed a uniqueness check is not among the taken. *)
Lemma unique_field_free (partial required : bool) validators taken msg v s :
  UniqueValidator taken msg ∈ validators →
  field_value (run_field partial required (text_value false validators) v) = Some s →
  s ∉ taken.
Proof.
  intros Hunique Hvalue Htaken. unfold run_field in Hvalue.
  destruct v as [x|]; [|by destruct (required && negb partial)].
  destruct (text_value false validators x) as [msgs|s'] eqn:Hrun; [done|].
  simpl in Hvalue. simplify_eq.
  pose proof (text_value_passes _ _ _ _ Hrun Hunique) as Hpass.
  unfold UniqueValidator in Hpass. by rewrite decide_True in Hpass.
Qed.

(** *** The user serializer *)

(** What valid user data hold for each text field of the body. *)
Lemma user_validation_text `{Framework} partial instance db d vd :
  UserSerializer.run_validation partial instance db d = inr vd →
  Forall (λ '(key, entry), text_entry d key entry)
    [("username", ud_username vd); ("email", ud_email vd);
     ("first_name", ud_first_name vd); ("last_name", ud_last_name vd);
     ("bio", ud_bio vd)].
Proof.
  unfold UserSerializer.run_validation. intros Hvalid.
  destruct (concat _) eqn:Herrs in Hvalid; [|done].
  simplify_eq. cbn [concat] in Herrs.
  apply app_nil in Herrs as [Husername Herrs].
  apply app_nil in Herrs as [Hemail Herrs].
  apply app_nil in Herrs as [Hfirst Herrs].
  apply app_nil in Herrs as [Hlast Herrs].
  apply app_nil in Herrs as [_ Herrs].
  apply app_nil in Herrs as [Hbio _].
  cbn [ud_username ud_email ud_first_name ud_last_name ud_bio].
  repeat constructor; unfold text_entry; by eapply run_field_text.
Qed.

(** A full validation leaves no user data without a user name. *)
Lemma user_validation_username `{Framework} instance db d vd :
  UserSerializer.run_validation false instance db d = inr vd →
  is_Some (ud_username vd).
Proof.
  unfold UserSerializer.run_validation. intros Hvalid.
  destruct (concat _) eqn:Herrs in Hvalid; [|done].
  simplify_eq. cbn [concat] in Herrs. apply app_nil in Herrs as [Herrs _].
  cbn [ud_username]. by eapply required_field_value.
Qed.

(** A validated user name is carried by no row other than the instance. *)
Lemma user_validation_free `{Framework} partial instance db d vd s :
  UserSerializer.run_validation partial instance db d = inr vd →
  ud_username vd = Some s →
  s ∉ username <$> filter (λ u, Some (user_id u) ≠ user_id <$> instance) (users db).
Proof.
  unfold UserSerializer.run_validation. intros Hvalid Hs.
  destruct (concat _) in Hvalid; [|done].
  simplify_eq. cbn [ud_username] in Hs.
  eapply unique_field_free; [|exact Hs]. simpl. right. left.
Qed.

(** A user name that, once trimmed, is carried by a row other than the
    instance fails validation, with an entry for the field; so does a
    number whose decimal form is. *)
Lemma user_validation_conflict `{Framework} partial instance db d s :
  d !! "username" = Some (JStr s) →
  strip s ∈ username <$> filter (λ u, Some (user_id u) ≠ user_id <$> instance) (users db) →
  ∃ errors, UserSerializer.run_validation partial instance db d = inl errors ∧
            "username" ∈ errors.*1.
Proof.
  intros Hd Htaken. unfold UserSerializer.run_validation. rewrite Hd.
  unfold run_field at 1, CharField at 1.
  match goal with
  | |- context [text_value false ?vs (JStr s)] =>
      destruct (text_value_str_refused vs
                  (UniqueValidator
                     (username <$> filter (λ u, Some (user_id u) ≠ user_id <$> instance)
                                     (users db))
                     "A user with that username already exists.") s
                  "A user with that username already exists.") as [msgs Hmsgs]
  end.
  { simpl. right. left. }
  { unfold UniqueValidator. by rewrite decide_True. }
  rewrite Hmsgs. simpl. eexists. split; [reflexivity|]. left.
Qed.

Lemma user_validation_conflict_int `{Framework} partial instance db d z :
  d !! "username" = Some (JInt z) →
  pretty z ∈ username <$> filter (λ u, Some (user_id u) ≠ user_id <$> instance) (users db) →
  ∃ errors, UserSerializer.run_validation partial instance db d = inl errors ∧
            "username" ∈ errors.*1.
Proof.
  intros Hd Htaken. unfold UserSerializer.run_validation. rewrite Hd.
  unfold run_field at 1, CharField at 1.
  match goal with
  | |- context [text_value false ?vs (JInt z)] =>
      destruct (text_value_int_refused false vs
                  (UniqueValidator
                     (username <$> filter (λ u, Some (user_id u) ≠ user_id <$> instance)
                                     (users db))
                     "A user with that username already exists.") z
                  "A user with that username already exists.") as [msgs Hmsgs]
  end.
  { simpl. right. left. }
  { unfold UniqueValidator. by rewrite decide_True. }
  rewrite Hmsgs. simpl. eexists. split; [reflexivity|]. left.
Qed.

(** *** The tag serializer *)

Lemma tag_validation_text partial instance db d vd :
  TagSerializer.run_validation partial instance db d = inr vd →
  text_entry d "name" (td_name vd).
Proof.
  unfold TagSerializer.run_validation. intros Hvalid.
  destruct (field_errors _ _) eqn:Herrs in Hvalid; [|done].
  simplify_eq. cbn [td_name]. unfold text_entry. by eapply run_field_text.
Qed.

Lemma tag_validation_free partial instance db d vd s :
  TagSerializer.run_validation partial instance db d = inr vd →
  td_name vd = Some s →
  s ∉ name <$> filter (λ t, Some (tag_id t) ≠ tag_id <$> instance) (tags db).
Proof.
  unfold TagSerializer.run_validation. intros Hvalid Hs.
  destruct (field_errors _ _) in Hvalid; [|done].
  simplify_eq. cbn [td_name] in Hs.
  eapply unique_field_free; [|exact Hs]. simpl. left.
Qed.

(** A tag that passes a full validation has a name, and no row other than
    the instance carries it. *)
Lemma tag_validation_name instance db d vd :
  TagSerializer.run_validation false instance db d = inr vd →
  ∃ s, td_name vd = Some s ∧
       s ∉ name <$> filter (λ t, Some (tag_id t) ≠ tag_id <$> instance) (tags db).
Proof.
  intros Hvalid.
  assert (Hsome : is_Some (td_name vd)).
  { unfold TagSerializer.run_validation in Hvalid.
    destruct (field_errors _ _) eqn:Herrs in Hvalid; [|done].
    simplify_eq. cbn [td_name]. by eapply required_field_value. }
  destruct Hsome as [s Hs]. exists s. split; [done|].
  by apply (tag_validation_free _ _ _ _ _ _ Hvalid).
Qed.

Lemma tag_validation_conflict partial instance db d s :
  d !! "name" = Some (JStr s) →
  strip s ∈ name <$> filter (λ t, Some (tag_id t) ≠ tag_id <$> instance) (tags db) →
  ∃ errors, TagSerializer.run_validation partial instance db d = inl errors ∧
            "name" ∈ errors.*1.
Proof.
  intros Hd Htaken. unfold TagSerializer.run_validation. rewrite Hd.
  unfold run_field, CharField.
  match goal with
  | |- context [text_value false ?vs (JStr s)] =>
      destruct (text_value_str_refused vs
                  (UniqueValidator
                     (name <$> filter (λ t, Some (tag_id t) ≠ tag_id <$> instance)
                                 (tags db))
                     "tag with this name already exists.") s
                  "tag with this name already exists.") as [msgs Hmsgs]
  end.
  { simpl. left. }
  { unfold UniqueValidator. by rewrite decide_True. }
  rewrite Hmsgs. simpl. eexists. split; [reflexivity|]. left.
Qed.

(** A photo that passes a full validation names its album. *)
Lemma photo_validation_album `{Framework} instance db d vd :
  PhotoSerializer.run_validation false instance db d = inr vd →
  is_Some (pd_album vd).
Proof.
  unfold PhotoSerializer.run_validation. intros Hvalid.
  destruct (concat _) eqn:Herrs in Hvalid; [|done].
  simplify_eq/=.
  repeat (apply app_nil in Herrs as [? Herrs]).
  by eapply required_field_value.
Qed.

(** C2.  A valid album or photo create request of an authenticated caller
    adds one row whose owner is the caller, and answers 201; an [owner]
    entry in the request body changes neither the response nor the
    store. *)
Theorem create_forces_owner `{Framework} (db : DB) (req : Request) (u : Z) :
  req_user req = Some u →
  (∀ vd, AlbumSerializer.run_validation false None db (req_data req) = inr vd →
     ∃ a db',
       dispatch (AlbumViewSet.create req) db =
         (mkResponse HTTP_201_CREATED (AlbumSerializer.to_representation db' a), db') ∧
       albums db' = (albums db ++ [a])%list ∧ album_owner a = u) ∧
  (∀ vd, PhotoSerializer.run_validation false None db (req_data req) = inr vd →
     ∃ p db',
       dispatch (PhotoViewSet.create req) db =
         (mkResponse HTTP_201_CREATED (PhotoSerializer.to_representation db' p), db') ∧
       photos db' = (photos db ++ [p])%list ∧ owner p = u) ∧
  (∀ v, dispatch (AlbumViewSet.create (with_data (<["owner" := v]> (req_data req)) req)) db =
        dispatch (AlbumViewSet.create req) db) ∧
  (∀ v, dispatch (PhotoViewSet.create (with_data (<["owner" := v]> (req_data req)) req)) db =
        dispatch (PhotoViewSet.create req) db).
Proof.
  intros Hu. pose proof (authenticated_permitted req u Hu) as Hperm.
  split; [|split; [|split]].
  - intros vd Hvalid. unfold AlbumViewSet.create.
    rewrite (create_action_run AlbumViewSet.viewset req db vd Hperm Hvalid).
    simpl. unfold AlbumSerializer.create. simpl. rewrite Hu.
    eexists _, _. split; [reflexivity|]. done.
  - intros vd Hvalid. unfold PhotoViewSet.create.
    rewrite (create_action_run PhotoViewSet.viewset req db vd Hperm Hvalid).
    simpl. unfold PhotoSerializer.create, PhotoSerializer.Photo_objects_create, bind.
    simpl. rewrite Hu.
    destruct (photo_validation_album _ _ _ _ Hvalid) as [a Ha]. rewrite Ha.
    destruct (decide (default [] (pd_tag_ids vd) ≠ [])); simpl;
      rewrite ?photo_tags_set_queryset_run by apply unbounded_takes; simpl;
      eexists _, _; (split; [reflexivity|]); done.
  - intros v. unfold AlbumViewSet.create, dispatch, create_action, is_valid,
      check_permissions, bind, query, with_data, AlbumViewSet.viewset.
    cbn [req_data req_user req_now vs_run_validation vs_get_permissions].
    rewrite !(authenticated_permitted _ u) by exact Hu.
    cbv beta iota delta [ret].
    by rewrite album_validation_ignores_owner.
  - intros v. unfold PhotoViewSet.create, dispatch, create_action, is_valid,
      check_permissions, bind, query, with_data, PhotoViewSet.viewset.
    cbn [req_data req_user req_now vs_run_validation vs_get_permissions].
    rewrite !(authenticated_permitted _ u) by exact Hu.
    cbv beta iota delta [ret].
    by rewrite photo_validation_ignores_owner.
Qed.

Lemma create_forces_owner_witness :
  req_user (Sample.request (Some 1) [("title", JStr "Trip"); ("owner", JInt 2)] []) = Some 1 ∧
  ∃ a db',
    dispatch (AlbumViewSet.create
                (Sample.request (Some 1) [("title", JStr "Trip"); ("owner", JInt 2)] []))
      Sample.db =
      (mkResponse HTTP_201_CREATED (AlbumSerializer.to_representation db' a), db') ∧
    albums db' = (albums Sample.db ++ [a])%list ∧ album_owner a = 1.
Proof.
  split; [reflexivity|].
  apply (proj1 (@create_forces_owner Sample.framework Sample.db
                  (Sample.request (Some 1) [("title", JStr "Trip"); ("owner", JInt 2)] [])
                  1 eq_refl)
           (mkAlbumData (Some "Trip") None None)).
  vm_compute. reflexivity.
Defined.

(** ** Tags of a photo *)

Lemma fresh_pk_fresh (pks : list Z) : fresh_pk pks ∉ pks.
Proof.
  assert (Hle : ∀ x, x ∈ pks → (x ≤ foldr Z.max 0 pks)%Z).
  { induction pks as [|y pks IH]; intros x Hx.
    - by apply not_elem_of_nil in Hx.
    - simpl. apply elem_of_cons in Hx as [->|Hx]; [lia|].
      specialize (IH x Hx). lia. }
  intros Hin. apply Hle in Hin. unfold fresh_pk in Hin. lia.
Qed.

(** After [photo.tags.set(tags)] the photo is joined to the given tags
    and to no other; the rows of other photos stay. *)
Lemma photo_tags_set_joined pk new db t :
  (pk, t) ∈ photo_tags (photo_tags_set pk new db) ↔ t ∈ tag_id <$> new.
Proof.
  unfold photo_tags_set. simpl.
  rewrite elem_of_app, list_elem_of_filter, list_elem_of_fmap. simpl.
  rewrite elem_of_remove_dups. split.
  - intros [[[Hne|Hin] _]|(t' & Heq & Hin)]; [by destruct Hne|done|].
    simplify_eq. apply list_elem_of_filter in Hin as [_ Hin].
    by rewrite elem_of_remove_dups in Hin.
  - intros Hin.
    destruct (decide ((pk, t) ∈ photo_tags db)) as [Hold|Hold]; [left; auto|].
    right. exists t. split; [done|].
    apply list_elem_of_filter. split; [|by apply elem_of_remove_dups].
    rewrite list_elem_of_filter. tauto.
Qed.

Lemma photo_tags_set_others pk new db pk' t :
  pk' ≠ pk →
  (pk', t) ∈ photo_tags (photo_tags_set pk new db) ↔ (pk', t) ∈ photo_tags db.
Proof.
  intros Hne. unfold photo_tags_set. simpl.
  rewrite elem_of_app, list_elem_of_filter, list_elem_of_fmap. simpl. split.
  - intros [[_ Hin]|(t' & Heq & _)]; [done|]. by simplify_eq.
  - intros Hin. left. auto.
Qed.

Lemma photo_tags_all_set db pk ids t :
  t ∈ photo_tags_all (photo_tags_set pk (Tag_objects_filter_id_in ids db) db) pk ↔
  t ∈ tags db ∧ tag_id t ∈ ids.
Proof.
  unfold photo_tags_all. rewrite list_elem_of_filter, photo_tags_set_joined.
  simpl. unfold Tag_objects_filter_id_in. rewrite list_elem_of_fmap. split.
  - intros [(t' & Heq & Hin) Ht]. split; [done|].
    apply list_elem_of_filter in Hin as [Hin _]. by rewrite Heq.
  - intros [Ht Hin]. split; [|done]. exists t. split; [done|].
    by apply list_elem_of_filter.
Qed.

Lemma mapM_IntegerField (ids : list Z) :
  mapM (λ i, match IntegerField i with inr z => Some z | inl _ => None end)
    (JInt <$> ids) = Some ids.
Proof.
  apply mapM_Some. induction ids as [|z ids IH]; simpl; by constructor.
Qed.

(** A request that carries a list of integers as [tag_ids] and passes
    validation has that list in its validated data. *)
Lemma photo_validation_tag_ids `{Framework} partial instance db d vd ids :
  d !! "tag_ids" = Some (JList (JInt <$> ids)) →
  PhotoSerializer.run_validation partial instance db d = inr vd →
  pd_tag_ids vd = Some ids.
Proof.
  unfold PhotoSerializer.run_validation. intros Hids Hvalid.
  destruct (concat _) in Hvalid; [|done].
  simplify_eq/=. rewrite Hids. simpl. by rewrite mapM_IntegerField.
Qed.

(** Without the field there is no entry. *)
Lemma photo_validation_no_tag_ids `{Framework} partial instance db d vd :
  d !! "tag_ids" = None →
  PhotoSerializer.run_validation partial instance db d = inr vd →
  pd_tag_ids vd = None.
Proof.
  unfold PhotoSerializer.run_validation. intros Hids Hvalid.
  destruct (concat _) in Hvalid; [|done].
  simplify_eq/=. by rewrite Hids.
Qed.

Lemma update_action_run {Row VD} (vs : ModelViewSet Row VD) (partial : bool)
    req pk db instance vd :
  permitted vs (if partial then "partial_update" else "update") req →
  get_by_pk (vs_pk vs) pk (vs_get_queryset vs req db) = Some instance →
  vs_run_validation vs partial (Some instance) db (req_data req) = inr vd →
  dispatch (update_action vs partial req pk) db =
    match vs_serializer_update vs (req_now req) instance vd db with
    | (inr obj, db') =>
        (mkResponse HTTP_200_OK (vs_to_representation vs db' obj), db')
    | (inl e, db') => (handle_exception e, db')
    end.
Proof.
  intros Hperm Hget Hvalid. run_handler Hperm. rewrite Hget, Hvalid.
  by destruct (vs_serializer_update _ _ _ _ _) as [[e|obj] db'].
Qed.

(** [PhotoSerializer.create], run on validated data that names album and
    owner: the row is inserted, then joined to the tags when [tag_ids] is
    not empty. *)
Lemma PhotoSerializer_create_run `{Backend} now vd db a o :
  pd_album vd = Some a → pd_owner vd = Some o →
  forallb database_integer (default [] (pd_tag_ids vd)) = true →
  let p := mkPhoto (fresh_pk (photo_id <$> photos db))
             (default EmptyString (pd_title vd))
             (default EmptyString (pd_description vd))
             (default EmptyString (pd_image vd)) now a o in
  let db1 := set_photos (photos db ++ [p])%list db in
  let ids := default [] (pd_tag_ids vd) in
  PhotoSerializer.create now vd db =
    (inr p, if decide (ids ≠ [])
            then photo_tags_set (photo_id p) (Tag_objects_filter_id_in ids db1) db1
            else db1).
Proof.
  intros Ha Ho Hids. simpl.
  unfold PhotoSerializer.create, PhotoSerializer.Photo_objects_create, bind.
  simpl. rewrite Ha, Ho.
  destruct (decide (default [] (pd_tag_ids vd) ≠ [])); [|done].
  by rewrite photo_tags_set_queryset_run.
Qed.

(** When the backend refuses an identifier the row has been inserted
    already, and stays. *)
Lemma PhotoSerializer_create_overflow `{Backend} now vd db a o :
  pd_album vd = Some a → pd_owner vd = Some o →
  forallb database_integer (default [] (pd_tag_ids vd)) = false →
  let p := mkPhoto (fresh_pk (photo_id <$> photos db))
             (default EmptyString (pd_title vd))
             (default EmptyString (pd_description vd))
             (default EmptyString (pd_image vd)) now a o in
  PhotoSerializer.create now vd db =
    (inl OverflowError, set_photos (photos db ++ [p])%list db).
Proof.
  intros Ha Ho Hids. simpl.
  unfold PhotoSerializer.create, PhotoSerializer.Photo_objects_create, bind.
  simpl. rewrite Ha, Ho.
  destruct (decide (default [] (pd_tag_ids vd) ≠ [])) as [Hne|Heq].
  - by rewrite photo_tags_set_queryset_overflow.
  - apply dec_stable in Heq. by rewrite Heq in Hids.
Qed.

(** [PhotoSerializer.update]: the tags are replaced when [tag_ids] is
    there, then the row is saved with the other validated attributes. *)
Lemma PhotoSerializer_update_run `{Backend} now instance vd db :
  forallb database_integer (default [] (pd_tag_ids vd)) = true →
  let db0 := match pd_tag_ids vd with
             | Some ids => photo_tags_set (photo_id instance)
                             (Tag_objects_filter_id_in ids db) db
             | None => db
             end in
  let p := mkPhoto (photo_id instance)
             (default (title instance) (pd_title vd))
             (default (description instance) (pd_description vd))
             (default (image instance) (pd_image vd))
             (uploaded_at instance)
             (default (album instance) (pd_album vd))
             (default (owner instance) (pd_owner vd)) in
  PhotoSerializer.update now instance vd db =
    (inr p, set_photos (save_row photo_id p (photos db0)) db0).
Proof.
  intros Hids. simpl.
  unfold PhotoSerializer.update, PhotoSerializer.super_update, bind, modify, ret.
  destruct (pd_tag_ids vd) as [ids|]; [|done].
  by rewrite photo_tags_set_queryset_run.
Qed.

(** When the backend refuses an identifier nothing has been written. *)
Lemma PhotoSerializer_update_overflow `{Backend} now instance vd db :
  forallb database_integer (default [] (pd_tag_ids vd)) = false →
  PhotoSerializer.update now instance vd db = (inl OverflowError, db).
Proof.
  intros Hids.
  unfold PhotoSerializer.update, PhotoSerializer.super_update, bind, modify, ret.
  destruct (pd_tag_ids vd) as [ids|]; [|done].
  by rewrite photo_tags_set_queryset_overflow.
Qed.

(** The rows [photo.tags.set] leaves for the photo, as the through table
    has them. *)
Lemma photo_tags_set_filter_joined db0 db1 db pk ids tid :
  tags db0 = tags db →
  (pk, tid) ∈ photo_tags (photo_tags_set pk (Tag_objects_filter_id_in ids db0) db1) ↔
  tid ∈ ids ∧ tid ∈ tag_id <$> tags db.
Proof.
  intros Htags. rewrite photo_tags_set_joined. unfold Tag_objects_filter_id_in.
  rewrite Htags, !list_elem_of_fmap. split.
  - intros (t & -> & [Hin Ht]%list_elem_of_filter). split; [done|by exists t].
  - intros [Hin (t & -> & Ht)]. exists t. split; [done|]. by apply list_elem_of_filter.
Qed.

(** A key no photo has yet is in no row of the through table. *)
Lemma fresh_pk_unjoined db tid :
  db_consistent db → (fresh_pk (photo_id <$> photos db), tid) ∉ photo_tags db.
Proof.
  intros (_ & _ & _ & _ & _ & _ & _ & Hfk) Hrow.
  rewrite Forall_forall in Hfk. apply Hfk in Hrow as [Hrow _].
  by apply fresh_pk_fresh in Hrow.
Qed.

(** The bounds of [sqlite], read off a refused list. *)
Lemma sqlite_refuses ids z :
  z ∈ ids → ¬ (- 2 ^ 63 ≤ z < 2 ^ 63) →
  forallb (@database_integer sqlite) ids = false.
Proof.
  intros Hz Hout. apply not_true_is_false. intros Hall.
  rewrite forallb_forall in Hall. apply Hout.
  apply (bool_decide_eq_true_1 _). apply (Hall z). by apply list_elem_of_In.
Qed.

(** X22.  On every backend: a valid photo create or update request that
    carries as [tag_ids] a list [ids] of integers the backend takes
    succeeds (201, 200), and afterwards the photo is joined, in the
    through table, to exactly the keys of [ids] that are the primary key
    of an existing tag, so its tags are exactly the existing tags whose
    key occurs in [ids]; keys of no existing tag are dropped. *)
Theorem taken_tag_ids_select_existing_tags `{Framework} `{Backend} (db : DB)
    (req : Request) (u : Z) (ids : list Z) :
  req_user req = Some u →
  db_consistent db →
  req_data req !! "tag_ids" = Some (JList (JInt <$> ids)) →
  forallb database_integer ids = true →
  (∀ vd, PhotoSerializer.run_validation false None db (req_data req) = inr vd →
     ∃ p db',
       dispatch (PhotoViewSet.create req) db =
         (mkResponse HTTP_201_CREATED (PhotoSerializer.to_representation db' p), db') ∧
       photos db' = (photos db ++ [p])%list ∧
       tags db' = tags db ∧
       (∀ tid, (photo_id p, tid) ∈ photo_tags db' ↔
               tid ∈ ids ∧ tid ∈ tag_id <$> tags db) ∧
       ∀ t, t ∈ photo_tags_all db' (photo_id p) ↔ t ∈ tags db ∧ tag_id t ∈ ids) ∧
  (∀ (partial : bool) instance vd,
     instance ∈ photos db → owner instance = u →
     PhotoSerializer.run_validation partial (Some instance) db (req_data req) = inr vd →
     ∃ p db',
       dispatch (update_action PhotoViewSet.viewset partial req (photo_id instance)) db =
         (mkResponse HTTP_200_OK (PhotoSerializer.to_representation db' p), db') ∧
       photo_id p = photo_id instance ∧
       tags db' = tags db ∧
       (∀ tid, (photo_id instance, tid) ∈ photo_tags db' ↔
               tid ∈ ids ∧ tid ∈ tag_id <$> tags db) ∧
       ∀ t, t ∈ photo_tags_all db' (photo_id instance) ↔ t ∈ tags db ∧ tag_id t ∈ ids).
Proof.
  intros Hu Hcons Hids Htaken.
  pose proof (authenticated_permitted req u Hu) as Hperm.
  pose proof Hcons as (_ & _ & _ & _ & _ & Hpho & _ & Hfk).
  split.
  - intros vd Hvalid.
    destruct (photo_validation_album _ _ _ _ Hvalid) as [a Ha].
    pose proof (photo_validation_tag_ids _ _ _ _ _ _ Hids Hvalid) as Htags.
    unfold PhotoViewSet.create.
    rewrite (create_action_run PhotoViewSet.viewset req db vd Hperm Hvalid).
    cbn [vs_serializer_create vs_perform_create vs_to_representation
         PhotoViewSet.viewset].
    rewrite (PhotoSerializer_create_run _ _ _ a u);
      [|done|done|by cbn [PhotoViewSet.perform_create pd_tag_ids]; rewrite Htags].
    cbn [PhotoViewSet.perform_create pd_tag_ids pd_title pd_description pd_image].
    rewrite Htags. change (default [] (Some ids)) with ids.
    eexists _, _. split; [reflexivity|].
    destruct (decide (ids ≠ [])) as [Hne|Heq].
    + split; [done|]. split; [done|]. split.
      * intros tid. by apply photo_tags_set_filter_joined.
      * intros t. by rewrite photo_tags_all_set.
    + apply dec_stable in Heq. subst ids. split; [done|]. split; [done|]. split.
      * intros tid. split; [|by intros [?%not_elem_of_nil _]].
        intros Hrow. by apply (fresh_pk_unjoined db tid) in Hrow.
      * intros t. unfold photo_tags_all. rewrite list_elem_of_filter.
        cbn [photo_id]. simpl.
        split; [|by intros [_ ?%not_elem_of_nil]].
        intros [Hrow _]. by apply (fresh_pk_unjoined db (tag_id t)) in Hrow.
  - intros partial instance vd Hin Hown Hvalid.
    pose proof (photo_validation_tag_ids _ _ _ _ _ _ Hids Hvalid) as Htags.
    assert (Hget : get_by_pk photo_id (photo_id instance)
                     (PhotoViewSet.get_queryset req db) = Some instance).
    { unfold PhotoViewSet.get_queryset. rewrite Hu.
      by apply get_by_pk_filter_unique. }
    rewrite (update_action_run PhotoViewSet.viewset partial req _ db instance vd);
      [|by destruct partial|done|done].
    cbn [vs_serializer_update vs_to_representation PhotoViewSet.viewset].
    rewrite PhotoSerializer_update_run by by rewrite Htags.
    rewrite Htags.
    eexists _, _. split; [reflexivity|]. split; [done|]. split; [done|]. split.
    + intros tid. by apply photo_tags_set_filter_joined.
    + intros t. apply photo_tags_all_set.
Qed.

Lemma taken_tag_ids_select_existing_tags_witness :
  req_user (Sample.request (Some 1) Sample.sunset_body []) = Some 1 ∧
  db_consistent Sample.db ∧
  req_data (Sample.request (Some 1) Sample.sunset_body []) !! "tag_ids" =
    Some (JList (JInt <$> [1; 9999])) ∧
  forallb (@database_integer sqlite) [1; 9999] = true ∧
  ∃ p db',
    dispatch (PhotoViewSet.create (H := Sample.framework) (backend := sqlite)
                (Sample.request (Some 1) Sample.sunset_body [])) Sample.db =
      (mkResponse HTTP_201_CREATED (PhotoSerializer.to_representation db' p), db') ∧
    photos db' = (photos Sample.db ++ [p])%list ∧
    tags db' = tags Sample.db ∧
    (∀ tid, (photo_id p, tid) ∈ photo_tags db' ↔
            tid ∈ [1; 9999] ∧ tid ∈ tag_id <$> tags Sample.db) ∧
    ∀ t, t ∈ photo_tags_all db' (photo_id p) ↔
         t ∈ tags Sample.db ∧ tag_id t ∈ [1; 9999].
Proof.
  split; [reflexivity|]. split; [exact sample_db_consistent|].
  split; [vm_compute; reflexivity|]. split; [reflexivity|].
  apply (proj1 (@taken_tag_ids_select_existing_tags Sample.framework sqlite Sample.db
                  (Sample.request (Some 1) Sample.sunset_body []) 1 [1; 9999]
                  eq_refl sample_db_consistent ltac:(vm_compute; reflexivity) eq_refl)
           (mkPhotoData (Some "Sunset") None (Some "photos/sunset.jpg") (Some 1)
              (Some [1; 9999]) None)).
  vm_compute. reflexivity.
Defined.

(** C4.  Keys of no existing tag are not always dropped: on SQLite, a
    valid photo create or update request whose [tag_ids] hold an integer
    outside the 64-bit range is answered 500, not 201 or 200.  The create
    has inserted the photo by then: the row stays, owned by the caller and
    joined to no tag, also not to the existing tags the list names.  The
    update sets the tags before it saves, and has written nothing. *)
Theorem tag_ids_overflow_leaves_photo `{Framework} (db : DB) (req : Request)
    (u : Z) (ids : list Z) (z : Z) :
  req_user req = Some u →
  db_consistent db →
  req_data req !! "tag_ids" = Some (JList (JInt <$> ids)) →
  z ∈ ids → ¬ (- 2 ^ 63 ≤ z < 2 ^ 63) →
  (∀ vd, PhotoSerializer.run_validation false None db (req_data req) = inr vd →
     ∃ p db',
       dispatch (PhotoViewSet.create (backend := sqlite) req) db =
         (mkResponse HTTP_500_INTERNAL_SERVER_ERROR JNull, db') ∧
       photos db' = (photos db ++ [p])%list ∧
       photo_tags db' = photo_tags db ∧
       owner p = u ∧
       ∀ tid, (photo_id p, tid) ∉ photo_tags db') ∧
  (∀ (partial : bool) instance vd,
     instance ∈ photos db → owner instance = u →
     PhotoSerializer.run_validation partial (Some instance) db (req_data req) = inr vd →
     dispatch (update_action (PhotoViewSet.viewset (backend := sqlite)) partial req
                 (photo_id instance)) db =
       (mkResponse HTTP_500_INTERNAL_SERVER_ERROR JNull, db)).
Proof.
  intros Hu Hcons Hids Hz Hout.
  pose proof (authenticated_permitted req u Hu) as Hperm.
  pose proof (sqlite_refuses ids z Hz Hout) as Hrefused.
  pose proof Hcons as (_ & _ & _ & _ & _ & Hpho & _).
  split.
  - intros vd Hvalid.
    destruct (photo_validation_album _ _ _ _ Hvalid) as [a Ha].
    pose proof (photo_validation_tag_ids _ _ _ _ _ _ Hids Hvalid) as Htags.
    unfold PhotoViewSet.create.
    rewrite (create_action_run PhotoViewSet.viewset req db vd Hperm Hvalid).
    cbn [vs_serializer_create vs_perform_create vs_to_representation
         PhotoViewSet.viewset].
    rewrite (PhotoSerializer_create_overflow _ _ _ a u);
      [|done|done|by cbn [PhotoViewSet.perform_create pd_tag_ids]; rewrite Htags].
    eexists _, _. split; [reflexivity|]. split; [done|]. split; [done|].
    split; [done|]. intros tid. by apply (fresh_pk_unjoined db tid).
  - intros partial instance vd Hin Hown Hvalid.
    pose proof (photo_validation_tag_ids _ _ _ _ _ _ Hids Hvalid) as Htags.
    assert (Hget : get_by_pk photo_id (photo_id instance)
                     (PhotoViewSet.get_queryset req db) = Some instance).
    { unfold PhotoViewSet.get_queryset. rewrite Hu.
      by apply get_by_pk_filter_unique. }
    rewrite (update_action_run PhotoViewSet.viewset partial req _ db instance vd);
      [|by destruct partial|done|done].
    cbn [vs_serializer_update vs_to_representation PhotoViewSet.viewset].
    by rewrite PhotoSerializer_update_overflow by by rewrite Htags.
Qed.

Lemma tag_ids_overflow_leaves_photo_witness :
  req_user (Sample.request (Some 1) Sample.overflow_body []) = Some 1 ∧
  db_consistent Sample.db ∧
  req_data (Sample.request (Some 1) Sample.overflow_body []) !! "tag_ids" =
    Some (JList (JInt <$> [1; 9223372036854775808])) ∧
  9223372036854775808 ∈ [1; 9223372036854775808] ∧
  ¬ (- 2 ^ 63 ≤ 9223372036854775808 < 2 ^ 63) ∧
  ∃ p db',
    dispatch (PhotoViewSet.create (H := Sample.framework) (backend := sqlite)
                (Sample.request (Some 1) Sample.overflow_body [])) Sample.db =
      (mkResponse HTTP_500_INTERNAL_SERVER_ERROR JNull, db') ∧
    photos db' = (photos Sample.db ++ [p])%list ∧
    photo_tags db' = photo_tags Sample.db ∧
    owner p = 1 ∧
    ∀ tid, (photo_id p, tid) ∉ photo_tags db'.
Proof.
  split; [reflexivity|]. split; [exact sample_db_consistent|].
  split; [vm_compute; reflexivity|].
  split; [right; left|]. split; [lia|].
  apply (proj1 (@tag_ids_overflow_leaves_photo Sample.framework Sample.db
                  (Sample.request (Some 1) Sample.overflow_body []) 1
                  [1; 9223372036854775808] 9223372036854775808
                  eq_refl sample_db_consistent ltac:(vm_compute; reflexivity)
                  ltac:(right; left) ltac:(lia))
           (mkPhotoData (Some "Sunset") None (Some "photos/sunset.jpg") (Some 1)
              (Some [1; 9223372036854775808]) None)).
  vm_compute. reflexivity.
Defined.

(** The same upload on the two backends: SQLite answers 500 and keeps the
    new photo, number 4, without a tag; a backend that compares integers
    of any size answers 201 and tags it "vacation". *)
Example overflow_upload :
  let '(response, db') :=
    dispatch (PhotoViewSet.create (H := Sample.framework) (backend := sqlite)
                (Sample.request (Some 1) Sample.overflow_body [])) Sample.db in
  let '(response', db'') :=
    dispatch (PhotoViewSet.create (H := Sample.framework) (backend := unbounded)
                (Sample.request (Some 1) Sample.overflow_body [])) Sample.db in
  status response = HTTP_500_INTERNAL_SERVER_ERROR ∧
  photo_id <$> photos db' = [1; 2; 3; 4] ∧ photo_tags_all db' 4 = [] ∧
  status response' = HTTP_201_CREATED ∧ photo_tags_all db'' 4 = [Sample.vacation].
Proof. vm_compute. done. Qed.

(** The upload of [Sample.sunset_body] ends up tagged "vacation" only. *)
Example sunset_tags :
  let '(response, db') :=
    dispatch (PhotoViewSet.create (H := Sample.framework)
                (Sample.request (Some 1) Sample.sunset_body [])) Sample.db in
  status response = HTTP_201_CREATED ∧ photo_tags_all db' 4 = [Sample.vacation].
Proof. vm_compute. done. Qed.

(** ** Search by tags *)

Lemma filter_tags_name_in_spec names db p :
  p ∈ Photo_objects_filter_tags_name_in names db ↔
  p ∈ photos db ∧
  ∃ t, t ∈ tags db ∧ (photo_id p, tag_id t) ∈ photo_tags db ∧ name t ∈ names.
Proof.
  unfold Photo_objects_filter_tags_name_in. rewrite list_elem_of_bind. split.
  - intros (p' & Hrows & Hp').
    apply list_elem_of_bind in Hrows as (r & Hrows & Hr).
    apply list_elem_of_bind in Hrows as (t & Hrows & Ht).
    destruct (decide _) as [(Hr1 & Hr2 & Hname)|_] in Hrows;
      [|by apply not_elem_of_nil in Hrows].
    apply list_elem_of_singleton in Hrows as ->.
    split; [done|]. exists t. split; [done|]. split; [|done].
    destruct r as [r1 r2]. simpl in *. by subst.
  - intros (Hp & t & Ht & Hr & Hname). exists p. split; [|done].
    apply list_elem_of_bind. exists (photo_id p, tag_id t). split; [|done].
    apply list_elem_of_bind. exists t. split; [|done].
    rewrite decide_True by done. left.
Qed.

Lemma search_by_tags_run `{Framework} req db u :
  req_user req = Some u →
  dispatch (PhotoViewSet.search_by_tags req) db =
    (mkResponse HTTP_200_OK
       (JList (PhotoSerializer.to_representation db <$>
                 PhotoViewSet.search_by_tags_queryset req db)), db).
Proof.
  intros Hu. pose proof (authenticated_permitted req u Hu) as Hperm.
  unfold dispatch, PhotoViewSet.search_by_tags, check_permissions, bind, query, ret.
  cbn [vs_get_permissions PhotoViewSet.viewset]. by rewrite Hperm.
Qed.

(** The values of a query parameter are what the query string pairs with
    its key. *)
Lemma elem_of_getlist key (q : list (string * string)) s :
  s ∈ getlist key q ↔ (key, s) ∈ q.
Proof.
  unfold getlist. rewrite list_elem_of_fmap. split.
  - intros ([k v] & -> & [Hk Hkv]%list_elem_of_filter). simpl in *. by subst.
  - intros Hkv. exists (key, s). split; [done|]. by apply list_elem_of_filter.
Qed.

(** C3.  For an authenticated caller the tag search answers 200 with the
    representations of a duplicate-free list of photos: exactly the photos
    in storage, of any owner, that the through table joins to at least one
    tag whose name the query string gives as a value of [tags]. *)
Theorem search_by_tags_distinct_matches `{Framework} (db : DB) (req : Request) (u : Z) :
  req_user req = Some u →
  ∃ rows,
    dispatch (PhotoViewSet.search_by_tags req) db =
      (mkResponse HTTP_200_OK (JList (PhotoSerializer.to_representation db <$> rows)), db) ∧
    NoDup rows ∧
    ∀ p, p ∈ rows ↔
         p ∈ photos db ∧
         ∃ t, t ∈ tags db ∧ (photo_id p, tag_id t) ∈ photo_tags db ∧
              ("tags", name t) ∈ req_query req.
Proof.
  intros Hu. exists (PhotoViewSet.search_by_tags_queryset req db).
  split; [by apply (search_by_tags_run req db u)|].
  unfold PhotoViewSet.search_by_tags_queryset, distinct. split.
  - apply NoDup_remove_dups.
  - intros p. rewrite elem_of_remove_dups, filter_tags_name_in_spec.
    by setoid_rewrite elem_of_getlist.
Qed.

(** C10.  Without any [tags] query parameter the search answers 200 with
    the empty list. *)
Theorem search_without_tags_is_empty `{Framework} (db : DB) (req : Request) (u : Z) :
  req_user req = Some u →
  (∀ kv, kv ∈ req_query req → kv.1 ≠ "tags") →
  dispatch (PhotoViewSet.search_by_tags req) db =
    (mkResponse HTTP_200_OK (JList []), db).
Proof.
  intros Hu Hnone. rewrite (search_by_tags_run req db u Hu).
  assert (Hrows : PhotoViewSet.search_by_tags_queryset req db = []).
  { apply elem_of_nil_inv. intros p Hp.
    unfold PhotoViewSet.search_by_tags_queryset, distinct in Hp.
    rewrite elem_of_remove_dups, filter_tags_name_in_spec in Hp.
    destruct Hp as (_ & t & _ & _ & Hname).
    unfold getlist in Hname.
    apply list_elem_of_fmap in Hname as (kv & _ & Hkv).
    apply list_elem_of_filter in Hkv as [Hkey Hkv].
    by apply (Hnone kv). }
  by rewrite Hrows.
Qed.

Lemma search_by_tags_distinct_matches_witness :
  req_user (Sample.request (Some 1) [] [("page", "2"); ("tags", "vacation")]) = Some 1 ∧
  ∃ rows,
    dispatch (PhotoViewSet.search_by_tags (H := Sample.framework)
                (Sample.request (Some 1) [] [("page", "2"); ("tags", "vacation")]))
      Sample.db =
      (mkResponse HTTP_200_OK
         (JList (PhotoSerializer.to_representation Sample.db <$> rows)), Sample.db) ∧
    NoDup rows ∧
    Sample.beach ∈ rows ∧ Sample.roses ∈ rows ∧ Sample.dunes ∉ rows.
Proof.
  split; [reflexivity|].
  destruct (@search_by_tags_distinct_matches Sample.framework Sample.db
              (Sample.request (Some 1) [] [("page", "2"); ("tags", "vacation")])
              1 eq_refl) as (rows & Hrun & Hnodup & Hrows).
  exists rows. split; [exact Hrun|]. split; [exact Hnodup|].
  split; [|split].
  - apply Hrows. split; [left|]. exists Sample.vacation.
    split; [left|]. split; [left|right; left].
  - apply Hrows. split; [right; left|]. exists Sample.vacation.
    split; [left|]. split; [do 2 right; left|right; left].
  - intros Hin. apply Hrows in Hin as (_ & t & _ & Hrow & _).
    simpl in Hrow.
    repeat (apply elem_of_cons in Hrow as [Heq|Hrow]; [by inversion Heq|]).
    by apply not_elem_of_nil in Hrow.
Defined.

(** Searched by the first account: a photo of the second account is among
    the rows, and a photo with two matching tags occurs once. *)
Example search_crosses_owners :
  PhotoViewSet.search_by_tags_queryset
    (Sample.request (Some 1) [] [("tags", "vacation"); ("tags", "family")]) Sample.db =
  [Sample.beach; Sample.roses].
Proof. vm_compute. reflexivity. Qed.

Lemma search_without_tags_is_empty_witness :
  req_user (Sample.request (Some 1) [] [("page", "2")]) = Some 1 ∧
  dispatch (PhotoViewSet.search_by_tags (H := Sample.framework)
              (Sample.request (Some 1) [] [("page", "2")])) Sample.db =
    (mkResponse HTTP_200_OK (JList []), Sample.db).
Proof.
  split; [reflexivity|].
  apply (@search_without_tags_is_empty Sample.framework Sample.db
           (Sample.request (Some 1) [] [("page", "2")]) 1 eq_refl).
  intros kv Hkv. apply list_elem_of_singleton in Hkv. subst kv.
  simpl. discriminate.
Defined.

(** ** Registration *)

(** A condition every row meets filters nothing out; so it is with the
    excluded instance of a uniqueness check on creation. *)
Lemma filter_all {A} (P : A → Prop) `{∀ x, Decision (P x)} (l : list A) :
  (∀ x, P x) → filter P l = l.
Proof.
  intros HP. induction l as [|x l IH]; [done|].
  rewrite filter_cons_True by done. by rewrite IH.
Qed.

(** Registration is open to everyone: the request is validated, and a
    valid one is saved and answered with the account and its tokens. *)
Lemma UserViewSet_create_run `{Framework} req db :
  dispatch (UserViewSet.create req) db =
    match UserSerializer.run_validation false None db (req_data req) with
    | inr vd =>
        let user := mkUser (fresh_pk (user_id <$> users db))
                      (default EmptyString (ud_username vd))
                      (default EmptyString (ud_email vd))
                      (default EmptyString (ud_first_name vd))
                      (default EmptyString (ud_last_name vd))
                      (default None (ud_profile_image vd))
                      (default EmptyString (ud_bio vd))
                      (req_now req) in
        let db' := set_users (users db ++ [user])%list db in
        (mkResponse HTTP_201_CREATED
           (JObj [("user", UserSerializer.to_representation db' user);
                  ("refresh", JStr (RefreshToken_for_user user).1);
                  ("access", JStr (RefreshToken_for_user user).2)]), db')
    | inl errors => (mkResponse HTTP_400_BAD_REQUEST (error_detail errors), db)
    end.
Proof.
  unfold dispatch, UserViewSet.create, check_permissions, bind, query, ret.
  cbn [vs_get_permissions UserViewSet.viewset].
  unfold UserViewSet.get_permissions. rewrite decide_True by done.
  cbn [forallb AllowAny andb].
  by destruct (UserSerializer.run_validation _ _ _ _).
Qed.

(** C5.  A registration whose validation succeeds adds the account, under
    a fresh key and leaving the other tables alone, and answers 201 with
    its representation, a refresh token and an access token.  The stored
    user name is the submitted one, trimmed (a submitted number is stored
    in decimal), and was carried by no account; a later registration under
    a user name that is the same once trimmed answers 400 with an entry
    for [username] and adds nothing.  A registration whose validation
    fails answers 400 with the field-keyed errors and adds nothing; a user
    name that is taken, once trimmed, is answered so. *)
Theorem registration_outcome `{Framework} (db : DB) (req : Request) :
  (∀ vd, UserSerializer.run_validation false None db (req_data req) = inr vd →
     ∃ user db',
       dispatch (UserViewSet.create req) db =
         (mkResponse HTTP_201_CREATED
            (JObj [("user", UserSerializer.to_representation db' user);
                   ("refresh", JStr (RefreshToken_for_user user).1);
                   ("access", JStr (RefreshToken_for_user user).2)]), db') ∧
       users db' = (users db ++ [user])%list ∧
       albums db' = albums db ∧ photos db' = photos db ∧
       tags db' = tags db ∧ photo_tags db' = photo_tags db ∧
       (user_id user ∉ user_id <$> users db) ∧
       (username user ∉ username <$> users db) ∧
       is_Some (req_data req !! "username") ∧
       (∀ s, req_data req !! "username" = Some (JStr s) → username user = strip s) ∧
       (∀ z, req_data req !! "username" = Some (JInt z) → username user = pretty z) ∧
       ∀ req2 s2,
         req_data req2 !! "username" = Some (JStr s2) → strip s2 = username user →
         ∃ errors,
           dispatch (UserViewSet.create req2) db' =
             (mkResponse HTTP_400_BAD_REQUEST (error_detail errors), db') ∧
           "username" ∈ errors.*1) ∧
  (∀ errors, UserSerializer.run_validation false None db (req_data req) = inl errors →
     dispatch (UserViewSet.create req) db =
       (mkResponse HTTP_400_BAD_REQUEST (error_detail errors), db)) ∧
  (∀ s, req_data req !! "username" = Some (JStr s) → strip s ∈ username <$> users db →
     ∃ errors,
       dispatch (UserViewSet.create req) db =
         (mkResponse HTTP_400_BAD_REQUEST (error_detail errors), db) ∧
       "username" ∈ errors.*1).
Proof.
  split; [|split].
  - intros vd Hvalid. rewrite UserViewSet_create_run, Hvalid.
    destruct (user_validation_username _ _ _ _ Hvalid) as [name Hname].
    pose proof (user_validation_free _ _ _ _ _ _ Hvalid Hname) as Hfree.
    rewrite filter_all in Hfree by done.
    pose proof (user_validation_text _ _ _ _ _ Hvalid) as Htext.
    apply Forall_cons in Htext as [(Habsent & Hstr & Hint) _].
    eexists _, _. split; [reflexivity|].
    rewrite Hname in *. cbn [username user_id default from_option id users albums
                             photos tags photo_tags set_users].
    split; [done|]. do 4 (split; [done|]).
    split; [apply fresh_pk_fresh|]. split; [done|].
    split.
    { destruct (req_data req !! "username") as [x|]; [by eexists|].
      by specialize (Habsent eq_refl). }
    split; [by intros s [= <-]%Hstr|]. split; [by intros z [= <-]%Hint|].
    intros req2 s2 Hd2 Hs2.
    rewrite UserViewSet_create_run.
    destruct (user_validation_conflict false None
                (set_users (users db ++
                   [mkUser (fresh_pk (user_id <$> users db)) name
                      (default EmptyString (ud_email vd))
                      (default EmptyString (ud_first_name vd))
                      (default EmptyString (ud_last_name vd))
                      (default None (ud_profile_image vd))
                      (default EmptyString (ud_bio vd)) (req_now req)])%list db)
                (req_data req2) s2 Hd2) as (errors & Herrors & Hfield).
    { rewrite filter_all by done. cbn [users set_users].
      rewrite fmap_app, Hs2. apply elem_of_app. right. left. }
    exists errors. split; [|done]. by rewrite Herrors.
  - intros errors Hvalid. by rewrite UserViewSet_create_run, Hvalid.
  - intros s Hd Htaken. rewrite UserViewSet_create_run.
    destruct (user_validation_conflict false None db (req_data req) s Hd)
      as (errors & Herrors & Hfield).
    { by rewrite filter_all. }
    exists errors. split; [|done]. by rewrite Herrors.
Qed.

Lemma registration_outcome_witness :
  UserSerializer.run_validation (H := Sample.framework) false None Sample.db
    (req_data (Sample.request None Sample.padded_carol_body [])) =
    inr (mkUserData (Some "carol") (Some "carol@example.org") None None None None) ∧
  ∃ user db',
    dispatch (UserViewSet.create (H := Sample.framework)
                (Sample.request None Sample.padded_carol_body [])) Sample.db =
      (mkResponse HTTP_201_CREATED
         (JObj [("user", UserSerializer.to_representation db' user);
                ("refresh", JStr "refresh:carol"); ("access", JStr "access:carol")]),
       db') ∧
    users db' = [Sample.alice; Sample.bob; user] ∧
    username user = "carol" ∧
    ∃ errors,
      dispatch (UserViewSet.create (H := Sample.framework)
                  (Sample.request None Sample.carol_body [])) db' =
        (mkResponse HTTP_400_BAD_REQUEST (error_detail errors), db') ∧
      "username" ∈ errors.*1.
Proof.
  assert (Hvalid :
    UserSerializer.run_validation (H := Sample.framework) false None Sample.db
      (req_data (Sample.request None Sample.padded_carol_body [])) =
      inr (mkUserData (Some "carol") (Some "carol@example.org") None None None None))
    by (vm_compute; reflexivity).
  split; [exact Hvalid|].
  destruct (proj1 (@registration_outcome Sample.framework Sample.db
                     (Sample.request None Sample.padded_carol_body [])) _ Hvalid)
    as (user & db' & Hrun & Husers & _ & _ & _ & _ & _ & _ & _ & Hname & _ & Hagain).
  assert (Hcarol : username user = "carol").
  { apply (Hname " carol "). vm_compute. reflexivity. }
  exists user, db'. split; [|split; [exact Husers|split; [exact Hcarol|]]].
  - rewrite Hrun. simpl. by rewrite Hcarol.
  - apply (Hagain (Sample.request None Sample.carol_body []) "carol").
    + vm_compute. reflexivity.
    + rewrite Hcarol. vm_compute. reflexivity.
Defined.

(** Registering a taken user name: 400, with an entry for the field, and
    the store as before. *)
Example register_taken_username :
  dispatch (UserViewSet.create (H := Sample.framework)
              (Sample.request None [("username", JStr "alice")] [])) Sample.db =
  (mkResponse HTTP_400_BAD_REQUEST
     (JObj [("username", JList [JStr "A user with that username already exists."])]),
   Sample.db).
Proof. vm_compute. reflexivity. Qed.

(** ** Cascading deletes *)

Lemma Photo_delete_in_photos pks db p :
  p ∈ photos (Photo_delete_in pks db) ↔ p ∈ photos db ∧ photo_id p ∉ pks.
Proof. unfold Photo_delete_in. simpl. rewrite list_elem_of_filter. tauto. Qed.

Lemma Photo_delete_in_photo_tags pks db r :
  r ∈ photo_tags (Photo_delete_in pks db) ↔ r ∈ photo_tags db ∧ r.1 ∉ pks.
Proof. unfold Photo_delete_in. simpl. rewrite list_elem_of_filter. tauto. Qed.

Lemma Album_delete_in_albums pks db a :
  a ∈ albums (Album_delete_in pks db) ↔ a ∈ albums db ∧ album_id a ∉ pks.
Proof. unfold Album_delete_in. simpl. rewrite list_elem_of_filter. tauto. Qed.

(** What is left of the photos holds no photo of a deleted album. *)
Lemma Album_delete_in_photos pks db p :
  p ∈ photos (Album_delete_in pks db) → p ∈ photos db ∧ album p ∉ pks.
Proof.
  unfold Album_delete_in. simpl. rewrite list_elem_of_filter.
  intros [Hnot Hp]. split; [done|]. intros Halbum. apply Hnot.
  apply list_elem_of_fmap_2. by apply list_elem_of_filter.
Qed.

Lemma Album_delete_in_photos_kept pks db p :
  NoDup (photo_id <$> photos db) →
  p ∈ photos db → album p ∉ pks → p ∈ photos (Album_delete_in pks db).
Proof.
  intros Hnd Hp Halbum. unfold Album_delete_in. simpl.
  apply list_elem_of_filter. split; [|done]. intros Hin.
  apply list_elem_of_fmap in Hin as (p' & Hpk & Hp').
  apply list_elem_of_filter in Hp' as [Halbum' Hp'].
  assert (p = p') as -> by by apply (NoDup_fmap_eq photo_id (photos db)).
  done.
Qed.

(** C6.  After a user is deleted no user row with that key, no album and
    no photo of that owner, no photo of one of that owner's albums and no
    through row of such a photo is left; after an album is deleted no
    album with that key, no photo of the album and no through row of such
    a photo is left.  In a consistent store every other row stays. *)
Theorem delete_cascades (db : DB) (u : User) (a : Album) :
  (let db' := User_delete u db in
   (∀ x, x ∈ users db' → user_id x ≠ user_id u) ∧
   (∀ x, x ∈ albums db' → album_owner x ≠ user_id u) ∧
   (∀ p, p ∈ photos db' →
      owner p ≠ user_id u ∧
      ∀ x, x ∈ albums db → album_owner x = user_id u → album p ≠ album_id x) ∧
   (∀ r p, r ∈ photo_tags db' → p ∈ photos db → photo_id p = r.1 →
      owner p ≠ user_id u ∧
      ∀ x, x ∈ albums db → album_owner x = user_id u → album p ≠ album_id x)) ∧
  (let db' := Album_delete a db in
   (∀ x, x ∈ albums db' → album_id x ≠ album_id a) ∧
   (∀ p, p ∈ photos db' → album p ≠ album_id a) ∧
   (∀ r p, r ∈ photo_tags db' → p ∈ photos db → photo_id p = r.1 →
      album p ≠ album_id a)) ∧
  (db_consistent db →
   (∀ x, x ∈ users db → user_id x ≠ user_id u → x ∈ users (User_delete u db)) ∧
   (∀ x, x ∈ albums db → album_owner x ≠ user_id u → x ∈ albums (User_delete u db)) ∧
   (∀ p, p ∈ photos db → owner p ≠ user_id u →
      (∀ x, x ∈ albums db → album_owner x = user_id u → album p ≠ album_id x) →
      p ∈ photos (User_delete u db)) ∧
   (∀ x, x ∈ albums db → album_id x ≠ album_id a → x ∈ albums (Album_delete a db)) ∧
   (∀ p, p ∈ photos db → album p ≠ album_id a → p ∈ photos (Album_delete a db))).
Proof.
  assert (Howned_photo : ∀ p, p ∈ photos db → owner p = user_id u →
            photo_id p ∈ photo_id <$> filter (λ p, owner p = user_id u) (photos db)).
  { intros p Hp Hown. apply list_elem_of_fmap_2. by apply list_elem_of_filter. }
  assert (Howned_album : ∀ x, x ∈ albums db → album_owner x = user_id u →
            album_id x ∈ album_id <$> filter (λ a, album_owner a = user_id u) (albums db)).
  { intros x Hx Hown. apply list_elem_of_fmap_2. by apply list_elem_of_filter. }
  split; [|split].
  - cbn zeta. unfold User_delete. cbn [users albums photos photo_tags set_users].
    split; [|split; [|split]].
    + intros x Hx. by apply list_elem_of_filter in Hx as [Hne _].
    + intros x Hx Hown.
      apply Album_delete_in_albums in Hx as [Hx Hnot]. apply Hnot.
      unfold Photo_delete_in in Hx. simpl in Hx. by apply Howned_album.
    + intros p Hp. apply Album_delete_in_photos in Hp as [Hp Halbum].
      apply Photo_delete_in_photos in Hp as [Hp Hnot]. split.
      * intros Hown. apply Hnot. by apply Howned_photo.
      * intros x Hx Hown Heq. apply Halbum. rewrite Heq. by apply Howned_album.
    + intros r p Hr Hp Hpk. unfold Album_delete_in in Hr.
      cbn [photo_tags set_albums] in Hr.
      apply Photo_delete_in_photo_tags in Hr as [Hr Hcontained].
      apply Photo_delete_in_photo_tags in Hr as [Hr Hnot].
      assert (Hown : owner p ≠ user_id u).
      { intros Hown. apply Hnot. rewrite <- Hpk. by apply Howned_photo. }
      split; [done|]. intros x Hx Hxown Heq. apply Hcontained.
      rewrite <- Hpk. apply list_elem_of_fmap_2. apply list_elem_of_filter.
      split; [rewrite Heq; by apply Howned_album|].
      apply Photo_delete_in_photos. split; [done|]. by rewrite Hpk.
  - cbn zeta. unfold Album_delete. split; [|split].
    + intros x Hx Heq. apply Album_delete_in_albums in Hx as [_ Hnot].
      apply Hnot. rewrite Heq. left.
    + intros p Hp Heq. apply Album_delete_in_photos in Hp as [_ Hnot].
      apply Hnot. rewrite Heq. left.
    + intros r p Hr Hp Hpk Heq. unfold Album_delete_in in Hr.
      cbn [photo_tags set_albums] in Hr.
      apply Photo_delete_in_photo_tags in Hr as [_ Hnot]. apply Hnot.
      rewrite <- Hpk. apply list_elem_of_fmap_2. apply list_elem_of_filter.
      split; [rewrite Heq; left|done].
  - intros (_ & _ & Halb & _ & _ & Hpho & _).
    split; [|split; [|split; [|split]]].
    + intros x Hx Hne. unfold User_delete. cbn [users set_users].
      by apply list_elem_of_filter.
    + intros x Hx Hown. unfold User_delete. cbn [albums set_users].
      apply Album_delete_in_albums. split; [done|]. intros Hin.
      apply list_elem_of_fmap in Hin as (x' & Hpk & Hx').
      apply list_elem_of_filter in Hx' as [Hown' Hx'].
      assert (x = x') as -> by by apply (NoDup_fmap_eq album_id (albums db)).
      done.
    + intros p Hp Hown Halbum. unfold User_delete. cbn [photos set_users].
      assert (Hkept : p ∈ photos (Photo_delete_in
                (photo_id <$> filter (λ p, owner p = user_id u) (photos db)) db)).
      { apply Photo_delete_in_photos. split; [done|]. intros Hin.
        apply list_elem_of_fmap in Hin as (p' & Hpk & Hp').
        apply list_elem_of_filter in Hp' as [Hown' Hp'].
        assert (p = p') as -> by by apply (NoDup_fmap_eq photo_id (photos db)).
        done. }
      apply Album_delete_in_photos_kept; [|done|].
      * unfold Photo_delete_in. cbn [photos set_photos].
        apply (NoDup_fmap_2_strong photo_id); [|by apply NoDup_filter, (NoDup_fmap_1 photo_id)].
        intros x y Hx%list_elem_of_filter Hy%list_elem_of_filter Heq.
        apply (NoDup_fmap_eq photo_id (photos db)); tauto.
      * intros Hin. apply list_elem_of_fmap in Hin as (x & Hpk & Hx).
        apply list_elem_of_filter in Hx as [Hxown Hx]. by apply (Halbum x).
    + intros x Hx Hne. unfold Album_delete. apply Album_delete_in_albums.
      split; [done|]. by intros Heq%list_elem_of_singleton.
    + intros p Hp Hne. unfold Album_delete.
      apply Album_delete_in_photos_kept; [done..|].
      by intros Heq%list_elem_of_singleton.
Qed.

Lemma delete_cascades_witness :
  db_consistent Sample.db ∧
  Sample.roses ∈ photos (User_delete Sample.alice Sample.db).
Proof.
  split; [exact sample_db_consistent|].
  apply (proj1 (proj2 (proj2 (proj2 (proj2
           (delete_cascades Sample.db Sample.alice Sample.holidays))
           sample_db_consistent)))).
  - right. left.
  - simpl. lia.
  - intros x Hx Hown Heq.
    apply elem_of_cons in Hx as [->|Hx]; [simpl in Heq; lia|].
    apply list_elem_of_singleton in Hx as ->. simpl in Hown. lia.
Defined.

(** Deleting the first account of the sample store takes its album, its
    two photos and their through rows along. *)
Example delete_alice :
  User_delete Sample.alice Sample.db =
  mkDB [Sample.bob] [Sample.garden] [Sample.vacation; Sample.family]
    [Sample.roses] [(2, 1)].
Proof. vm_compute. reflexivity. Qed.

(** ** The user collection *)

Lemma destroy_action_run {Row VD} (vs : ModelViewSet Row VD) req pk db instance :
  permitted vs "destroy" req →
  get_by_pk (vs_pk vs) pk (vs_get_queryset vs req db) = Some instance →
  dispatch (destroy_action vs req pk) db =
    (mkResponse HTTP_204_NO_CONTENT JNull, vs_delete vs instance db).
Proof.
  intros Hperm Hget. run_handler Hperm. by rewrite Hget.
Qed.

Lemma UserViewSet_permitted `{Framework} req u action :
  req_user req = Some u → action ≠ "create" →
  permitted UserViewSet.viewset action req.
Proof.
  intros Hu Hact. unfold permitted.
  cbn [vs_get_permissions UserViewSet.viewset]. unfold UserViewSet.get_permissions.
  rewrite decide_False by done. by apply (authenticated_permitted req u).
Qed.

(** ** Saving a row *)

Lemma save_row_pks {Row} (pk_of : Row → Z) r (table : list Row) :
  pk_of <$> save_row pk_of r table = pk_of <$> table.
Proof.
  unfold save_row. rewrite <- list_fmap_compose. apply list_fmap_ext.
  intros i x Hx. simpl. by case_decide.
Qed.

Lemma save_row_length {Row} (pk_of : Row → Z) r (table : list Row) :
  length (save_row pk_of r table) = length table.
Proof. unfold save_row. by rewrite length_fmap. Qed.

Lemma save_row_others {Row} (pk_of : Row → Z) r (table : list Row) i x :
  table !! i = Some x → pk_of x ≠ pk_of r → save_row pk_of r table !! i = Some x.
Proof.
  intros Hx Hne. unfold save_row. rewrite list_lookup_fmap, Hx. simpl.
  by rewrite decide_False.
Qed.

Lemma save_row_elem_of {Row} (pk_of : Row → Z) r (table : list Row) x :
  x ∈ save_row pk_of r table →
  (x ∈ table ∧ pk_of x ≠ pk_of r) ∨ (x = r ∧ pk_of r ∈ pk_of <$> table).
Proof.
  unfold save_row. intros (y & -> & Hy)%list_elem_of_fmap.
  case_decide as Hpk; [right|left; done].
  split; [done|]. rewrite <- Hpk. by apply list_elem_of_fmap_2.
Qed.

Lemma save_row_get {Row} (pk_of : Row → Z) r (table : list Row) :
  NoDup (pk_of <$> table) → pk_of r ∈ pk_of <$> table →
  get_by_pk pk_of (pk_of r) (save_row pk_of r table) = Some r.
Proof.
  intros Hnd Hin. apply get_by_pk_unique.
  - by rewrite save_row_pks.
  - apply list_elem_of_fmap in Hin as (x & Hpk & Hx).
    unfold save_row. apply list_elem_of_fmap. exists x. split; [|done].
    by rewrite decide_True.
Qed.

(** Saving a row that is already there changes nothing. *)
Lemma save_row_same {Row} (pk_of : Row → Z) r (table : list Row) :
  NoDup (pk_of <$> table) → r ∈ table → save_row pk_of r table = table.
Proof.
  intros Hnd Hr. unfold save_row. rewrite <- (list_fmap_id table) at 2.
  apply list_fmap_ext. intros i x Hx. simpl.
  case_decide as Hpk; [|done].
  apply (NoDup_fmap_eq pk_of table); [done..| |done].
  by eapply list_elem_of_lookup_2.
Qed.

(** The rows a deleted account leaves: every other user row, and no
    album or photo of the account. *)
Lemma User_delete_rows u db :
  (∀ x, x ∈ users (User_delete u db) ↔ x ∈ users db ∧ user_id x ≠ user_id u) ∧
  (∀ x, x ∈ albums (User_delete u db) → x ∈ albums db ∧ album_owner x ≠ user_id u) ∧
  (∀ p, p ∈ photos (User_delete u db) → p ∈ photos db ∧ owner p ≠ user_id u).
Proof.
  unfold User_delete. cbn [users albums photos set_users]. split; [|split].
  - intros x. rewrite list_elem_of_filter. tauto.
  - intros x Hx. apply Album_delete_in_albums in Hx as [Hx Hnot].
    unfold Photo_delete_in in Hx. simpl in Hx. split; [done|].
    intros Hown. apply Hnot. apply list_elem_of_fmap_2. by apply list_elem_of_filter.
  - intros p Hp. apply Album_delete_in_photos in Hp as [Hp _].
    apply Photo_delete_in_photos in Hp as [Hp Hnot]. split; [done|].
    intros Hown. apply Hnot. apply list_elem_of_fmap_2. by apply list_elem_of_filter.
Qed.

(** C8.  For an authenticated caller and any user row, the caller's own
    or not: the list holds every user row and retrieve answers with the
    row.  Destroy answers 204 and the account is gone: no user row has its
    key any more, every other user row is still there, and no album or
    photo of the account is left.  A valid update or partial update
    answers 200 and saves the row under its key, with each text field the
    body gives, trimmed, and each field the body leaves out as it was. *)
Theorem users_not_owner_scoped `{Framework} (db : DB) (req : Request)
    (caller : Z) (target : User) :
  req_user req = Some caller →
  db_consistent db →
  target ∈ users db →
  dispatch (UserViewSet.list req) db =
    (mkResponse HTTP_200_OK (JList (UserSerializer.to_representation db <$> users db)), db) ∧
  dispatch (UserViewSet.retrieve req (user_id target)) db =
    (mkResponse HTTP_200_OK (UserSerializer.to_representation db target), db) ∧
  (∃ db',
     dispatch (UserViewSet.destroy req (user_id target)) db =
       (mkResponse HTTP_204_NO_CONTENT JNull, db') ∧
     (target ∉ users db') ∧
     (∀ x, x ∈ users db' ↔ x ∈ users db ∧ user_id x ≠ user_id target) ∧
     (∀ x, x ∈ albums db' → x ∈ albums db ∧ album_owner x ≠ user_id target) ∧
     (∀ p, p ∈ photos db' → p ∈ photos db ∧ owner p ≠ user_id target)) ∧
  ∀ (partial : bool) vd,
    UserSerializer.run_validation partial (Some target) db (req_data req) = inr vd →
    ∃ target' db',
      dispatch (update_action UserViewSet.viewset partial req (user_id target)) db =
        (mkResponse HTTP_200_OK (UserSerializer.to_representation db' target'), db') ∧
      user_id target' = user_id target ∧
      target' ∈ users db' ∧
      (∀ x, x ∈ users db' → user_id x = user_id target → x = target') ∧
      (∀ x, user_id x ≠ user_id target → x ∈ users db' ↔ x ∈ users db) ∧
      Forall (λ '(key, get),
                (req_data req !! key = None → get target' = get target) ∧
                (∀ s, req_data req !! key = Some (JStr s) → get target' = strip s) ∧
                (∀ z, req_data req !! key = Some (JInt z) → get target' = pretty z))
        [("username", username); ("email", email); ("first_name", first_name);
         ("last_name", last_name); ("bio", bio)].
Proof.
  intros Hu (Husr & _) Htarget.
  assert (Hget : get_by_pk user_id (user_id target) (users db) = Some target)
    by by apply get_by_pk_unique.
  split; [|split; [|split]].
  - unfold UserViewSet.list.
    by rewrite list_action_run by by apply (UserViewSet_permitted req caller).
  - unfold UserViewSet.retrieve.
    rewrite retrieve_action_run by by apply (UserViewSet_permitted req caller).
    cbn [vs_pk vs_get_queryset vs_to_representation UserViewSet.viewset].
    unfold UserViewSet.get_queryset. by rewrite Hget.
  - exists (User_delete target db). split.
    { unfold UserViewSet.destroy.
      by rewrite (destroy_action_run UserViewSet.viewset req _ db target)
        by (done || by apply (UserViewSet_permitted req caller)). }
    destruct (User_delete_rows target db) as (Husers & Halbums & Hphotos).
    split; [|done]. by intros [_ Hne]%Husers.
  - intros partial vd Hvalid.
    rewrite (update_action_run UserViewSet.viewset partial req _ db target vd);
      [| |done|done].
    2: { apply (UserViewSet_permitted req caller); [done|]. by destruct partial. }
    cbn [vs_serializer_update vs_to_representation UserViewSet.viewset].
    unfold UserSerializer.update, bind, modify, ret.
    eexists _, _. split; [reflexivity|].
    cbn [user_id username email first_name last_name bio users set_users].
    set (target' := mkUser (user_id target) _ _ _ _ _ _ _).
    split; [done|]. split; [|split; [|split]].
    + unfold save_row. apply list_elem_of_fmap. exists target. split; [|done].
      by rewrite decide_True.
    + intros x [[_ Hne]|[-> _]]%save_row_elem_of Hpk; [by destruct Hne|done].
    + intros x Hne. split.
      * intros [[Hx _]|[-> _]]%save_row_elem_of; [done|by destruct Hne].
      * intros Hx. unfold save_row. apply list_elem_of_fmap. exists x.
        split; [|done]. by rewrite decide_False.
    + pose proof (user_validation_text _ _ _ _ _ Hvalid) as Htext.
      repeat (apply Forall_cons in Htext as [(? & ? & ?) Htext]).
      repeat constructor; simpl;
        try (intros Hd; match goal with
                        | Ha : req_data req !! ?k = None → _ |- _ =>
                            by rewrite (Ha Hd)
                        end);
        try (intros s Hd; match goal with
                          | Hp : ∀ s, req_data req !! ?k = Some (JStr s) → _ |- _ =>
                              by rewrite (Hp s Hd)
                          end);
        try (intros z Hd; match goal with
                          | Hp : ∀ z, req_data req !! ?k = Some (JInt z) → _ |- _ =>
                              by rewrite (Hp z Hd)
                          end).
Qed.

Lemma users_not_owner_scoped_witness :
  req_user (Sample.request (Some 1) [] []) = Some 1 ∧
  db_consistent Sample.db ∧
  Sample.bob ∈ users Sample.db ∧
  user_id Sample.bob ≠ 1 ∧
  ∃ db',
    dispatch (UserViewSet.destroy (H := Sample.framework)
                (Sample.request (Some 1) [] []) (user_id Sample.bob)) Sample.db =
      (mkResponse HTTP_204_NO_CONTENT JNull, db') ∧
    (Sample.bob ∉ users db') ∧ Sample.alice ∈ users db' ∧
    (Sample.garden ∉ albums db') ∧ (Sample.roses ∉ photos db').
Proof.
  split; [reflexivity|]. split; [exact sample_db_consistent|].
  split; [right; left|]. split; [simpl; lia|].
  destruct (proj1 (proj2 (proj2
              (@users_not_owner_scoped Sample.framework Sample.db
                 (Sample.request (Some 1) [] []) 1 Sample.bob eq_refl
                 sample_db_consistent ltac:(right; left)))))
    as (db' & Hrun & Hgone & Husers & Halbums & Hphotos).
  exists db'. split; [exact Hrun|]. split; [exact Hgone|]. split; [|split].
  - apply Husers. split; [left|]. simpl. lia.
  - intros [_ Hown]%Halbums. by apply Hown.
  - intros [_ Hown]%Hphotos. by apply Hown.
Defined.

(** The first account deletes the second: its album and photo go too. *)
Example alice_deletes_bob :
  dispatch (UserViewSet.destroy (H := Sample.framework)
              (Sample.request (Some 1) [] []) 2) Sample.db =
  (mkResponse HTTP_204_NO_CONTENT JNull,
   mkDB [Sample.alice] [Sample.holidays] [Sample.vacation; Sample.family]
     [Sample.beach; Sample.dunes] [(1, 1); (1, 2)]).
Proof. vm_compute. reflexivity. Qed.

(** * Further properties *)

(** ** Requests without credentials *)

Lemma not_permitted_401 {Row VD} (vs : ModelViewSet Row VD) req db act pk :
  (∀ action, forallb (λ permission, permission req)
               (vs_get_permissions vs action) = false) →
  act ∈ detail_actions vs →
  dispatch (act req pk) db = (handle_exception NotAuthenticated, db).
Proof.
  intros Hperm Hact. unfold detail_actions in Hact.
  repeat (apply elem_of_cons in Hact as [->|Hact]);
    [..|by apply not_elem_of_nil in Hact];
    unfold dispatch, list_action, create_action, retrieve_action, update_action,
      destroy_action, check_permissions, bind, raise;
    by rewrite Hperm.
Qed.

Lemma anonymous_not_authenticated req :
  req_user req = None →
  forallb (λ permission : Request → bool, permission req) [IsAuthenticated] = false.
Proof.
  intros Hu. simpl. unfold IsAuthenticated. rewrite Hu.
  rewrite bool_decide_false; [done|]. by intros [? ?].
Qed.

(** X1.  A request without credentials is answered 401 by every action of
    the album, photo and tag view sets, by the tag search, and by every
    action of the user view set but registration, and the store is left
    as it was. *)
Theorem anonymous_requests_rejected `{Framework} (db : DB) (req : Request) :
  req_user req = None →
  let unauthorized :=
    (mkResponse HTTP_401_UNAUTHORIZED
       (JObj [("detail", JStr "Authentication credentials were not provided.")]), db) in
  (∀ act, act ∈ [UserViewSet.list; UserViewSet.me; UserViewSet.update_profile;
                 AlbumViewSet.list; AlbumViewSet.create;
                 PhotoViewSet.list; PhotoViewSet.create; PhotoViewSet.search_by_tags;
                 TagViewSet.list; TagViewSet.create] →
     dispatch (act req) db = unauthorized) ∧
  (∀ act pk, act ∈ (detail_actions UserViewSet.viewset ++
                    detail_actions AlbumViewSet.viewset ++
                    detail_actions PhotoViewSet.viewset ++
                    detail_actions TagViewSet.viewset)%list →
     dispatch (act req pk) db = unauthorized).
Proof.
  intros Hu unauthorized.
  pose proof (anonymous_not_authenticated req Hu) as Hperm.
  assert (Huser : ∀ action, action ≠ "create" →
            forallb (λ permission : Request → bool, permission req)
              (UserViewSet.get_permissions action) = false).
  { intros action Hact. unfold UserViewSet.get_permissions.
    by rewrite decide_False. }
  split.
  - intros act Hact.
    repeat (apply elem_of_cons in Hact as [->|Hact]);
      [..|by apply not_elem_of_nil in Hact];
      unfold UserViewSet.list, UserViewSet.me, UserViewSet.update_profile,
        AlbumViewSet.list, AlbumViewSet.create, PhotoViewSet.list,
        PhotoViewSet.create, PhotoViewSet.search_by_tags, TagViewSet.list,
        TagViewSet.create, dispatch, list_action, create_action,
        check_permissions, bind, raise;
      cbn [vs_get_permissions UserViewSet.viewset AlbumViewSet.viewset
           PhotoViewSet.viewset TagViewSet.viewset];
      rewrite ?Hperm, ?Huser by done; done.
  - intros act pk Hact. rewrite !elem_of_app in Hact.
    destruct Hact as [Hact|[Hact|[Hact|Hact]]].
    + unfold detail_actions in Hact.
      repeat (apply elem_of_cons in Hact as [->|Hact]);
        [..|by apply not_elem_of_nil in Hact];
        unfold dispatch, retrieve_action, update_action, destroy_action,
          check_permissions, bind, raise;
        cbn [vs_get_permissions UserViewSet.viewset];
        rewrite Huser by done; done.
    + by apply (not_permitted_401 AlbumViewSet.viewset).
    + by apply (not_permitted_401 PhotoViewSet.viewset).
    + by apply (not_permitted_401 TagViewSet.viewset).
Qed.

Lemma anonymous_requests_rejected_witness :
  req_user (Sample.request None [] []) = None ∧
  dispatch (AlbumViewSet.list (Sample.request None [] [])) Sample.db =
    (mkResponse HTTP_401_UNAUTHORIZED
       (JObj [("detail", JStr "Authentication credentials were not provided.")]),
     Sample.db).
Proof.
  split; [reflexivity|].
  apply (proj1 (@anonymous_requests_rejected Sample.framework Sample.db
                  (Sample.request None [] []) eq_refl)).
  do 3 right. left.
Defined.

(** ** The profile of the caller *)

Lemma request_user_run req db u row :
  req_user req = Some u → get_by_pk user_id u (users db) = Some row →
  UserViewSet.request_user req db = (inr row, db).
Proof.
  intros Hu Hget. unfold UserViewSet.request_user, bind, query.
  rewrite Hu. simpl. by rewrite Hget.
Qed.

Lemma me_run `{Framework} req db u :
  req_user req = Some u →
  dispatch (UserViewSet.me req) db =
    (match get_by_pk user_id u (users db) with
     | Some row => mkResponse HTTP_200_OK (UserSerializer.to_representation db row)
     | None => handle_exception NotAuthenticated
     end, db).
Proof.
  intros Hu.
  pose proof (UserViewSet_permitted req u "me" Hu ltac:(done)) as Hperm.
  unfold dispatch, UserViewSet.me, check_permissions, bind.
  unfold permitted in Hperm. rewrite Hperm. cbn [ret].
  unfold UserViewSet.request_user, bind, query, serializer_data. rewrite Hu. simpl.
  by destruct (get_by_pk user_id u (users db)).
Qed.

(** X2.  [me] answers 200 with the row of the caller, never with another
    row, and 401 when no row carries the key of the token; the store is
    left as it was. *)
Theorem me_returns_caller `{Framework} (db : DB) (req : Request) (u : Z) :
  req_user req = Some u →
  db_consistent db →
  (∀ row, row ∈ users db → user_id row = u →
     dispatch (UserViewSet.me req) db =
       (mkResponse HTTP_200_OK (UserSerializer.to_representation db row), db)) ∧
  (u ∉ user_id <$> users db →
     dispatch (UserViewSet.me req) db =
       (mkResponse HTTP_401_UNAUTHORIZED
          (JObj [("detail", JStr "Authentication credentials were not provided.")]), db)).
Proof.
  intros Hu (Husr & _). split.
  - intros row Hrow Hid. rewrite (me_run req db u Hu). subst u.
    by rewrite get_by_pk_unique.
  - intros Hmiss. rewrite (me_run req db u Hu).
    assert (Hget : get_by_pk user_id u (users db) = None).
    { apply get_by_pk_None. intros r Hr <-. apply Hmiss.
      by apply list_elem_of_fmap_2. }
    by rewrite Hget.
Qed.

Lemma me_returns_caller_witness :
  req_user (Sample.request (Some 2) [] []) = Some 2 ∧
  db_consistent Sample.db ∧
  dispatch (UserViewSet.me (H := Sample.framework) (Sample.request (Some 2) [] []))
    Sample.db =
    (mkResponse HTTP_200_OK (UserSerializer.to_representation Sample.db Sample.bob),
     Sample.db).
Proof.
  split; [reflexivity|]. split; [exact sample_db_consistent|].
  apply (proj1 (@me_returns_caller Sample.framework Sample.db
                  (Sample.request (Some 2) [] []) 2 eq_refl sample_db_consistent)).
  - right. left.
  - reflexivity.
Defined.

Lemma update_profile_run `{Framework} req db u row :
  req_user req = Some u → get_by_pk user_id u (users db) = Some row →
  dispatch (UserViewSet.update_profile req) db =
    match UserSerializer.run_validation true (Some row) db (req_data req) with
    | inr vd =>
        let row' :=
          mkUser (user_id row)
            (default (username row) (ud_username vd))
            (default (email row) (ud_email vd))
            (default (first_name row) (ud_first_name vd))
            (default (last_name row) (ud_last_name vd))
            (default (profile_image row) (ud_profile_image vd))
            (default (bio row) (ud_bio vd))
            (date_joined row) in
        let db' := set_users (save_row user_id row' (users db)) db in
        (mkResponse HTTP_200_OK (UserSerializer.to_representation db' row'), db')
    | inl errors => (mkResponse HTTP_400_BAD_REQUEST (error_detail errors), db)
    end.
Proof.
  intros Hu Hget.
  pose proof (UserViewSet_permitted req u "update_profile" Hu ltac:(done)) as Hperm.
  unfold dispatch, UserViewSet.update_profile, check_permissions, bind.
  unfold permitted in Hperm. rewrite Hperm. cbn [ret].
  rewrite (request_user_run req db u row Hu Hget). unfold query.
  by destruct (UserSerializer.run_validation _ _ _ _).
Qed.

(** X3.  A valid [update_profile] answers 200 and saves the caller's row:
    key and join date stay, a text field absent from the body keeps its
    value and a present one takes the submitted text, trimmed (a submitted
    number is saved in decimal); every other user row and every other
    table is left as it was. *)
Theorem update_profile_changes_only_caller `{Framework} (db : DB) (req : Request)
    (u : Z) (row : User) (vd : UserData) :
  req_user req = Some u →
  db_consistent db →
  row ∈ users db → user_id row = u →
  UserSerializer.run_validation true (Some row) db (req_data req) = inr vd →
  ∃ row' db',
    dispatch (UserViewSet.update_profile req) db =
      (mkResponse HTTP_200_OK (UserSerializer.to_representation db' row'), db') ∧
    user_id row' = u ∧ date_joined row' = date_joined row ∧
    Forall (λ '(key, get),
              (req_data req !! key = None → get row' = get row) ∧
              (∀ s, req_data req !! key = Some (JStr s) → get row' = strip s) ∧
              (∀ z, req_data req !! key = Some (JInt z) → get row' = pretty z))
      [("username", username); ("email", email); ("first_name", first_name);
       ("last_name", last_name); ("bio", bio)] ∧
    row' ∈ users db' ∧
    get_by_pk user_id u (users db') = Some row' ∧
    length (users db') = length (users db) ∧
    (∀ i x, users db !! i = Some x → user_id x ≠ u → users db' !! i = Some x) ∧
    albums db' = albums db ∧ photos db' = photos db ∧
    tags db' = tags db ∧ photo_tags db' = photo_tags db.
Proof.
  intros Hu (Husr & _) Hrow Hid Hvalid.
  assert (Hget : get_by_pk user_id u (users db) = Some row)
    by (subst u; by apply get_by_pk_unique).
  rewrite (update_profile_run req db u row Hu Hget), Hvalid. cbn zeta.
  eexists _, _. split; [reflexivity|].
  cbn [user_id date_joined username email first_name last_name bio
       users albums photos tags photo_tags set_users].
  assert (Hsaved : get_by_pk user_id u
                     (save_row user_id
                        (mkUser (user_id row)
                           (default (username row) (ud_username vd))
                           (default (email row) (ud_email vd))
                           (default (first_name row) (ud_first_name vd))
                           (default (last_name row) (ud_last_name vd))
                           (default (profile_image row) (ud_profile_image vd))
                           (default (bio row) (ud_bio vd)) (date_joined row))
                        (users db)) = Some (mkUser (user_id row)
                           (default (username row) (ud_username vd))
                           (default (email row) (ud_email vd))
                           (default (first_name row) (ud_first_name vd))
                           (default (last_name row) (ud_last_name vd))
                           (default (profile_image row) (ud_profile_image vd))
                           (default (bio row) (ud_bio vd)) (date_joined row))).
  { subst u.
    apply (save_row_get user_id (mkUser (user_id row) _ _ _ _ _ _ _)); [done|].
    cbn [user_id]. by apply list_elem_of_fmap_2. }
  split; [done|]. split; [done|]. split; [|split; [|split; [|split; [|split]]]].
  - pose proof (user_validation_text _ _ _ _ _ Hvalid) as Htext.
    repeat (apply Forall_cons in Htext as [(? & ? & ?) Htext]).
    repeat constructor; simpl;
      try (intros Hd; match goal with
                      | Ha : req_data req !! ?k = None → _ |- _ =>
                          by rewrite (Ha Hd)
                      end);
      try (intros s Hd; match goal with
                        | Hp : ∀ s, req_data req !! ?k = Some (JStr s) → _ |- _ =>
                            by rewrite (Hp s Hd)
                        end);
      try (intros z Hd; match goal with
                        | Hp : ∀ z, req_data req !! ?k = Some (JInt z) → _ |- _ =>
                            by rewrite (Hp z Hd)
                        end).
  - by apply get_by_pk_Some in Hsaved as [? _].
  - exact Hsaved.
  - apply save_row_length.
  - intros i x Hx Hne. apply save_row_others; [done|]. simpl. by subst u.
  - done.
Qed.

Lemma update_profile_changes_only_caller_witness :
  req_user (Sample.request (Some 2) [("bio", JStr " Gardener ")] []) = Some 2 ∧
  db_consistent Sample.db ∧
  Sample.bob ∈ users Sample.db ∧ user_id Sample.bob = 2 ∧
  ∃ row' db',
    dispatch (UserViewSet.update_profile (H := Sample.framework)
                (Sample.request (Some 2) [("bio", JStr " Gardener ")] [])) Sample.db =
      (mkResponse HTTP_200_OK (UserSerializer.to_representation db' row'), db') ∧
    user_id row' = 2 ∧ date_joined row' = date_joined Sample.bob ∧
    bio row' = "Gardener" ∧ username row' = "bob" ∧ row' ∈ users db'.
Proof.
  split; [reflexivity|]. split; [exact sample_db_consistent|].
  split; [right; left|]. split; [reflexivity|].
  destruct (@update_profile_changes_only_caller Sample.framework Sample.db
              (Sample.request (Some 2) [("bio", JStr " Gardener ")] []) 2 Sample.bob
              (mkUserData None None None None None (Some "Gardener"))
              eq_refl sample_db_consistent ltac:(right; left) eq_refl
              ltac:(vm_compute; reflexivity))
    as (row' & db' & Hrun & Hid & Hjoined & Hfields & Hin & _).
  exists row', db'. split; [exact Hrun|]. split; [exact Hid|]. split; [exact Hjoined|].
  apply Forall_cons in Hfields as [(Hname & _) Hfields].
  do 3 apply Forall_cons in Hfields as [_ Hfields].
  apply Forall_cons in Hfields as [(_ & Hbio & _) _].
  split; [|split; [|exact Hin]].
  - apply (Hbio " Gardener "). vm_compute. reflexivity.
  - apply Hname. vm_compute. reflexivity.
Defined.

(** A body that only repeats the user name of the instance is valid. *)
Lemma user_validation_own_name `{Framework} db row s :
  NoDup (username <$> users db) → row ∈ users db →
  strip s = username row →
  username row ≠ EmptyString →
  (String.length (username row) ≤ 150)%nat →
  valid_username (username row) = true →
  has_null (username row) = false →
  UserSerializer.run_validation true (Some row) db {["username" := JStr s]} =
  inr (mkUserData (Some (username row)) None None None None None).
Proof.
  intros Hnd Hrow Hs Hne Hlen Hok Hnull. unfold UserSerializer.run_validation.
  rewrite lookup_singleton_eq, !lookup_singleton_ne by done.
  assert (Hfree : username row ∉
            username <$> filter (λ u, Some (user_id u) ≠ user_id <$> Some row) (users db)).
  { intros (x & Hname & Hx)%list_elem_of_fmap.
    apply list_elem_of_filter in Hx as [Hid Hx].
    assert (row = x) as -> by by apply (NoDup_fmap_eq username (users db)).
    by apply Hid. }
  unfold run_field, CharField, text_value. rewrite Hs.
  rewrite decide_False by done.
  unfold run_validators. simpl.
  unfold MaxLengthValidator, check, UniqueValidator, ProhibitNullCharactersValidator.
  rewrite Hok, Hnull, (decide_False _ _ Hfree).
  destruct (150 <? String.length (username row))%nat eqn:Hlt.
  { apply Nat.ltb_lt in Hlt. lia. }
  done.
Qed.

(** X4.  [update_profile] with a body that fails validation answers 400
    with the errors and changes nothing; a user name that, once trimmed,
    is the user name of another account is such a body.  The caller's own
    user name is no conflict: a body that only repeats it, padded or not,
    is accepted and changes nothing either. *)
Theorem update_profile_rejections `{Framework} (db : DB) (req : Request)
    (u : Z) (row : User) :
  req_user req = Some u →
  db_consistent db →
  row ∈ users db → user_id row = u →
  (∀ errors,
     UserSerializer.run_validation true (Some row) db (req_data req) = inl errors →
     dispatch (UserViewSet.update_profile req) db =
       (mkResponse HTTP_400_BAD_REQUEST (error_detail errors), db)) ∧
  (∀ x s, x ∈ users db → user_id x ≠ u →
     req_data req !! "username" = Some (JStr s) → strip s = username x →
     ∃ errors,
       dispatch (UserViewSet.update_profile req) db =
         (mkResponse HTTP_400_BAD_REQUEST (error_detail errors), db) ∧
       "username" ∈ errors.*1) ∧
  (∀ s, req_data req = {["username" := JStr s]} → strip s = username row →
   username row ≠ EmptyString →
   (String.length (username row) ≤ 150)%nat →
   valid_username (username row) = true →
   has_null (username row) = false →
   dispatch (UserViewSet.update_profile req) db =
     (mkResponse HTTP_200_OK (UserSerializer.to_representation db row), db)).
Proof.
  intros Hu (Husr & Hnames & _) Hrow Hid.
  assert (Hget : get_by_pk user_id u (users db) = Some row)
    by (subst u; by apply get_by_pk_unique).
  rewrite (update_profile_run req db u row Hu Hget).
  split; [|split].
  - intros errors Hvalid. by rewrite Hvalid.
  - intros x s Hx Hne Hd Hs.
    destruct (user_validation_conflict true (Some row) db (req_data req) s Hd)
      as (errors & Hvalid & Hfield).
    { rewrite Hs. apply list_elem_of_fmap_2, list_elem_of_filter. split; [|done].
      simpl. intros [= Heq]. apply Hne. by rewrite Heq. }
    exists errors. by rewrite Hvalid.
  - intros s Hd Hs Hne Hlen Hok Hnull.
    rewrite Hd, (user_validation_own_name db row s) by done.
    cbn zeta. cbn [default from_option id ud_username ud_email ud_first_name
                   ud_last_name ud_profile_image ud_bio].
    assert (Hsame : mkUser (user_id row) (username row) (email row) (first_name row)
                      (last_name row) (profile_image row) (bio row)
                      (date_joined row) = row) by by destruct row.
    rewrite Hsame, save_row_same by done. by destruct db.
Qed.

Lemma update_profile_rejections_witness :
  req_user (Sample.request (Some 2) [("username", JStr "alice ")] []) = Some 2 ∧
  db_consistent Sample.db ∧
  Sample.bob ∈ users Sample.db ∧ user_id Sample.bob = 2 ∧
  ∃ errors,
    dispatch (UserViewSet.update_profile (H := Sample.framework)
                (Sample.request (Some 2) [("username", JStr "alice ")] [])) Sample.db =
      (mkResponse HTTP_400_BAD_REQUEST (error_detail errors), Sample.db) ∧
    "username" ∈ errors.*1.
Proof.
  split; [reflexivity|]. split; [exact sample_db_consistent|].
  split; [right; left|]. split; [reflexivity|].
  apply (proj1 (proj2 (@update_profile_rejections Sample.framework Sample.db
                  (Sample.request (Some 2) [("username", JStr "alice ")] []) 2 Sample.bob
                  eq_refl sample_db_consistent ltac:(right; left) eq_refl))
           Sample.alice "alice ").
  - left.
  - simpl. lia.
  - vm_compute. reflexivity.
  - vm_compute. reflexivity.
Defined.

Lemma user_validation_ignores `{Framework} partial instance db d k v :
  k ∉ user_fields →
  UserSerializer.run_validation partial instance db (<[k := v]> d) =
  UserSerializer.run_validation partial instance db d.
Proof.
  intros Hk. unfold UserSerializer.run_validation.
  assert (Hne : ∀ field, field ∈ user_fields → k ≠ field) by (intros field ? ->; done).
  rewrite !lookup_insert_ne by (apply Hne; unfold user_fields; repeat constructor).
  done.
Qed.

(** X5.  Registration and [update_profile] read only the six fields of
    the user serializer: an entry under any other key ([password], [id],
    [date_joined], [is_staff], ...) changes neither the response nor the
    store. *)
Theorem other_user_keys_ignored `{Framework} (db : DB) (req : Request)
    (k : string) (v : json) :
  k ∉ user_fields →
  dispatch (UserViewSet.create (with_data (<[k := v]> (req_data req)) req)) db =
    dispatch (UserViewSet.create req) db ∧
  dispatch (UserViewSet.update_profile (with_data (<[k := v]> (req_data req)) req)) db =
    dispatch (UserViewSet.update_profile req) db.
Proof.
  intros Hk. split.
  - rewrite !UserViewSet_create_run. unfold with_data. cbn [req_data req_now].
    by rewrite user_validation_ignores.
  - destruct req as [[u|] d q now]; unfold with_data; cbn [req_user req_data req_query req_now].
    + destruct (get_by_pk user_id u (users db)) as [row|] eqn:Hget.
      * rewrite !(update_profile_run _ db u row) by done.
        cbn [req_data]. by rewrite user_validation_ignores.
      * unfold dispatch, UserViewSet.update_profile, UserViewSet.request_user,
          check_permissions, bind, query.
        cbn [vs_get_permissions UserViewSet.viewset req_user].
        unfold UserViewSet.get_permissions. rewrite decide_False by done.
        cbn [forallb IsAuthenticated req_user]. simpl. by rewrite Hget.
    + unfold dispatch, UserViewSet.update_profile, check_permissions, bind.
      cbn [vs_get_permissions UserViewSet.viewset].
      unfold UserViewSet.get_permissions. by rewrite decide_False by done.
Qed.

Lemma other_user_keys_ignored_witness :
  ("password" ∉ user_fields) ∧
  (dispatch (UserViewSet.create (H := Sample.framework)
               (Sample.request None Sample.carol_body [])) Sample.db =
   dispatch (UserViewSet.create (H := Sample.framework)
               (Sample.request None
                  [("username", JStr "carol"); ("email", JStr "carol@example.org")] []))
     Sample.db).
Proof.
  assert (Hk : "password" ∉ user_fields).
  { unfold user_fields. intros Hin.
    repeat (apply elem_of_cons in Hin as [Heq|Hin]; [discriminate Heq|]).
    by apply not_elem_of_nil in Hin. }
  split; [exact Hk|].
  pose proof (proj1 (@other_user_keys_ignored Sample.framework Sample.db
                       (Sample.request None
                          [("username", JStr "carol"); ("email", JStr "carol@example.org")] [])
                       "password" (JStr "secret") Hk)) as Hsame.
  rewrite <- Hsame. reflexivity.
Defined.

(** ** Tags *)

Lemma Tag_delete_photo_tags_all db t pk x :
  NoDup (tag_id <$> tags db) → t ∈ tags db →
  x ∈ photo_tags_all (Tag_delete t db) pk ↔ x ∈ photo_tags_all db pk ∧ x ≠ t.
Proof.
  intros Hnd Ht. unfold photo_tags_all, Tag_delete.
  cbn [tags photo_tags set_tags set_photo_tags].
  rewrite !list_elem_of_filter. simpl. split.
  - intros ((Hkeep & Hrow) & Hne & Hx). split; [done|]. by intros ->.
  - intros ((Hrow & Hx) & Hne).
    assert (Hid : tag_id x ≠ tag_id t).
    { intros Heq. apply Hne. by apply (NoDup_fmap_eq tag_id (tags db)). }
    done.
Qed.

(** X6.  Any authenticated caller can delete any tag: the answer is 204,
    the tag row is gone and every photo that carried the tag loses just
    that tag; users, albums and photo rows are left as they were. *)
Theorem tag_destroy_unlinks (db : DB) (req : Request) (u : Z) (t : Tag) :
  req_user req = Some u →
  db_consistent db →
  t ∈ tags db →
  ∃ db',
    dispatch (TagViewSet.destroy req (tag_id t)) db =
      (mkResponse HTTP_204_NO_CONTENT JNull, db') ∧
    users db' = users db ∧ albums db' = albums db ∧ photos db' = photos db ∧
    (∀ x, x ∈ tags db' ↔ x ∈ tags db ∧ x ≠ t) ∧
    (∀ pk x, x ∈ photo_tags_all db' pk ↔ x ∈ photo_tags_all db pk ∧ x ≠ t).
Proof.
  intros Hu (_ & _ & _ & Htag & _) Ht.
  exists (Tag_delete t db). split; [|split; [done|split; [done|split; [done|split]]]].
  - unfold TagViewSet.destroy.
    rewrite (destroy_action_run TagViewSet.viewset req _ db t); [done| |].
    + by apply (authenticated_permitted req u).
    + by apply get_by_pk_unique.
  - intros x. unfold Tag_delete. cbn [tags set_tags].
    rewrite list_elem_of_filter. split.
    + intros [Hne Hx]. split; [done|]. by intros ->.
    + intros [Hx Hne]. split; [|done]. intros Heq. apply Hne.
      by apply (NoDup_fmap_eq tag_id (tags db)).
  - intros pk x. by apply Tag_delete_photo_tags_all.
Qed.

Lemma tag_destroy_unlinks_witness :
  req_user (Sample.request (Some 2) [] []) = Some 2 ∧
  db_consistent Sample.db ∧
  Sample.family ∈ tags Sample.db ∧
  photo_tags_all Sample.db (photo_id Sample.beach) = [Sample.vacation; Sample.family] ∧
  ∃ db',
    dispatch (TagViewSet.destroy (Sample.request (Some 2) [] [])
                (tag_id Sample.family)) Sample.db =
      (mkResponse HTTP_204_NO_CONTENT JNull, db') ∧
    photos db' = photos Sample.db.
Proof.
  split; [reflexivity|]. split; [exact sample_db_consistent|].
  split; [right; left|]. split; [vm_compute; reflexivity|].
  destruct (tag_destroy_unlinks Sample.db (Sample.request (Some 2) [] []) 2
              Sample.family eq_refl sample_db_consistent ltac:(right; left))
    as (db' & Hrun & _ & _ & Hphotos & _).
  by exists db'.
Defined.

(** Bob deletes the tag "family", which only a photo of Alice carries. *)
Example bob_deletes_family :
  let db' := (dispatch (TagViewSet.destroy (Sample.request (Some 2) [] []) 2)
                Sample.db).2 in
  photo_tags_all db' (photo_id Sample.beach) = [Sample.vacation] ∧
  photos db' = photos Sample.db.
Proof. vm_compute. done. Qed.

(** X7.  Tag names stay unique through the tag view set.  Creating a tag
    under a name that, once trimmed, some tag carries answers 400 with an
    entry for [name] and changes nothing; a valid creation answers 201 and
    appends one tag under a fresh key, named with the submitted text,
    trimmed, which no other tag has.  Renaming a tag to what is, once
    trimmed, the name of another tag answers 400 and changes nothing. *)
Theorem tag_names_stay_unique (db : DB) (req : Request) (u : Z) :
  req_user req = Some u →
  (∀ s, req_data req !! "name" = Some (JStr s) → strip s ∈ name <$> tags db →
     ∃ errors,
       dispatch (TagViewSet.create req) db =
         (mkResponse HTTP_400_BAD_REQUEST (error_detail errors), db) ∧
       "name" ∈ errors.*1) ∧
  (∀ vd, TagSerializer.run_validation false None db (req_data req) = inr vd →
     ∃ t,
       dispatch (TagViewSet.create req) db =
         (mkResponse HTTP_201_CREATED
            (TagSerializer.to_representation (set_tags (tags db ++ [t])%list db) t),
          set_tags (tags db ++ [t])%list db) ∧
       is_Some (req_data req !! "name") ∧
       (∀ s, req_data req !! "name" = Some (JStr s) → name t = strip s) ∧
       (∀ z, req_data req !! "name" = Some (JInt z) → name t = pretty z) ∧
       (name t ∉ name <$> tags db) ∧ (tag_id t ∉ tag_id <$> tags db)) ∧
  (∀ (partial : bool) t x s,
     db_consistent db → t ∈ tags db → x ∈ tags db → x ≠ t →
     req_data req !! "name" = Some (JStr s) → strip s = name x →
     ∃ errors,
       dispatch (update_action TagViewSet.viewset partial req (tag_id t)) db =
         (mkResponse HTTP_400_BAD_REQUEST (error_detail errors), db) ∧
       "name" ∈ errors.*1).
Proof.
  intros Hu. pose proof (authenticated_permitted req u Hu) as Hperm.
  split; [|split].
  - intros s Hd Htaken.
    destruct (tag_validation_conflict false None db (req_data req) s Hd)
      as (errors & Hvalid & Hfield).
    { by rewrite filter_all. }
    exists errors. split; [|done]. unfold TagViewSet.create.
    by apply (create_action_invalid TagViewSet.viewset).
  - intros vd Hvalid.
    destruct (tag_validation_name _ _ _ _ Hvalid) as (n & Hn & Hfree).
    rewrite filter_all in Hfree by done.
    destruct (tag_validation_text _ _ _ _ _ Hvalid) as (Habsent & Hstr & Hint).
    unfold TagViewSet.create.
    rewrite (create_action_run TagViewSet.viewset req db vd Hperm Hvalid).
    cbn [vs_serializer_create vs_perform_create vs_to_representation
         TagViewSet.viewset].
    unfold TagSerializer.create. rewrite Hn in *. cbn [default from_option id].
    eexists. split; [reflexivity|]. cbn [name tag_id].
    split.
    { destruct (req_data req !! "name") as [x|]; [by eexists|].
      by specialize (Habsent eq_refl). }
    split; [by intros s [= <-]%Hstr|]. split; [by intros z [= <-]%Hint|].
    split; [done|]. apply fresh_pk_fresh.
  - intros partial t x s (_ & _ & _ & Htag & _) Ht Hx Hne Hd Hs.
    destruct (tag_validation_conflict partial (Some t) db (req_data req) s Hd)
      as (errors & Hvalid & Hfield).
    { rewrite Hs. apply list_elem_of_fmap_2, list_elem_of_filter. split; [|done].
      simpl. intros [= Heq]. apply Hne.
      by apply (NoDup_fmap_eq tag_id (tags db)). }
    exists errors. split; [|done].
    unfold dispatch, update_action, check_permissions, get_object, is_valid,
      bind, query, ret, raise.
    cbn [vs_get_permissions vs_get_queryset vs_pk vs_run_validation
         TagViewSet.viewset].
    unfold TagViewSet.get_queryset.
    rewrite Hperm, (get_by_pk_unique tag_id (tags db) t) by done.
    by rewrite Hvalid.
Qed.

Lemma tag_names_stay_unique_witness :
  req_user (Sample.request (Some 1) [("name", JStr " family ")] []) = Some 1 ∧
  ∃ errors,
    dispatch (TagViewSet.create (Sample.request (Some 1) [("name", JStr " family ")] []))
      Sample.db =
      (mkResponse HTTP_400_BAD_REQUEST (error_detail errors), Sample.db) ∧
    "name" ∈ errors.*1.
Proof.
  split; [reflexivity|].
  apply (proj1 (tag_names_stay_unique Sample.db
                  (Sample.request (Some 1) [("name", JStr " family ")] []) 1 eq_refl)
           " family ").
  - vm_compute. reflexivity.
  - right. left.
Defined.

(** A padded name is stored trimmed. *)
Example padded_tag_name :
  let '(response, db') :=
    dispatch (TagViewSet.create (Sample.request (Some 1) [("name", JStr " sea ")] []))
      Sample.db in
  status response = HTTP_201_CREATED ∧ name <$> tags db' = ["vacation"; "family"; "sea"].
Proof. vm_compute. done. Qed.

(** ** Photos *)

(** A message for a field makes the whole validation fail, with an entry
    for that field: the goal is left as the membership of the message in
    the collected errors. *)
Ltac collect_error field msgs :=
  match goal with
  | |- context [match concat ?ls with _ => _ end] =>
      let Hin := fresh "Hin" in
      assert (Hin : (field, msgs) ∈ concat ls);
      [|destruct (concat ls) as [|? ?];
        [by apply not_elem_of_nil in Hin
        |eexists; split; [reflexivity|];
         change field with ((field, msgs).1); by apply list_elem_of_fmap_2]]
  end.

(** What valid photo data hold for the album, the owner and the text
    fields. *)
Lemma photo_validation_fields `{Framework} partial instance db d vd :
  PhotoSerializer.run_validation partial instance db d = inr vd →
  pd_owner vd = None ∧
  (∀ k, d !! "album" = Some (JInt k) →
     pd_album vd = Some k ∧ k ∈ album_id <$> albums db) ∧
  (d !! "album" = None → pd_album vd = None) ∧
  (∀ k, pd_album vd = Some k → k ∈ album_id <$> albums db).
Proof.
  unfold PhotoSerializer.run_validation. intros Hvalid.
  destruct (concat _) eqn:Herrs in Hvalid; [|done].
  simplify_eq/=. split; [done|].
  do 3 apply app_nil in Herrs as [_ Herrs].
  apply app_nil in Herrs as [Halbum _].
  split; [|split].
  - intros k Hd. rewrite Hd in *. simpl in *.
    destruct (decide (k ∈ album_id <$> albums db)); simpl in *; done.
  - intros Hd. rewrite Hd. simpl. by destruct partial.
  - intros k. destruct (d !! "album") as [x|]; simpl in *;
      [|by destruct partial].
    destruct x as [| |z| | |]; simpl in *; try done.
    destruct (decide (z ∈ album_id <$> albums db)); simpl in *; [|done].
    by intros [= <-].
Qed.

(** What valid photo data hold for the title, the description and the
    image of the body. *)
Lemma photo_validation_text `{Framework} partial instance db d vd :
  PhotoSerializer.run_validation partial instance db d = inr vd →
  text_entry d "title" (pd_title vd) ∧
  text_entry d "description" (pd_description vd) ∧
  (d !! "image" = None → pd_image vd = None) ∧
  (∀ f, d !! "image" = Some (JStr f) → pd_image vd = Some f).
Proof.
  unfold PhotoSerializer.run_validation. intros Hvalid.
  destruct (concat _) eqn:Herrs in Hvalid; [|done].
  simplify_eq. cbn [concat] in Herrs.
  apply app_nil in Herrs as [Htitle Herrs].
  apply app_nil in Herrs as [Hdescription Herrs].
  apply app_nil in Herrs as [Himage _].
  cbn [pd_title pd_description pd_image].
  split; [|split; [|split]].
  - unfold text_entry. by eapply run_field_text.
  - unfold text_entry. by eapply run_field_text.
  - intros Hd. rewrite Hd. simpl. by destruct partial.
  - intros f Hd. rewrite Hd in *. unfold run_field, validated in *. simpl in *.
    by destruct (run_validators _ f) as [msgs|f'] eqn:Hrun;
      [|apply run_validators_inr in Hrun as ->].
Qed.

(** X8.  The album of a new photo may be any album in storage, whoever
    owns it: a valid upload answers 201 and adds a photo owned by the
    caller to that album, where the album's nested photo list shows it. *)
Theorem photo_create_accepts_any_album `{Framework} (db : DB) (req : Request)
    (u : Z) (a : Album) (vd : PhotoData) :
  req_user req = Some u →
  a ∈ albums db →
  req_data req !! "album" = Some (JInt (album_id a)) →
  PhotoSerializer.run_validation false None db (req_data req) = inr vd →
  ∃ p db',
    dispatch (PhotoViewSet.create req) db =
      (mkResponse HTTP_201_CREATED (PhotoSerializer.to_representation db' p), db') ∧
    photos db' = (photos db ++ [p])%list ∧ albums db' = albums db ∧
    owner p = u ∧ album p = album_id a ∧
    p ∈ album_photos_all db' (album_id a).
Proof.
  intros Hu Ha Hd Hvalid.
  pose proof (authenticated_permitted req u Hu) as Hperm.
  destruct (photo_validation_fields _ _ _ _ _ Hvalid) as (_ & Halbum & _).
  destruct (Halbum _ Hd) as [Hpd _].
  unfold PhotoViewSet.create.
  rewrite (create_action_run PhotoViewSet.viewset req db vd Hperm Hvalid).
  cbn [vs_serializer_create vs_perform_create vs_to_representation
       PhotoViewSet.viewset].
  rewrite (PhotoSerializer_create_run _ _ _ (album_id a) u)
    by first [apply unbounded_takes | simpl; done].
  eexists _, _. split; [reflexivity|].
  assert (Hin : ∀ l : list Photo, ∀ x, x ∈ (l ++ [x])%list).
  { intros l x. apply elem_of_app. right. left. }
  destruct (decide _); cbn [photos albums set_photos photo_tags_set set_photo_tags
                            owner album];
    (split; [done|]); (split; [done|]); (split; [done|]); (split; [done|]);
    unfold album_photos_all; cbn [photos set_photos set_photo_tags photo_tags_set];
    apply list_elem_of_filter; (split; [done|apply Hin]).
Qed.

Lemma photo_create_accepts_any_album_witness :
  req_user (Sample.request (Some 1)
              [("title", JStr "Peony"); ("image", JStr "photos/peony.jpg");
               ("album", JInt 2)] []) = Some 1 ∧
  Sample.garden ∈ albums Sample.db ∧ album_owner Sample.garden = 2 ∧
  ∃ p db',
    dispatch (PhotoViewSet.create (H := Sample.framework)
                (Sample.request (Some 1)
                   [("title", JStr "Peony"); ("image", JStr "photos/peony.jpg");
                    ("album", JInt 2)] [])) Sample.db =
      (mkResponse HTTP_201_CREATED (PhotoSerializer.to_representation db' p), db') ∧
    owner p = 1 ∧ album p = album_id Sample.garden.
Proof.
  split; [reflexivity|]. split; [right; left|]. split; [reflexivity|].
  destruct (@photo_create_accepts_any_album Sample.framework Sample.db
              (Sample.request (Some 1)
                 [("title", JStr "Peony"); ("image", JStr "photos/peony.jpg");
                  ("album", JInt 2)] []) 1 Sample.garden
              (mkPhotoData (Some "Peony") None (Some "photos/peony.jpg") (Some 2)
                 None None)
              eq_refl ltac:(right; left) ltac:(vm_compute; reflexivity)
              ltac:(vm_compute; reflexivity))
    as (p & db' & Hrun & _ & _ & Hown & Halbum & _).
  by exists p, db'.
Defined.

Lemma photo_validation_required `{Framework} instance db d field :
  field ∈ ["title"; "image"; "album"] → d !! field = None →
  ∃ errors, PhotoSerializer.run_validation false instance db d = inl errors ∧
            field ∈ errors.*1.
Proof.
  intros Hfield Hd. unfold PhotoSerializer.run_validation.
  repeat (apply elem_of_cons in Hfield as [->|Hfield]);
    [..|by apply not_elem_of_nil in Hfield];
    rewrite Hd;
    match goal with
    | |- context [field_errors ?f (run_field _ _ _ None)] =>
        collect_error f ["This field is required."]
    end;
    cbn [concat]; rewrite !elem_of_app; cbn [run_field andb negb field_errors].
  - left. left.
  - do 2 right. left. left.
  - do 3 right. left. left.
Qed.

Lemma photo_validation_unknown_album `{Framework} partial instance db d k :
  d !! "album" = Some (JInt k) → k ∉ album_id <$> albums db →
  ∃ errors, PhotoSerializer.run_validation partial instance db d = inl errors ∧
            "album" ∈ errors.*1.
Proof.
  intros Hd Hk. unfold PhotoSerializer.run_validation. rewrite Hd.
  collect_error "album" ["Invalid pk - object does not exist."].
  cbn [concat]. rewrite !elem_of_app. do 3 right. left.
  cbn [run_field PrimaryKeyRelatedField]. rewrite decide_False by done. left.
Qed.

(** X9.  An upload that leaves out the title, the image or the album, or
    names an album key that no row carries, answers 400 with an entry for
    that field; so does an album without a title.  Nothing is stored. *)
Theorem create_rejects_incomplete `{Framework} (db : DB) (req : Request) (u : Z) :
  req_user req = Some u →
  (∀ field, field ∈ ["title"; "image"; "album"] → req_data req !! field = None →
     ∃ errors,
       dispatch (PhotoViewSet.create req) db =
         (mkResponse HTTP_400_BAD_REQUEST (error_detail errors), db) ∧
       field ∈ errors.*1) ∧
  (∀ k, req_data req !! "album" = Some (JInt k) → k ∉ album_id <$> albums db →
     ∃ errors,
       dispatch (PhotoViewSet.create req) db =
         (mkResponse HTTP_400_BAD_REQUEST (error_detail errors), db) ∧
       "album" ∈ errors.*1) ∧
  (req_data req !! "title" = None →
     ∃ errors,
       dispatch (AlbumViewSet.create req) db =
         (mkResponse HTTP_400_BAD_REQUEST (error_detail errors), db) ∧
       "title" ∈ errors.*1).
Proof.
  intros Hu. pose proof (authenticated_permitted req u Hu) as Hperm.
  split; [|split].
  - intros field Hfield Hd.
    destruct (photo_validation_required None db (req_data req) field Hfield Hd)
      as (errors & Hvalid & Hin).
    exists errors. split; [|done]. unfold PhotoViewSet.create.
    by apply (create_action_invalid PhotoViewSet.viewset).
  - intros k Hd Hk.
    destruct (photo_validation_unknown_album false None db (req_data req) k Hd Hk)
      as (errors & Hvalid & Hin).
    exists errors. split; [|done]. unfold PhotoViewSet.create.
    by apply (create_action_invalid PhotoViewSet.viewset).
  - intros Hd.
    assert (Hvalid : ∃ errors,
              AlbumSerializer.run_validation false None db (req_data req) = inl errors ∧
              "title" ∈ errors.*1).
    { unfold AlbumSerializer.run_validation. rewrite Hd.
      collect_error "title" ["This field is required."].
      cbn [concat]. rewrite !elem_of_app. left. left. }
    destruct Hvalid as (errors & Hvalid & Hin).
    exists errors. split; [|done]. unfold AlbumViewSet.create.
    by apply (create_action_invalid AlbumViewSet.viewset).
Qed.

Lemma create_rejects_incomplete_witness :
  req_user (Sample.request (Some 1)
              [("title", JStr "Peony"); ("image", JStr "photos/peony.jpg");
               ("album", JInt 7)] []) = Some 1 ∧
  ∃ errors,
    dispatch (PhotoViewSet.create (H := Sample.framework)
                (Sample.request (Some 1)
                   [("title", JStr "Peony"); ("image", JStr "photos/peony.jpg");
                    ("album", JInt 7)] [])) Sample.db =
      (mkResponse HTTP_400_BAD_REQUEST (error_detail errors), Sample.db) ∧
    "album" ∈ errors.*1.
Proof.
  split; [reflexivity|].
  apply (proj1 (proj2 (@create_rejects_incomplete Sample.framework Sample.db
                         (Sample.request (Some 1)
                            [("title", JStr "Peony"); ("image", JStr "photos/peony.jpg");
                             ("album", JInt 7)] []) 1 eq_refl)) 7).
  - vm_compute. reflexivity.
  - apply (bool_decide_unpack _). vm_compute. exact I.
Defined.

Lemma photo_tags_set_all_others pk new db pk' :
  pk' ≠ pk →
  photo_tags_all (photo_tags_set pk new db) pk' = photo_tags_all db pk'.
Proof.
  intros Hne. unfold photo_tags_all.
  change (tags (photo_tags_set pk new db)) with (tags db).
  apply list_filter_iff. intros t. by apply photo_tags_set_others.
Qed.

(** X10.  A valid photo update touches one photo only.  The saved row
    keeps key, owner and upload time; every other photo row, the tags of
    every other photo, and the user, album and tag tables are left as they
    were, also when the request replaces the tags of the photo. *)
Theorem photo_update_frame `{Framework} (db : DB) (req : Request)
    (u : Z) (partial : bool) (instance : Photo) (vd : PhotoData) :
  req_user req = Some u →
  db_consistent db →
  instance ∈ photos db → owner instance = u →
  PhotoSerializer.run_validation partial (Some instance) db (req_data req) = inr vd →
  ∃ p db',
    dispatch (update_action PhotoViewSet.viewset partial req (photo_id instance)) db =
      (mkResponse HTTP_200_OK (PhotoSerializer.to_representation db' p), db') ∧
    photo_id p = photo_id instance ∧ owner p = owner instance ∧
    uploaded_at p = uploaded_at instance ∧
    get_by_pk photo_id (photo_id instance) (photos db') = Some p ∧
    (∀ i q, photos db !! i = Some q → photo_id q ≠ photo_id instance →
       photos db' !! i = Some q) ∧
    (∀ pk, pk ≠ photo_id instance → photo_tags_all db' pk = photo_tags_all db pk) ∧
    users db' = users db ∧ albums db' = albums db ∧ tags db' = tags db.
Proof.
  intros Hu Hcons Hin Hown Hvalid.
  pose proof (authenticated_permitted req u Hu) as Hperm.
  destruct Hcons as (_ & _ & _ & _ & _ & Hpho & _).
  assert (Hget : get_by_pk photo_id (photo_id instance)
                   (PhotoViewSet.get_queryset req db) = Some instance).
  { unfold PhotoViewSet.get_queryset. rewrite Hu.
    by apply get_by_pk_filter_unique. }
  destruct (photo_validation_fields _ _ _ _ _ Hvalid) as (Hno_owner & _).
  rewrite (update_action_run PhotoViewSet.viewset partial req _ db instance vd);
    [|by destruct partial|done|done].
  cbn [vs_serializer_update vs_to_representation PhotoViewSet.viewset].
  rewrite PhotoSerializer_update_run by apply unbounded_takes. rewrite Hno_owner.
  eexists _, _. split; [reflexivity|].
  cbn [photo_id owner uploaded_at default from_option id].
  split; [done|]. split; [done|]. split; [done|].
  assert (Htables : ∀ db0, match pd_tag_ids vd with
                           | Some ids => photo_tags_set (photo_id instance)
                                           (Tag_objects_filter_id_in ids db) db
                           | None => db
                           end = db0 →
            photos db0 = photos db ∧ users db0 = users db ∧
            albums db0 = albums db ∧ tags db0 = tags db ∧
            ∀ pk, pk ≠ photo_id instance →
                  photo_tags_all db0 pk = photo_tags_all db pk).
  { intros db0 <-. destruct (pd_tag_ids vd); repeat split; try done.
    intros pk Hpk. by apply photo_tags_set_all_others. }
  destruct (Htables _ eq_refl) as (Hphotos & Husers & Halbums & Htags & Hothers).
  cbn [photos users albums tags set_photos]. rewrite Hphotos.
  split; [|split; [|split; [|done]]].
  - apply (save_row_get photo_id (mkPhoto (photo_id instance) _ _ _ _ _ _));
      [done|]. cbn [photo_id]. by apply list_elem_of_fmap_2.
  - intros i q Hq Hne. by apply save_row_others.
  - intros pk Hpk. rewrite <- (Hothers pk Hpk). reflexivity.
Qed.

Lemma photo_update_frame_witness :
  req_user (Sample.request (Some 1) [("tag_ids", JList [])] []) = Some 1 ∧
  db_consistent Sample.db ∧
  Sample.beach ∈ photos Sample.db ∧ owner Sample.beach = 1 ∧
  ∃ db',
    (dispatch (update_action (PhotoViewSet.viewset (H := Sample.framework)) true
                 (Sample.request (Some 1) [("tag_ids", JList [])] [])
                 (photo_id Sample.beach)) Sample.db).2 = db' ∧
    photo_tags_all db' (photo_id Sample.roses) =
      photo_tags_all Sample.db (photo_id Sample.roses).
Proof.
  split; [reflexivity|]. split; [exact sample_db_consistent|].
  split; [left|]. split; [reflexivity|].
  destruct (@photo_update_frame Sample.framework Sample.db
              (Sample.request (Some 1) [("tag_ids", JList [])] []) 1 true Sample.beach
              (mkPhotoData None None None None (Some []) None)
              eq_refl sample_db_consistent ltac:(left) eq_refl
              ltac:(vm_compute; reflexivity))
    as (p & db' & Hrun & _ & _ & _ & _ & _ & Hothers & _).
  exists db'. split.
  - rewrite Hrun. reflexivity.
  - apply Hothers. simpl. lia.
Defined.

(** C9.  A valid photo update whose [tag_ids] is the empty list or is
    absent answers 200 on every backend and saves the row: afterwards the
    photo table holds, under the key of the photo, the row with the
    submitted title, description, image and album (text trimmed, a number
    as title in decimal), each field the body leaves out as it was, and
    key, owner and upload time as they were; the other photo rows stay.
    With the empty list the photo is left in no row of the through table,
    so it has no tag; without the field the through table is left as it
    was.  Rows of other photos stay in both cases. *)
Theorem update_tag_ids_empty_or_absent `{Framework} `{Backend} (db : DB)
    (req : Request) (u : Z) (partial : bool) (instance : Photo) (vd : PhotoData) :
  req_user req = Some u →
  db_consistent db →
  instance ∈ photos db → owner instance = u →
  PhotoSerializer.run_validation partial (Some instance) db (req_data req) = inr vd →
  req_data req !! "tag_ids" = Some (JList []) ∨ req_data req !! "tag_ids" = None →
  ∃ p db',
    dispatch (update_action PhotoViewSet.viewset partial req (photo_id instance)) db =
      (mkResponse HTTP_200_OK (PhotoSerializer.to_representation db' p), db') ∧
    p ∈ photos db' ∧
    (∀ q, q ∈ photos db' → photo_id q = photo_id instance → q = p) ∧
    (∀ q, photo_id q ≠ photo_id instance → q ∈ photos db' ↔ q ∈ photos db) ∧
    photo_id p = photo_id instance ∧ owner p = owner instance ∧
    uploaded_at p = uploaded_at instance ∧
    (req_data req !! "title" = None → title p = title instance) ∧
    (∀ s, req_data req !! "title" = Some (JStr s) → title p = strip s) ∧
    (∀ z, req_data req !! "title" = Some (JInt z) → title p = pretty z) ∧
    (req_data req !! "description" = None → description p = description instance) ∧
    (∀ s, req_data req !! "description" = Some (JStr s) → description p = strip s) ∧
    (req_data req !! "image" = None → image p = image instance) ∧
    (∀ f, req_data req !! "image" = Some (JStr f) → image p = f) ∧
    (req_data req !! "album" = None → album p = album instance) ∧
    (∀ k, req_data req !! "album" = Some (JInt k) → album p = k) ∧
    (req_data req !! "tag_ids" = Some (JList []) →
       (∀ tid, (photo_id instance, tid) ∉ photo_tags db') ∧
       photo_tags_all db' (photo_id instance) = []) ∧
    (req_data req !! "tag_ids" = None →
       photo_tags db' = photo_tags db ∧
       photo_tags_all db' (photo_id instance) = photo_tags_all db (photo_id instance)) ∧
    (∀ pk tid, pk ≠ photo_id instance →
       (pk, tid) ∈ photo_tags db' ↔ (pk, tid) ∈ photo_tags db).
Proof.
  intros Hu Hcons Hin Hown Hvalid Hcase.
  pose proof (authenticated_permitted req u Hu) as Hperm.
  pose proof Hcons as (_ & _ & _ & _ & _ & Hpho & _).
  assert (Hget : get_by_pk photo_id (photo_id instance)
                   (PhotoViewSet.get_queryset req db) = Some instance).
  { unfold PhotoViewSet.get_queryset. rewrite Hu.
    by apply get_by_pk_filter_unique. }
  destruct (photo_validation_fields _ _ _ _ _ Hvalid)
    as (Hno_owner & Halbum & Hno_album & _).
  destruct (photo_validation_text _ _ _ _ _ Hvalid)
    as ((Htitle0 & Htitle & Htitlez) & (Hdesc0 & Hdesc & _) & Himage0 & Himage).
  assert (Hids : pd_tag_ids vd = Some [] ∨ pd_tag_ids vd = None).
  { destruct Hcase as [Hempty|Habsent].
    - left. apply (photo_validation_tag_ids _ _ _ _ _ [] Hempty Hvalid).
    - right. apply (photo_validation_no_tag_ids _ _ _ _ _ Habsent Hvalid). }
  rewrite (update_action_run PhotoViewSet.viewset partial req _ db instance vd);
    [|by destruct partial|done|done].
  cbn [vs_serializer_update vs_to_representation PhotoViewSet.viewset].
  rewrite PhotoSerializer_update_run by by destruct Hids as [-> | ->].
  rewrite Hno_owner.
  eexists _, _. split; [reflexivity|].
  cbn [photo_id owner uploaded_at title description image album
       default from_option id].
  set (p := mkPhoto (photo_id instance) _ _ _ _ _ _).
  set (db0 := match pd_tag_ids vd with
              | Some ids => photo_tags_set (photo_id instance)
                              (Tag_objects_filter_id_in ids db) db
              | None => db
              end).
  assert (Hphotos : photos db0 = photos db) by (unfold db0; by destruct (pd_tag_ids vd)).
  cbn [photos photo_tags set_photos]. rewrite Hphotos.
  assert (Hsaved : get_by_pk photo_id (photo_id instance)
                     (save_row photo_id p (photos db)) = Some p).
  { apply (save_row_get photo_id p); [done|].
    change (photo_id p) with (photo_id instance). by apply list_elem_of_fmap_2. }
  split; [by apply get_by_pk_Some in Hsaved as [? _]|].
  split.
  { intros q Hq Hpk. apply save_row_elem_of in Hq as [[_ Hne]|[-> _]]; [|done].
    by destruct Hne. }
  split.
  { intros q Hne. split.
    - intros [[Hq _]|[-> _]]%save_row_elem_of; [done|by destruct Hne].
    - intros Hq. unfold save_row. apply list_elem_of_fmap. exists q.
      split; [|done]. by rewrite decide_False. }
  do 3 (split; [done|]).
  split; [by intros ->%Htitle0|]. split; [by intros s ->%Htitle|].
  split; [by intros z ->%Htitlez|].
  split; [by intros ->%Hdesc0|]. split; [by intros s ->%Hdesc|].
  split; [by intros ->%Himage0|]. split; [by intros f ->%Himage|].
  split; [by intros ->%Hno_album|].
  split; [by intros k [-> _]%Halbum|].
  split; [|split].
  - intros Hempty.
    pose proof (photo_validation_tag_ids _ _ _ _ _ [] Hempty Hvalid) as Htags.
    unfold db0. rewrite Htags.
    assert (Hnone : ∀ tid, (photo_id instance, tid) ∉
              photo_tags (photo_tags_set (photo_id instance)
                            (Tag_objects_filter_id_in [] db) db)).
    { intros tid Hrow. apply (photo_tags_set_filter_joined db db db) in Hrow; [|done].
      destruct Hrow as [Hrow _]. by apply not_elem_of_nil in Hrow. }
    split; [exact Hnone|].
    apply elem_of_nil_inv. intros t Ht.
    apply (photo_tags_all_set db (photo_id instance) [] t) in Ht as [_ Ht].
    by apply not_elem_of_nil in Ht.
  - intros Habsent. unfold db0.
    by rewrite (photo_validation_no_tag_ids _ _ _ _ _ Habsent Hvalid).
  - intros pk tid Hne. unfold db0. destruct (pd_tag_ids vd) as [ids|]; [|done].
    by apply photo_tags_set_others.
Qed.

Lemma update_tag_ids_empty_or_absent_witness :
  req_user (Sample.request (Some 1)
              [("title", JStr " Low tide "); ("tag_ids", JList [])] []) = Some 1 ∧
  db_consistent Sample.db ∧
  Sample.beach ∈ photos Sample.db ∧ owner Sample.beach = 1 ∧
  photo_tags_all Sample.db (photo_id Sample.beach) = [Sample.vacation; Sample.family] ∧
  ∃ p db',
    dispatch (update_action
                (PhotoViewSet.viewset (H := Sample.framework) (backend := sqlite)) true
                (Sample.request (Some 1)
                   [("title", JStr " Low tide "); ("tag_ids", JList [])] [])
                (photo_id Sample.beach)) Sample.db =
      (mkResponse HTTP_200_OK (PhotoSerializer.to_representation db' p), db') ∧
    p ∈ photos db' ∧ photo_id p = 1 ∧ title p = "Low tide" ∧
    image p = image Sample.beach ∧ (Sample.beach ∉ photos db') ∧
    photo_tags_all db' (photo_id Sample.beach) = [].
Proof.
  split; [reflexivity|]. split; [exact sample_db_consistent|].
  split; [left|]. split; [reflexivity|]. split; [vm_compute; reflexivity|].
  destruct (@update_tag_ids_empty_or_absent Sample.framework sqlite Sample.db
              (Sample.request (Some 1)
                 [("title", JStr " Low tide "); ("tag_ids", JList [])] [])
              1 true Sample.beach
              (mkPhotoData (Some "Low tide") None None None (Some []) None)
              eq_refl sample_db_consistent ltac:(left) eq_refl
              ltac:(vm_compute; reflexivity) ltac:(left; vm_compute; reflexivity))
    as (p & db' & Hrun & Hin & Hone & _ & Hid & _ & _ & _ & Htitle & _ & _ & _
        & Himage & _ & _ & _ & Hempty & _).
  assert (Hnew : title p = "Low tide").
  { apply (Htitle " Low tide "). vm_compute. reflexivity. }
  exists p, db'. split; [exact Hrun|]. split; [exact Hin|]. split; [exact Hid|].
  split; [exact Hnew|]. split; [|split].
  - apply Himage. vm_compute. reflexivity.
  - intros Hold. apply Hone in Hold; [|reflexivity].
    rewrite <- Hold in Hnew. vm_compute in Hnew. discriminate Hnew.
  - apply Hempty. vm_compute. reflexivity.
Defined.

(** X11.  The owner deletes a photo: the answer is 204, that photo row and
    its through rows are gone and nothing else is; retrieving the photo
    afterwards answers 404. *)
Theorem photo_destroy_removes_one `{Framework} (db : DB) (req : Request)
    (u : Z) (p : Photo) :
  req_user req = Some u →
  db_consistent db →
  p ∈ photos db → owner p = u →
  ∃ db',
    dispatch (PhotoViewSet.destroy req (photo_id p)) db =
      (mkResponse HTTP_204_NO_CONTENT JNull, db') ∧
    (∀ q, q ∈ photos db' ↔ q ∈ photos db ∧ q ≠ p) ∧
    (∀ r, r ∈ photo_tags db' ↔ r ∈ photo_tags db ∧ r.1 ≠ photo_id p) ∧
    users db' = users db ∧ albums db' = albums db ∧ tags db' = tags db ∧
    dispatch (PhotoViewSet.retrieve req (photo_id p)) db' =
      (mkResponse HTTP_404_NOT_FOUND (JObj [("detail", JStr "Not found.")]), db').
Proof.
  intros Hu (_ & _ & _ & _ & _ & Hpho & _) Hp Hown.
  pose proof (authenticated_permitted req u Hu) as Hperm.
  exists (Photo_delete p db).
  assert (Hleft : ∀ q, q ∈ photos (Photo_delete p db) ↔ q ∈ photos db ∧ q ≠ p).
  { intros q. unfold Photo_delete. rewrite Photo_delete_in_photos.
    rewrite list_elem_of_singleton. split.
    - intros [Hq Hne]. split; [done|]. by intros ->.
    - intros [Hq Hne]. split; [done|]. intros Heq. apply Hne.
      by apply (NoDup_fmap_eq photo_id (photos db)). }
  split; [|split; [done|split; [|split; [done|split; [done|split; [done|]]]]]].
  - unfold PhotoViewSet.destroy.
    rewrite (destroy_action_run PhotoViewSet.viewset req _ db p); [done|done|].
    cbn [vs_pk vs_get_queryset PhotoViewSet.viewset].
    unfold PhotoViewSet.get_queryset. rewrite Hu.
    by apply get_by_pk_filter_unique.
  - intros r. unfold Photo_delete. rewrite Photo_delete_in_photo_tags.
    by rewrite list_elem_of_singleton.
  - unfold PhotoViewSet.retrieve. rewrite retrieve_action_run by exact Hperm.
    cbn [vs_pk vs_get_queryset PhotoViewSet.viewset].
    unfold PhotoViewSet.get_queryset. rewrite Hu.
    assert (Hget : get_by_pk photo_id (photo_id p)
                     (Photo_objects_filter_owner u (Photo_delete p db)) = None).
    { apply get_by_pk_None. intros q Hq Hpk.
      apply list_elem_of_filter in Hq as [_ Hq]. apply Hleft in Hq as [Hq Hne].
      apply Hne. by apply (NoDup_fmap_eq photo_id (photos db)). }
    by rewrite Hget.
Qed.

Lemma photo_destroy_removes_one_witness :
  req_user (Sample.request (Some 1) [] []) = Some 1 ∧
  db_consistent Sample.db ∧
  Sample.beach ∈ photos Sample.db ∧ owner Sample.beach = 1 ∧
  ∃ db',
    dispatch (PhotoViewSet.destroy (H := Sample.framework)
                (Sample.request (Some 1) [] []) (photo_id Sample.beach)) Sample.db =
      (mkResponse HTTP_204_NO_CONTENT JNull, db') ∧
    albums db' = albums Sample.db.
Proof.
  split; [reflexivity|]. split; [exact sample_db_consistent|].
  split; [left|]. split; [reflexivity|].
  destruct (@photo_destroy_removes_one Sample.framework Sample.db
              (Sample.request (Some 1) [] []) 1 Sample.beach
              eq_refl sample_db_consistent ltac:(left) eq_refl)
    as (db' & Hrun & _ & _ & _ & Halbums & _).
  by exists db'.
Defined.

(** ** Albums *)

(** X12.  The owner deletes an album: the answer is 204, the album row is
    gone and with it every photo of the album, whoever owns the photo,
    while every other album and every photo of another album stays;
    retrieving the album afterwards answers 404. *)
Theorem album_destroy_takes_photos (db : DB) (req : Request) (u : Z) (a : Album) :
  req_user req = Some u →
  db_consistent db →
  a ∈ albums db → album_owner a = u →
  ∃ db',
    dispatch (AlbumViewSet.destroy req (album_id a)) db =
      (mkResponse HTTP_204_NO_CONTENT JNull, db') ∧
    (∀ x, x ∈ albums db' ↔ x ∈ albums db ∧ x ≠ a) ∧
    (∀ q, q ∈ photos db' ↔ q ∈ photos db ∧ album q ≠ album_id a) ∧
    users db' = users db ∧ tags db' = tags db ∧
    dispatch (AlbumViewSet.retrieve req (album_id a)) db' =
      (mkResponse HTTP_404_NOT_FOUND (JObj [("detail", JStr "Not found.")]), db').
Proof.
  intros Hu (_ & _ & Halb & _ & _ & Hpho & _) Ha Hown.
  pose proof (authenticated_permitted req u Hu) as Hperm.
  exists (Album_delete a db).
  assert (Hleft : ∀ x, x ∈ albums (Album_delete a db) ↔ x ∈ albums db ∧ x ≠ a).
  { intros x. unfold Album_delete. rewrite Album_delete_in_albums.
    rewrite list_elem_of_singleton. split.
    - intros [Hx Hne]. split; [done|]. by intros ->.
    - intros [Hx Hne]. split; [done|]. intros Heq. apply Hne.
      by apply (NoDup_fmap_eq album_id (albums db)). }
  split; [|split; [done|split; [|split; [done|split; [done|]]]]].
  - unfold AlbumViewSet.destroy.
    rewrite (destroy_action_run AlbumViewSet.viewset req _ db a); [done|done|].
    cbn [vs_pk vs_get_queryset AlbumViewSet.viewset].
    unfold AlbumViewSet.get_queryset. rewrite Hu.
    by apply get_by_pk_filter_unique.
  - intros q. unfold Album_delete. split.
    + intros Hq. apply Album_delete_in_photos in Hq as [Hq Hne].
      split; [done|]. by rewrite list_elem_of_singleton in Hne.
    + intros [Hq Hne]. apply Album_delete_in_photos_kept; [done..|].
      by rewrite list_elem_of_singleton.
  - unfold AlbumViewSet.retrieve. rewrite retrieve_action_run by exact Hperm.
    cbn [vs_pk vs_get_queryset AlbumViewSet.viewset].
    unfold AlbumViewSet.get_queryset. rewrite Hu.
    assert (Hget : get_by_pk album_id (album_id a)
                     (Album_objects_filter_owner u (Album_delete a db)) = None).
    { apply get_by_pk_None. intros x Hx Hpk.
      apply list_elem_of_filter in Hx as [_ Hx]. apply Hleft in Hx as [Hx Hne].
      apply Hne. by apply (NoDup_fmap_eq album_id (albums db)). }
    by rewrite Hget.
Qed.

Lemma album_destroy_takes_photos_witness :
  req_user (Sample.request (Some 1) [] []) = Some 1 ∧
  db_consistent Sample.db ∧
  Sample.holidays ∈ albums Sample.db ∧ album_owner Sample.holidays = 1 ∧
  ∃ db',
    dispatch (AlbumViewSet.destroy (Sample.request (Some 1) [] [])
                (album_id Sample.holidays)) Sample.db =
      (mkResponse HTTP_204_NO_CONTENT JNull, db') ∧
    users db' = users Sample.db.
Proof.
  split; [reflexivity|]. split; [exact sample_db_consistent|].
  split; [left|]. split; [reflexivity|].
  destruct (album_destroy_takes_photos Sample.db (Sample.request (Some 1) [] []) 1
              Sample.holidays eq_refl sample_db_consistent ltac:(left) eq_refl)
    as (db' & Hrun & _ & _ & Husers & _).
  by exists db'.
Defined.

(** X13.  A valid album update answers 200 and saves the row with key,
    owner and creation time as before and the time of the request as
    update time; an [owner] entry in the body has no effect.  Every other
    album row and every other table is left as it was. *)
Theorem album_update_keeps_owner (db : DB) (req : Request) (u : Z)
    (partial : bool) (a : Album) (vd : AlbumData) :
  req_user req = Some u →
  db_consistent db →
  a ∈ albums db → album_owner a = u →
  AlbumSerializer.run_validation partial (Some a) db (req_data req) = inr vd →
  ∃ a' db',
    dispatch (update_action AlbumViewSet.viewset partial req (album_id a)) db =
      (mkResponse HTTP_200_OK (AlbumSerializer.to_representation db' a'), db') ∧
    album_id a' = album_id a ∧ album_owner a' = album_owner a ∧
    created_at a' = created_at a ∧ updated_at a' = req_now req ∧
    get_by_pk album_id (album_id a) (albums db') = Some a' ∧
    (∀ i x, albums db !! i = Some x → album_id x ≠ album_id a →
       albums db' !! i = Some x) ∧
    users db' = users db ∧ photos db' = photos db ∧ tags db' = tags db ∧
    photo_tags db' = photo_tags db ∧
    ∀ v, dispatch (update_action AlbumViewSet.viewset partial
                     (with_data (<["owner" := v]> (req_data req)) req) (album_id a)) db =
         (mkResponse HTTP_200_OK (AlbumSerializer.to_representation db' a'), db').
Proof.
  intros Hu (_ & _ & Halb & _) Ha Hown Hvalid.
  pose proof (authenticated_permitted req u Hu) as Hperm.
  assert (Hget : get_by_pk album_id (album_id a)
                   (AlbumViewSet.get_queryset req db) = Some a).
  { unfold AlbumViewSet.get_queryset. rewrite Hu.
    by apply get_by_pk_filter_unique. }
  assert (Hno_owner : ad_owner vd = None).
  { unfold AlbumSerializer.run_validation in Hvalid.
    destruct (concat _) in Hvalid; [|done]. by simplify_eq/=. }
  assert (Hrun : ∀ req', req_user req' = Some u → req_now req' = req_now req →
            AlbumSerializer.run_validation partial (Some a) db (req_data req') = inr vd →
            dispatch (update_action AlbumViewSet.viewset partial req' (album_id a)) db =
              (mkResponse HTTP_200_OK
                 (AlbumSerializer.to_representation
                    (set_albums (save_row album_id
                       (mkAlbum (album_id a)
                          (default (album_title a) (ad_title vd))
                          (default (album_description a) (ad_description vd))
                          (created_at a) (req_now req) (album_owner a)) (albums db)) db)
                    (mkAlbum (album_id a)
                       (default (album_title a) (ad_title vd))
                       (default (album_description a) (ad_description vd))
                       (created_at a) (req_now req) (album_owner a))),
               set_albums (save_row album_id
                 (mkAlbum (album_id a)
                    (default (album_title a) (ad_title vd))
                    (default (album_description a) (ad_description vd))
                    (created_at a) (req_now req) (album_owner a)) (albums db)) db)).
  { intros req' Hu' Hnow Hvalid'.
    rewrite (update_action_run AlbumViewSet.viewset partial req' _ db a vd);
      [|destruct partial; by apply (authenticated_permitted req' u)| |done].
    - cbn [vs_serializer_update vs_to_representation AlbumViewSet.viewset].
      unfold AlbumSerializer.update, bind, modify, ret.
      by rewrite Hno_owner, Hnow.
    - cbn [vs_pk vs_get_queryset AlbumViewSet.viewset].
      unfold AlbumViewSet.get_queryset. rewrite Hu'.
      by apply get_by_pk_filter_unique. }
  eexists _, _. split; [by apply Hrun|].
  cbn [album_id album_owner created_at updated_at albums users photos tags
       photo_tags set_albums].
  do 4 (split; [done|]). split; [|split; [|do 4 (split; [done|])]].
  - apply (save_row_get album_id (mkAlbum (album_id a) _ _ _ _ _)); [done|].
    cbn [album_id]. by apply list_elem_of_fmap_2.
  - intros i x Hx Hne. by apply save_row_others.
  - intros v. apply Hrun; [done|done|].
    unfold with_data. cbn [req_data]. by rewrite album_validation_ignores_owner.
Qed.

Lemma album_update_keeps_owner_witness :
  req_user (Sample.request (Some 1) [("title", JStr "Summer"); ("owner", JInt 2)] []) =
    Some 1 ∧
  db_consistent Sample.db ∧
  Sample.holidays ∈ albums Sample.db ∧ album_owner Sample.holidays = 1 ∧
  ∃ a' db',
    dispatch (update_action AlbumViewSet.viewset true
                (Sample.request (Some 1) [("title", JStr "Summer"); ("owner", JInt 2)] [])
                (album_id Sample.holidays)) Sample.db =
      (mkResponse HTTP_200_OK (AlbumSerializer.to_representation db' a'), db') ∧
    album_owner a' = 1 ∧ updated_at a' = 200.
Proof.
  split; [reflexivity|]. split; [exact sample_db_consistent|].
  split; [left|]. split; [reflexivity|].
  destruct (album_update_keeps_owner Sample.db
              (Sample.request (Some 1) [("title", JStr "Summer"); ("owner", JInt 2)] [])
              1 true Sample.holidays (mkAlbumData (Some "Summer") None None)
              eq_refl sample_db_consistent ltac:(left) eq_refl
              ltac:(vm_compute; reflexivity))
    as (a' & db' & Hrun & _ & Hown & _ & Hnow & _).
  by exists a', db'.
Defined.

Lemma NoDup_fresh_pk (pks : list Z) :
  NoDup pks → NoDup (pks ++ [fresh_pk pks])%list.
Proof.
  intros Hnd. apply NoDup_app. split; [done|]. split; [|apply NoDup_singleton].
  intros x Hx Heq%list_elem_of_singleton. subst x. by apply fresh_pk_fresh in Hx.
Qed.

(** X14.  What was created can be read back.  After a valid album
    creation the creator retrieves the new key and gets 200 with the body
    the creation answered, any other caller gets 404, and the new album
    holds no photo; after a valid upload the uploader retrieves the new
    photo with the body the upload answered. *)
Theorem created_record_is_retrievable `{Framework} (db : DB) (req : Request) (u : Z) :
  req_user req = Some u →
  db_consistent db →
  db_references db →
  (∀ vd, AlbumSerializer.run_validation false None db (req_data req) = inr vd →
     ∃ a db' body,
       dispatch (AlbumViewSet.create req) db = (mkResponse HTTP_201_CREATED body, db') ∧
       album_photos_all db' (album_id a) = [] ∧
       ∀ req2 u2, req_user req2 = Some u2 →
         dispatch (AlbumViewSet.retrieve req2 (album_id a)) db' =
           (if decide (u2 = u) then mkResponse HTTP_200_OK body
            else mkResponse HTTP_404_NOT_FOUND (JObj [("detail", JStr "Not found.")]),
            db')) ∧
  (∀ vd, PhotoSerializer.run_validation false None db (req_data req) = inr vd →
     ∃ p db' body,
       dispatch (PhotoViewSet.create req) db = (mkResponse HTTP_201_CREATED body, db') ∧
       ∀ req2 u2, req_user req2 = Some u2 →
         dispatch (PhotoViewSet.retrieve req2 (photo_id p)) db' =
           (if decide (u2 = u) then mkResponse HTTP_200_OK body
            else mkResponse HTTP_404_NOT_FOUND (JObj [("detail", JStr "Not found.")]),
            db')).
Proof.
  intros Hu (_ & _ & Halb & _ & _ & Hpho & _) [_ Hrefs].
  pose proof (authenticated_permitted req u Hu) as Hperm.
  split.
  - intros vd Hvalid. unfold AlbumViewSet.create.
    rewrite (create_action_run AlbumViewSet.viewset req db vd Hperm Hvalid).
    cbn [vs_serializer_create vs_perform_create vs_to_representation
         AlbumViewSet.viewset].
    unfold AlbumSerializer.create. cbn [AlbumViewSet.perform_create ad_owner].
    rewrite Hu. cbn [ad_title ad_description].
    set (a := mkAlbum _ _ _ _ _ _). set (db' := set_albums _ db).
    exists a, db', (AlbumSerializer.to_representation db' a).
    split; [done|]. split.
    + apply elem_of_nil_inv. intros p Hp.
      apply list_elem_of_filter in Hp as [Halbum Hp].
      rewrite Forall_forall in Hrefs. apply Hrefs in Hp as [Hp _].
      rewrite Halbum in Hp. by apply fresh_pk_fresh in Hp.
    + intros req2 u2 Hu2. unfold AlbumViewSet.retrieve.
      rewrite retrieve_action_run by by apply (authenticated_permitted req2 u2).
      cbn [vs_pk vs_get_queryset vs_to_representation AlbumViewSet.viewset].
      unfold AlbumViewSet.get_queryset, Album_objects_filter_owner. rewrite Hu2.
      assert (Hnd : NoDup (album_id <$> albums db')).
      { subst db'. cbn [albums set_albums]. rewrite fmap_app.
        by apply NoDup_fresh_pk. }
      assert (Ha : a ∈ albums db').
      { subst db'. cbn [albums set_albums]. apply elem_of_app. right. left. }
      destruct (decide (u2 = u)) as [->|Hne].
      * by rewrite (get_by_pk_filter_unique album_id _ (albums db') a).
      * by rewrite (get_by_pk_filter_foreign album_id _ (albums db') a).
  - intros vd Hvalid.
    destruct (photo_validation_album _ _ _ _ Hvalid) as [k Hk].
    unfold PhotoViewSet.create.
    rewrite (create_action_run PhotoViewSet.viewset req db vd Hperm Hvalid).
    cbn [vs_serializer_create vs_perform_create vs_to_representation
         PhotoViewSet.viewset].
    rewrite (PhotoSerializer_create_run _ _ _ k u)
    by first [apply unbounded_takes | simpl; done].
    set (p := mkPhoto _ _ _ _ _ _ _).
    set (db' := if decide _ then _ else _).
    exists p, db', (PhotoSerializer.to_representation db' p).
    split; [done|].
    assert (Hphotos : photos db' = (photos db ++ [p])%list)
      by (subst db'; by destruct (decide _)).
    intros req2 u2 Hu2. unfold PhotoViewSet.retrieve.
    rewrite retrieve_action_run by by apply (authenticated_permitted req2 u2).
    cbn [vs_pk vs_get_queryset vs_to_representation PhotoViewSet.viewset].
    unfold PhotoViewSet.get_queryset, Photo_objects_filter_owner. rewrite Hu2.
    assert (Hnd : NoDup (photo_id <$> photos db')).
    { rewrite Hphotos, fmap_app. by apply NoDup_fresh_pk. }
    assert (Hp : p ∈ photos db').
    { rewrite Hphotos. apply elem_of_app. right. left. }
    destruct (decide (u2 = u)) as [->|Hne].
    + by rewrite (get_by_pk_filter_unique photo_id _ (photos db') p).
    + by rewrite (get_by_pk_filter_foreign photo_id _ (photos db') p).
Qed.

Lemma sample_db_references : db_references Sample.db.
Proof. apply (bool_decide_unpack _). vm_compute. exact I. Defined.

Lemma created_record_is_retrievable_witness :
  req_user (Sample.request (Some 2) [("title", JStr "Orchard")] []) = Some 2 ∧
  db_consistent Sample.db ∧ db_references Sample.db ∧
  ∃ a db' body,
    dispatch (AlbumViewSet.create (Sample.request (Some 2) [("title", JStr "Orchard")] []))
      Sample.db = (mkResponse HTTP_201_CREATED body, db') ∧
    dispatch (AlbumViewSet.retrieve (Sample.request (Some 2) [] []) (album_id a)) db' =
      (mkResponse HTTP_200_OK body, db').
Proof.
  split; [reflexivity|]. split; [exact sample_db_consistent|].
  split; [exact sample_db_references|].
  destruct (proj1 (@created_record_is_retrievable Sample.framework Sample.db
                     (Sample.request (Some 2) [("title", JStr "Orchard")] []) 2
                     eq_refl sample_db_consistent sample_db_references)
              (mkAlbumData (Some "Orchard") None None) ltac:(vm_compute; reflexivity))
    as (a & db' & body & Hcreate & _ & Hread).
  exists a, db', body. split; [exact Hcreate|].
  exact (Hread (Sample.request (Some 2) [] []) 2 eq_refl).
Defined.

(** ** Search *)

Lemma filter_tags_name_in_ext names1 names2 db :
  (∀ n, n ∈ names1 ↔ n ∈ names2) →
  Photo_objects_filter_tags_name_in names1 db =
  Photo_objects_filter_tags_name_in names2 db.
Proof.
  intros Hsame. unfold Photo_objects_filter_tags_name_in.
  apply list_bind_ext; [|done]. intros p.
  apply list_bind_ext; [|done]. intros r.
  apply list_bind_ext; [|done]. intros t.
  apply decide_ext. by rewrite Hsame.
Qed.

(** X15.  The tag search depends on the set of submitted names and on
    nothing else of the request: two authenticated requests, of the same
    or of different callers, whose [tags] parameters name the same tags in
    any order and with any repetition get the same response. *)
Theorem search_depends_on_tag_set `{Framework} (db : DB) (req1 req2 : Request)
    (u1 u2 : Z) :
  req_user req1 = Some u1 → req_user req2 = Some u2 →
  (∀ n, n ∈ getlist "tags" (req_query req1) ↔ n ∈ getlist "tags" (req_query req2)) →
  dispatch (PhotoViewSet.search_by_tags req1) db =
  dispatch (PhotoViewSet.search_by_tags req2) db.
Proof.
  intros Hu1 Hu2 Hsame.
  rewrite (search_by_tags_run req1 db u1 Hu1), (search_by_tags_run req2 db u2 Hu2).
  unfold PhotoViewSet.search_by_tags_queryset.
  by rewrite (filter_tags_name_in_ext _ _ db Hsame).
Qed.

Lemma search_depends_on_tag_set_witness :
  req_user (Sample.request (Some 1) [] [("tags", "family"); ("tags", "vacation")]) = Some 1 ∧
  req_user (Sample.request (Some 2) []
              [("tags", "vacation"); ("page", "1"); ("tags", "family");
               ("tags", "vacation")]) = Some 2 ∧
  dispatch (PhotoViewSet.search_by_tags (H := Sample.framework)
              (Sample.request (Some 1) [] [("tags", "family"); ("tags", "vacation")]))
    Sample.db =
  dispatch (PhotoViewSet.search_by_tags (H := Sample.framework)
              (Sample.request (Some 2) []
                 [("tags", "vacation"); ("page", "1"); ("tags", "family");
                  ("tags", "vacation")]))
    Sample.db.
Proof.
  split; [reflexivity|]. split; [reflexivity|].
  apply (@search_depends_on_tag_set Sample.framework Sample.db
           (Sample.request (Some 1) [] [("tags", "family"); ("tags", "vacation")])
           (Sample.request (Some 2) []
              [("tags", "vacation"); ("page", "1"); ("tags", "family");
               ("tags", "vacation")]) 1 2 eq_refl eq_refl).
  intros n. vm_compute getlist.
  rewrite !elem_of_cons. pose proof (not_elem_of_nil n). tauto.
Defined.

(** * The store stays consistent *)

(** ** Tables *)

Lemma NoDup_fmap_filter {A B} (f : A → B) (P : A → Prop) `{∀ x, Decision (P x)}
    (l : list A) :
  NoDup (f <$> l) → NoDup (f <$> filter P l).
Proof.
  intros Hnd. eapply sublist_NoDup; [exact Hnd|].
  apply fmap_sublist, sublist_filter.
Qed.

Lemma filter_all_in {A} (P : A → Prop) `{∀ x, Decision (P x)} (l : list A) :
  (∀ x, x ∈ l → P x) → filter P l = l.
Proof.
  induction l as [|x l IH]; [done|]. intros HP.
  rewrite filter_cons_True by (apply HP; left).
  rewrite IH; [done|]. intros y Hy. apply HP. by right.
Qed.

Lemma save_row_absent {Row} (pk_of : Row → Z) r (table : list Row) :
  pk_of r ∉ pk_of <$> table → save_row pk_of r table = table.
Proof.
  intros Hno. unfold save_row. rewrite <- (list_fmap_id table) at 2.
  apply list_fmap_ext. intros i x Hx. simpl.
  case_decide as Hpk; [|done]. destruct Hno. rewrite <- Hpk.
  apply list_elem_of_fmap_2. by eapply list_elem_of_lookup_2.
Qed.

(** Saving a row keeps a unique column unique when no other row has the
    new value. *)
Lemma save_row_NoDup {Row B} (pk_of : Row → Z) (f : Row → B) r (table : list Row) :
  NoDup (pk_of <$> table) → NoDup (f <$> table) →
  f r ∉ f <$> filter (λ x, pk_of x ≠ pk_of r) table →
  NoDup (f <$> save_row pk_of r table).
Proof.
  induction table as [|x l IH]; [constructor|].
  rewrite !fmap_cons, !NoDup_cons. intros [Hpk Hpks] [Hfx Hfs] Hfree.
  unfold save_row. rewrite fmap_cons. fold (save_row pk_of r l).
  destruct (decide (pk_of x = pk_of r)) as [Heq|Hne].
  - rewrite filter_cons_False in Hfree by (by intros ?).
    rewrite Heq in Hpk. rewrite (save_row_absent pk_of r l Hpk).
    rewrite filter_all_in in Hfree; [by constructor|].
    intros y Hy Hyr. apply Hpk. rewrite <- Hyr. by apply list_elem_of_fmap_2.
  - rewrite filter_cons_True in Hfree by done.
    rewrite fmap_cons, not_elem_of_cons in Hfree. destruct Hfree as [Hrx Hfree].
    rewrite fmap_cons. constructor; [|by apply IH].
    intros (y & Hfy & Hy)%list_elem_of_fmap.
    apply save_row_elem_of in Hy as [[Hy _]|[-> _]].
    + apply Hfx. rewrite Hfy. by apply list_elem_of_fmap_2.
    + by apply Hrx.
Qed.

(** ** What the mapper does to the tables *)

Lemma photo_tags_set_consistent pk new db :
  db_consistent db → pk ∈ photo_id <$> photos db → (∀ t, t ∈ new → t ∈ tags db) →
  db_consistent (photo_tags_set pk new db).
Proof.
  intros (Hu & Hun & Ha & Ht & Htn & Hp & Hr & Hf) Hpk Hnew.
  unfold db_consistent, photo_tags_set.
  cbn [users albums tags photos photo_tags set_photo_tags].
  do 6 (split; [done|]). split.
  - apply NoDup_app. split; [by apply NoDup_filter|]. split.
    + intros r Hin (t & -> & Hadd)%list_elem_of_fmap.
      by apply list_elem_of_filter in Hadd as [Hnot _].
    + apply (NoDup_fmap_2_strong (λ t, (pk, t))).
      * by intros x y _ _ [= ->].
      * apply NoDup_filter, NoDup_remove_dups.
  - rewrite Forall_forall in Hf. apply Forall_forall. intros r Hin.
    apply elem_of_app in Hin as [Hin|(t & -> & Hadd)%list_elem_of_fmap].
    + apply list_elem_of_filter in Hin as [_ Hin]. by apply Hf.
    + apply list_elem_of_filter in Hadd as [_ Hadd].
      apply elem_of_remove_dups, list_elem_of_fmap in Hadd as (x & -> & Hx).
      split; [done|]. simpl. apply list_elem_of_fmap_2. by apply Hnew.
Qed.

Lemma Photo_delete_in_consistent pks db :
  db_consistent db → db_consistent (Photo_delete_in pks db).
Proof.
  intros (Hu & Hun & Ha & Ht & Htn & Hp & Hr & Hf).
  unfold db_consistent, Photo_delete_in.
  cbn [users albums tags photos photo_tags set_photos set_photo_tags].
  do 5 (split; [done|]). split; [by apply NoDup_fmap_filter|].
  split; [by apply NoDup_filter|].
  rewrite Forall_forall in Hf. apply Forall_forall. intros r Hin.
  apply list_elem_of_filter in Hin as [Hkeep Hin].
  destruct (Hf r Hin) as [(p & Hpk & Hphoto)%list_elem_of_fmap Htag].
  split; [|done]. rewrite Hpk. apply list_elem_of_fmap_2.
  apply list_elem_of_filter. split; [|done]. by rewrite <- Hpk.
Qed.

Lemma Album_delete_in_consistent pks db :
  db_consistent db → db_consistent (Album_delete_in pks db).
Proof.
  intros Hcons. unfold Album_delete_in.
  pose proof (Photo_delete_in_consistent
                (photo_id <$> filter (λ p, album p ∈ pks) (photos db)) db Hcons)
    as (Hu & Hun & Ha & Ht & Htn & Hp & Hr & Hf).
  unfold db_consistent in *.
  cbn [users albums tags photos photo_tags set_albums] in *.
  do 2 (split; [done|]). split; [by apply NoDup_fmap_filter|]. done.
Qed.

Lemma User_delete_consistent u db :
  db_consistent db → db_consistent (User_delete u db).
Proof.
  intros Hcons. unfold User_delete.
  pose proof (Album_delete_in_consistent
                (album_id <$> filter (λ a, album_owner a = user_id u) (albums db)) _
                (Photo_delete_in_consistent
                   (photo_id <$> filter (λ p, owner p = user_id u) (photos db)) db Hcons))
    as (Hu & Hun & Ha & Ht & Htn & Hp & Hr & Hf).
  unfold db_consistent in *.
  cbn [users albums tags photos photo_tags set_users] in *.
  split; [by apply NoDup_fmap_filter|]. split; [by apply NoDup_fmap_filter|]. done.
Qed.

Lemma Tag_delete_consistent t db :
  db_consistent db → db_consistent (Tag_delete t db).
Proof.
  intros (Hu & Hun & Ha & Ht & Htn & Hp & Hr & Hf).
  unfold db_consistent, Tag_delete.
  cbn [users albums tags photos photo_tags set_tags set_photo_tags].
  do 3 (split; [done|]). split; [by apply NoDup_fmap_filter|].
  split; [by apply NoDup_fmap_filter|]. split; [done|].
  split; [by apply NoDup_filter|].
  rewrite Forall_forall in Hf. apply Forall_forall. intros r Hin.
  apply list_elem_of_filter in Hin as [Hkeep Hin].
  destruct (Hf r Hin) as [Hphoto (x & Hpk & Hx)%list_elem_of_fmap].
  split; [done|]. rewrite Hpk. apply list_elem_of_fmap_2.
  apply list_elem_of_filter. split; [|done]. by rewrite <- Hpk.
Qed.

Lemma insert_photo_consistent db p :
  db_consistent db → photo_id p = fresh_pk (photo_id <$> photos db) →
  db_consistent (set_photos (photos db ++ [p])%list db).
Proof.
  intros (Hu & Hun & Ha & Ht & Htn & Hp & Hr & Hf) Hpk.
  unfold db_consistent. cbn [users albums tags photos photo_tags set_photos].
  do 5 (split; [done|]). rewrite fmap_app. cbn [fmap list_fmap]. rewrite Hpk.
  split; [by apply NoDup_fresh_pk|]. split; [done|].
  eapply Forall_impl; [exact Hf|]. intros r [Hphoto Htag].
  split; [|done]. apply elem_of_app. by left.
Qed.

Lemma save_photo_consistent db p :
  db_consistent db → db_consistent (set_photos (save_row photo_id p (photos db)) db).
Proof.
  intros (Hu & Hun & Ha & Ht & Htn & Hp & Hr & Hf).
  unfold db_consistent. cbn [users albums tags photos photo_tags set_photos].
  by rewrite save_row_pks.
Qed.

(** ** What the actions do to a property of the store *)

Section actions_keep.
Context {Row VD : Type} (vs : ModelViewSet Row VD) (I : DB → Prop).

Lemma create_action_keeps req db :
  I db →
  (∀ vd, vs_run_validation vs false None db (req_data req) = inr vd →
     I (vs_serializer_create vs (req_now req) (vs_perform_create vs req vd) db).2) →
  I (dispatch (create_action vs req) db).2.
Proof.
  intros HI Hcreate.
  unfold dispatch, create_action, check_permissions, is_valid, serializer_data,
    bind, query, ret, raise.
  destruct (forallb _ _); [|done].
  destruct (vs_run_validation vs false None db (req_data req)) as [errors|vd] eqn:Hvalid;
    [done|].
  specialize (Hcreate vd eq_refl).
  by destruct (vs_serializer_create _ _ _ _) as [[e|obj] db'].
Qed.

Lemma update_action_keeps partial req pk db :
  I db →
  (∀ instance vd,
     instance ∈ vs_get_queryset vs req db → vs_pk vs instance = pk →
     vs_run_validation vs partial (Some instance) db (req_data req) = inr vd →
     I (vs_serializer_update vs (req_now req) instance vd db).2) →
  I (dispatch (update_action vs partial req pk) db).2.
Proof.
  intros HI Hupdate.
  unfold dispatch, update_action, check_permissions, get_object, is_valid,
    serializer_data, bind, query, ret, raise.
  destruct (forallb _ _); [|done].
  destruct (get_by_pk _ _ _) as [instance|] eqn:Hget; [|done].
  apply get_by_pk_Some in Hget as [Hin Hpk].
  destruct (vs_run_validation vs partial (Some instance) db (req_data req))
    as [errors|vd] eqn:Hvalid; [done|].
  specialize (Hupdate instance vd Hin Hpk Hvalid).
  by destruct (vs_serializer_update _ _ _ _ _) as [[e|obj] db'].
Qed.

Lemma destroy_action_keeps req pk db :
  I db →
  (∀ instance, instance ∈ vs_get_queryset vs req db → I (vs_delete vs instance db)) →
  I (dispatch (destroy_action vs req pk) db).2.
Proof.
  intros HI Hdelete.
  unfold dispatch, destroy_action, check_permissions, get_object, bind, query,
    modify, ret, raise.
  destruct (forallb _ _); [|done].
  destruct (get_by_pk _ _ _) as [instance|] eqn:Hget; [|done].
  apply get_by_pk_Some in Hget as [Hin _]. by apply Hdelete.
Qed.

End actions_keep.

(** ** Every write keeps the store consistent *)

(** X16.  Registration and the creation of an album, a photo or a tag
    keep the store consistent, whatever the request: primary keys, user
    names and tag names stay unique, and the through table holds each pair
    once and only for photos and tags that exist. *)
Theorem creates_keep_consistency `{Framework} (db : DB) (req : Request) :
  db_consistent db →
  db_consistent (dispatch (UserViewSet.create req) db).2 ∧
  db_consistent (dispatch (AlbumViewSet.create req) db).2 ∧
  db_consistent (dispatch (PhotoViewSet.create req) db).2 ∧
  db_consistent (dispatch (TagViewSet.create req) db).2.
Proof.
  intros Hcons. split; [|split; [|split]].
  - rewrite UserViewSet_create_run.
    destruct (UserSerializer.run_validation false None db (req_data req))
      as [errors|vd] eqn:Hvalid; [done|].
    destruct (user_validation_username _ _ _ _ Hvalid) as [s Hs].
    pose proof (user_validation_free _ _ _ _ _ s Hvalid Hs) as Hfree.
    rewrite filter_all in Hfree by done.
    destruct Hcons as (Hu & Hun & Hrest).
    unfold db_consistent. cbn [snd users albums tags photos photo_tags set_users].
    rewrite !fmap_app. cbn [fmap list_fmap user_id username]. rewrite Hs.
    split; [by apply NoDup_fresh_pk|]. split; [|done].
    apply NoDup_app. split; [done|]. split; [|apply NoDup_singleton].
    by intros x Hx ->%list_elem_of_singleton.
  - unfold AlbumViewSet.create. apply create_action_keeps; [done|].
    intros vd _. cbn [vs_serializer_create vs_perform_create AlbumViewSet.viewset].
    unfold AlbumSerializer.create.
    destruct (ad_owner _); [|done].
    destruct Hcons as (Hu & Hun & Ha & Hrest).
    unfold db_consistent. cbn [snd users albums tags photos photo_tags set_albums].
    rewrite fmap_app. cbn [fmap list_fmap album_id].
    do 2 (split; [done|]). split; [by apply NoDup_fresh_pk|done].
  - unfold PhotoViewSet.create. apply create_action_keeps; [done|].
    intros vd _. cbn [vs_serializer_create vs_perform_create PhotoViewSet.viewset].
    destruct (pd_album (PhotoViewSet.perform_create req vd)) as [a|] eqn:Ha;
      [destruct (pd_owner (PhotoViewSet.perform_create req vd)) as [o|] eqn:Ho|].
    + rewrite (PhotoSerializer_create_run _ _ _ a o Ha Ho (unbounded_takes _)).
      cbn zeta. cbn [snd].
      set (p := mkPhoto _ _ _ _ _ _ _).
      assert (Hdb1 : db_consistent (set_photos (photos db ++ [p])%list db))
        by by apply insert_photo_consistent.
      destruct (decide _); [|done].
      apply photo_tags_set_consistent; [done| |].
      * cbn [photos set_photos]. apply list_elem_of_fmap_2.
        apply elem_of_app. right. left.
      * intros t Ht. by apply list_elem_of_filter in Ht as [_ Ht].
    + unfold PhotoSerializer.create, PhotoSerializer.Photo_objects_create, bind.
      cbn [PhotoSerializer.pop_tag_ids pd_album pd_owner]. by rewrite Ha, Ho.
    + unfold PhotoSerializer.create, PhotoSerializer.Photo_objects_create, bind.
      cbn [PhotoSerializer.pop_tag_ids pd_album pd_owner]. by rewrite Ha.
  - unfold TagViewSet.create. apply create_action_keeps; [done|].
    intros vd Hvalid. cbn [vs_serializer_create vs_perform_create vs_run_validation
                           TagViewSet.viewset] in *.
    destruct (tag_validation_name _ _ _ _ Hvalid) as (s & Hs & Hfree).
    rewrite filter_all in Hfree by done.
    destruct Hcons as (Hu & Hun & Ha & Ht & Htn & Hp & Hr & Hf).
    unfold db_consistent, TagSerializer.create.
    cbn [snd users albums tags photos photo_tags set_tags].
    rewrite !fmap_app. cbn [fmap list_fmap tag_id name]. rewrite Hs.
    do 3 (split; [done|]). split; [by apply NoDup_fresh_pk|]. split.
    + apply NoDup_app. split; [done|]. split; [|apply NoDup_singleton].
      by intros x Hx ->%list_elem_of_singleton.
    + do 2 (split; [done|]). eapply Forall_impl; [exact Hf|].
      intros r [Hphoto Htag]. split; [done|]. apply elem_of_app. by left.
Qed.

Lemma creates_keep_consistency_witness :
  db_consistent Sample.db ∧
  db_consistent
    (dispatch (PhotoViewSet.create (H := Sample.framework)
                 (Sample.request (Some 1) Sample.sunset_body [])) Sample.db).2.
Proof.
  split; [exact sample_db_consistent|].
  apply (@creates_keep_consistency Sample.framework Sample.db
           (Sample.request (Some 1) Sample.sunset_body []) sample_db_consistent).
Defined.

(** X23.  On every backend a valid upload of an authenticated caller
    stores exactly one new photo, under a fresh key and owned by the
    caller, and leaves the store consistent.  It is answered 201 when the
    backend takes every integer of [tag_ids]; when it refuses one the
    answer is 500, and the photo stays stored with the through table
    untouched. *)
Theorem photo_create_on_every_backend `{Framework} `{Backend} (db : DB)
    (req : Request) (u : Z) (vd : PhotoData) :
  req_user req = Some u →
  db_consistent db →
  PhotoSerializer.run_validation false None db (req_data req) = inr vd →
  ∃ response p db',
    dispatch (PhotoViewSet.create req) db = (response, db') ∧
    photos db' = (photos db ++ [p])%list ∧
    owner p = u ∧ (photo_id p ∉ photo_id <$> photos db) ∧
    db_consistent db' ∧
    (forallb database_integer (default [] (pd_tag_ids vd)) = true →
       response =
         mkResponse HTTP_201_CREATED (PhotoSerializer.to_representation db' p)) ∧
    (forallb database_integer (default [] (pd_tag_ids vd)) = false →
       response = mkResponse HTTP_500_INTERNAL_SERVER_ERROR JNull ∧
       photo_tags db' = photo_tags db).
Proof.
  intros Hu Hcons Hvalid.
  pose proof (authenticated_permitted req u Hu) as Hperm.
  destruct (photo_validation_album _ _ _ _ Hvalid) as [a Ha].
  unfold PhotoViewSet.create.
  rewrite (create_action_run PhotoViewSet.viewset req db vd Hperm Hvalid).
  cbn [vs_serializer_create vs_perform_create vs_to_representation
       PhotoViewSet.viewset].
  assert (Hdb1 : ∀ p, photo_id p = fresh_pk (photo_id <$> photos db) →
            db_consistent (set_photos (photos db ++ [p])%list db)).
  { intros [pk ? ? ? ? ? ?] Hpk. simpl in Hpk. subst pk.
    by apply insert_photo_consistent. }
  destruct (forallb database_integer (default [] (pd_tag_ids vd))) eqn:Hids.
  - rewrite (PhotoSerializer_create_run _ _ _ a u);
      [|done|by cbn [PhotoViewSet.perform_create pd_owner]; rewrite Hu|done].
    cbn [PhotoViewSet.perform_create pd_tag_ids pd_title pd_description pd_image].
    eexists _, _, _. split; [reflexivity|].
    split; [by destruct (decide _)|]. split; [done|].
    split; [apply fresh_pk_fresh|]. split; [|done].
    destruct (decide _); [|by apply Hdb1].
    apply photo_tags_set_consistent; [by apply Hdb1| |].
    + cbn [photos set_photos]. apply list_elem_of_fmap_2.
      apply elem_of_app. right. left.
    + intros t Ht. by apply list_elem_of_filter in Ht as [_ Ht].
  - rewrite (PhotoSerializer_create_overflow _ _ _ a u);
      [|done|by cbn [PhotoViewSet.perform_create pd_owner]; rewrite Hu|done].
    eexists _, _, _. split; [reflexivity|]. split; [done|]. split; [done|].
    split; [apply fresh_pk_fresh|]. split; [by apply Hdb1|done].
Qed.

Lemma photo_create_on_every_backend_witness :
  req_user (Sample.request (Some 1) Sample.overflow_body []) = Some 1 ∧
  db_consistent Sample.db ∧
  ∃ p db',
    dispatch (PhotoViewSet.create (H := Sample.framework) (backend := sqlite)
                (Sample.request (Some 1) Sample.overflow_body [])) Sample.db =
      (mkResponse HTTP_500_INTERNAL_SERVER_ERROR JNull, db') ∧
    photos db' = (photos Sample.db ++ [p])%list ∧ owner p = 1 ∧
    db_consistent db'.
Proof.
  split; [reflexivity|]. split; [exact sample_db_consistent|].
  destruct (@photo_create_on_every_backend Sample.framework sqlite Sample.db
              (Sample.request (Some 1) Sample.overflow_body []) 1
              (mkPhotoData (Some "Sunset") None (Some "photos/sunset.jpg") (Some 1)
                 (Some [1; 9223372036854775808]) None)
              eq_refl sample_db_consistent ltac:(vm_compute; reflexivity))
    as (response & p & db' & Hrun & Hphotos & Hown & _ & Hcons & _ & Hrefused).
  destruct (Hrefused eq_refl) as [-> _].
  by exists p, db'.
Defined.

(** A row keeps a unique column unique when it is saved with its old value
    or with a value no other row has. *)
Lemma save_row_keeps_unique {Row} (pk_of : Row → Z) (f : Row → string)
    (instance r : Row) (new : option string) (table : list Row) :
  NoDup (pk_of <$> table) → NoDup (f <$> table) → instance ∈ table →
  pk_of r = pk_of instance → f r = default (f instance) new →
  (∀ s, new = Some s →
     s ∉ f <$> filter (λ x, Some (pk_of x) ≠ pk_of <$> Some instance) table) →
  NoDup (f <$> save_row pk_of r table).
Proof.
  intros Hpks Hfs Hin Hpk Hf Hfree. apply save_row_NoDup; [done..|].
  rewrite Hpk, Hf.
  assert (Hfilter : filter (λ x, pk_of x ≠ pk_of instance) table =
                    filter (λ x, Some (pk_of x) ≠ pk_of <$> Some instance) table).
  { apply list_filter_iff. intros x. simpl. split; [by intros ? [= ?]|].
    intros Hne Heq. apply Hne. by rewrite Heq. }
  rewrite Hfilter. destruct new as [s|]; [by apply Hfree|]. simpl.
  intros (x & Hfx & Hx)%list_elem_of_fmap.
  apply list_elem_of_filter in Hx as [Hne Hx].
  assert (instance = x) as -> by by apply (NoDup_fmap_eq f table).
  by apply Hne.
Qed.

Lemma UserSerializer_update_consistent now instance vd db :
  db_consistent db → instance ∈ users db →
  (∀ s, ud_username vd = Some s →
     s ∉ username <$> filter (λ u, Some (user_id u) ≠ user_id <$> Some instance)
                        (users db)) →
  db_consistent (UserSerializer.update now instance vd db).2.
Proof.
  intros (Hu & Hun & Hrest) Hin Hfree.
  unfold db_consistent, UserSerializer.update, bind, modify, ret.
  cbn [snd users albums tags photos photo_tags set_users].
  rewrite save_row_pks. split; [done|]. split; [|done].
  by apply (save_row_keeps_unique user_id username instance _ (ud_username vd)).
Qed.

Lemma TagSerializer_update_consistent now instance vd db :
  db_consistent db → instance ∈ tags db →
  (∀ s, td_name vd = Some s →
     s ∉ name <$> filter (λ t, Some (tag_id t) ≠ tag_id <$> Some instance) (tags db)) →
  db_consistent (TagSerializer.update now instance vd db).2.
Proof.
  intros (Hu & Hun & Ha & Ht & Htn & Hp & Hr & Hf) Hin Hfree.
  unfold db_consistent, TagSerializer.update, bind, modify, ret.
  cbn [snd users albums tags photos photo_tags set_tags].
  rewrite save_row_pks. do 4 (split; [done|]). split; [|done].
  by apply (save_row_keeps_unique tag_id name instance _ (td_name vd)).
Qed.

Lemma update_profile_keeps `{Framework} (I : DB → Prop) req db :
  I db →
  (∀ row vd, row ∈ users db →
     UserSerializer.run_validation true (Some row) db (req_data req) = inr vd →
     I (UserSerializer.update (req_now req) row vd db).2) →
  I (dispatch (UserViewSet.update_profile req) db).2.
Proof.
  intros HI Hupdate.
  unfold dispatch, UserViewSet.update_profile, UserViewSet.request_user,
    check_permissions, serializer_data, bind, query, raise, ret.
  destruct (forallb _ _); [|done].
  destruct (req_user req ≫= _) as [row|] eqn:Hrow; [|done].
  assert (Hin : row ∈ users db).
  { destruct (req_user req) as [u|]; [|done]. simpl in Hrow.
    by apply get_by_pk_Some in Hrow as [Hin _]. }
  destruct (UserSerializer.run_validation true (Some row) db (req_data req))
    as [errors|vd] eqn:Hvalid; [done|].
  specialize (Hupdate row vd Hin Hvalid).
  unfold UserSerializer.update, bind, modify, ret in *. done.
Qed.

(** X17.  Every update keeps the store consistent, whatever the request:
    the update and partial update of a user, an album, a photo or a tag,
    and [update_profile]. *)
Theorem updates_keep_consistency `{Framework} (db : DB) (req : Request)
    (partial : bool) (pk : Z) :
  db_consistent db →
  db_consistent (dispatch (update_action UserViewSet.viewset partial req pk) db).2 ∧
  db_consistent (dispatch (UserViewSet.update_profile req) db).2 ∧
  db_consistent (dispatch (update_action AlbumViewSet.viewset partial req pk) db).2 ∧
  db_consistent (dispatch (update_action PhotoViewSet.viewset partial req pk) db).2 ∧
  db_consistent (dispatch (update_action TagViewSet.viewset partial req pk) db).2.
Proof.
  intros Hcons. split; [|split; [|split; [|split]]].
  - apply update_action_keeps; [done|]. intros instance vd Hin _ Hvalid.
    cbn [vs_serializer_update vs_run_validation vs_get_queryset UserViewSet.viewset] in *.
    apply UserSerializer_update_consistent; [done..|].
    intros s Hs. by apply (user_validation_free _ _ _ _ _ _ Hvalid).
  - apply update_profile_keeps; [done|]. intros row vd Hin Hvalid.
    apply UserSerializer_update_consistent; [done..|].
    intros s Hs. by apply (user_validation_free _ _ _ _ _ _ Hvalid).
  - apply update_action_keeps; [done|]. intros instance vd _ _ _.
    cbn [vs_serializer_update AlbumViewSet.viewset].
    destruct Hcons as (Hu & Hun & Ha & Hrest).
    unfold db_consistent, AlbumSerializer.update, bind, modify, ret.
    cbn [snd users albums tags photos photo_tags set_albums].
    by rewrite save_row_pks.
  - apply update_action_keeps; [done|]. intros instance vd Hin _ _.
    cbn [vs_serializer_update vs_get_queryset PhotoViewSet.viewset] in *.
    rewrite PhotoSerializer_update_run by apply unbounded_takes. cbn zeta. cbn [snd].
    apply save_photo_consistent.
    destruct (pd_tag_ids vd) as [ids|]; [|done].
    apply photo_tags_set_consistent; [done| |].
    + apply list_elem_of_fmap_2. unfold PhotoViewSet.get_queryset in Hin.
      destruct (req_user req); [|by apply not_elem_of_nil in Hin].
      by apply list_elem_of_filter in Hin as [_ Hin].
    + intros t Ht. by apply list_elem_of_filter in Ht as [_ Ht].
  - apply update_action_keeps; [done|]. intros instance vd Hin _ Hvalid.
    cbn [vs_serializer_update vs_run_validation vs_get_queryset TagViewSet.viewset] in *.
    apply TagSerializer_update_consistent; [done..|].
    intros s Hs. by apply (tag_validation_free _ _ _ _ _ _ Hvalid).
Qed.

Lemma updates_keep_consistency_witness :
  db_consistent Sample.db ∧
  db_consistent
    (dispatch (UserViewSet.update_profile (H := Sample.framework)
                 (Sample.request (Some 2) [("username", JStr "robert")] [])) Sample.db).2.
Proof.
  split; [exact sample_db_consistent|].
  apply (@updates_keep_consistency Sample.framework Sample.db
           (Sample.request (Some 2) [("username", JStr "robert")] []) true 2
           sample_db_consistent).
Defined.

(** X18.  Every delete keeps the store consistent, whatever the request:
    the cascade leaves no through row behind whose photo or tag is
    gone. *)
Theorem destroys_keep_consistency `{Framework} (db : DB) (req : Request) (pk : Z) :
  db_consistent db →
  db_consistent (dispatch (UserViewSet.destroy req pk) db).2 ∧
  db_consistent (dispatch (AlbumViewSet.destroy req pk) db).2 ∧
  db_consistent (dispatch (PhotoViewSet.destroy req pk) db).2 ∧
  db_consistent (dispatch (TagViewSet.destroy req pk) db).2.
Proof.
  intros Hcons.
  unfold UserViewSet.destroy, AlbumViewSet.destroy, PhotoViewSet.destroy,
    TagViewSet.destroy.
  split; [|split; [|split]].
  - apply destroy_action_keeps; [done|]. intros u _.
    by apply User_delete_consistent.
  - apply destroy_action_keeps; [done|]. intros a _.
    by apply Album_delete_in_consistent.
  - apply destroy_action_keeps; [done|]. intros p _.
    by apply Photo_delete_in_consistent.
  - apply destroy_action_keeps; [done|]. intros t _.
    by apply Tag_delete_consistent.
Qed.

Lemma destroys_keep_consistency_witness :
  db_consistent Sample.db ∧
  db_consistent
    (dispatch (UserViewSet.destroy (H := Sample.framework)
                 (Sample.request (Some 2) [] []) 1) Sample.db).2.
Proof.
  split; [exact sample_db_consistent|].
  apply (@destroys_keep_consistency Sample.framework Sample.db
           (Sample.request (Some 2) [] []) 1 sample_db_consistent).
Defined.

(** ** Foreign keys never dangle *)

Lemma kept_pk_elem_of {Row} (pk_of : Row → Z) (P : Row → Prop)
    `{∀ x, Decision (P x)} (table : list Row) k :
  k ∈ pk_of <$> table → (∀ x, x ∈ table → pk_of x = k → P x) →
  k ∈ pk_of <$> filter P table.
Proof.
  intros (x & -> & Hx)%list_elem_of_fmap HP.
  apply list_elem_of_fmap_2, list_elem_of_filter. split; [by apply HP|done].
Qed.

Lemma Photo_delete_in_references pks db :
  db_references db → db_references (Photo_delete_in pks db).
Proof.
  intros [Ha Hp]. unfold db_references, Photo_delete_in.
  cbn [users albums photos set_photos set_photo_tags]. split; [done|].
  rewrite Forall_forall in Hp. apply Forall_forall. intros p Hin.
  apply list_elem_of_filter in Hin as [_ Hin]. by apply Hp.
Qed.

Lemma Album_delete_in_references pks db :
  db_references db → db_references (Album_delete_in pks db).
Proof.
  intros [Ha Hp]. rewrite Forall_forall in Ha. rewrite Forall_forall in Hp. split.
  - apply Forall_forall. intros x Hx.
    apply Album_delete_in_albums in Hx as [Hx _].
    unfold Album_delete_in. cbn [users set_albums Photo_delete_in set_photos
                                 set_photo_tags]. by apply Ha.
  - apply Forall_forall. intros p Hin.
    apply Album_delete_in_photos in Hin as [Hin Hkept].
    destruct (Hp p Hin) as [Halbum Howner].
    unfold Album_delete_in. cbn [users albums set_albums Photo_delete_in set_photos
                                 set_photo_tags].
    split; [|done]. apply kept_pk_elem_of; [done|]. by intros x _ ->.
Qed.

Lemma User_delete_references u db :
  db_references db → db_references (User_delete u db).
Proof.
  intros Hrefs. unfold User_delete.
  set (owned_albums := album_id <$> filter (λ a, album_owner a = user_id u) (albums db)).
  set (owned_photos := photo_id <$> filter (λ p, owner p = user_id u) (photos db)).
  pose proof (Album_delete_in_references owned_albums _
                (Photo_delete_in_references owned_photos db Hrefs)) as [Ha Hp].
  rewrite Forall_forall in Ha. rewrite Forall_forall in Hp.
  assert (Hkept : ∀ k, k ≠ user_id u → k ∈ user_id <$> users db →
            k ∈ user_id <$> filter (λ x, user_id x ≠ user_id u) (users db)).
  { intros k Hne Hk. apply kept_pk_elem_of; [done|]. by intros x _ ->. }
  split; cbn [users albums photos set_users].
  - apply Forall_forall. intros x Hx. apply Hkept; [|by apply Ha].
    apply Album_delete_in_albums in Hx as [Hx Hno]. intros Hown. apply Hno.
    apply list_elem_of_fmap_2, list_elem_of_filter. split; [done|].
    by unfold Photo_delete_in in Hx.
  - apply Forall_forall. intros p Hin.
    destruct (Hp p Hin) as [Halbum Howner]. split; [done|].
    apply Hkept; [|done].
    apply Album_delete_in_photos in Hin as [Hin _].
    apply Photo_delete_in_photos in Hin as [Hin Hno]. intros Hown. apply Hno.
    apply list_elem_of_fmap_2. by apply list_elem_of_filter.
Qed.

(** X19.  No delete leaves a dangling reference, whatever the request:
    after deleting a user, an album, a photo or a tag, every album still
    has its owner and every photo its album and its owner. *)
Theorem destroys_keep_references `{Framework} (db : DB) (req : Request) (pk : Z) :
  db_references db →
  db_references (dispatch (UserViewSet.destroy req pk) db).2 ∧
  db_references (dispatch (AlbumViewSet.destroy req pk) db).2 ∧
  db_references (dispatch (PhotoViewSet.destroy req pk) db).2 ∧
  db_references (dispatch (TagViewSet.destroy req pk) db).2.
Proof.
  intros Hrefs.
  unfold UserViewSet.destroy, AlbumViewSet.destroy, PhotoViewSet.destroy,
    TagViewSet.destroy.
  split; [|split; [|split]].
  - apply destroy_action_keeps; [done|]. intros u _.
    by apply User_delete_references.
  - apply destroy_action_keeps; [done|]. intros a _.
    by apply Album_delete_in_references.
  - apply destroy_action_keeps; [done|]. intros p _.
    by apply Photo_delete_in_references.
  - by apply destroy_action_keeps.
Qed.

Lemma destroys_keep_references_witness :
  db_references Sample.db ∧
  db_references
    (dispatch (UserViewSet.destroy (H := Sample.framework)
                 (Sample.request (Some 2) [] []) 1) Sample.db).2.
Proof.
  split; [exact sample_db_references|].
  apply (@destroys_keep_references Sample.framework Sample.db
           (Sample.request (Some 2) [] []) 1 sample_db_references).
Defined.

Lemma Forall_save_row {Row} (pk_of : Row → Z) (P : Row → Prop) r (table : list Row) :
  Forall P table → P r → Forall P (save_row pk_of r table).
Proof.
  intros Hall Hr. unfold save_row. apply Forall_fmap.
  eapply Forall_impl; [exact Hall|]. intros x Hx. simpl. by case_decide.
Qed.

(** X20.  No write leaves a dangling reference.  When the account of the
    caller exists, registration, the creation of an album, a photo or a
    tag, every update and [update_profile] keep every album with its owner
    and every photo with its album and its owner, whatever the body of the
    request. *)
Theorem writes_keep_references `{Framework} (db : DB) (req : Request)
    (partial : bool) (pk : Z) :
  db_references db →
  (∀ u, req_user req = Some u → u ∈ user_id <$> users db) →
  db_references (dispatch (UserViewSet.create req) db).2 ∧
  db_references (dispatch (AlbumViewSet.create req) db).2 ∧
  db_references (dispatch (PhotoViewSet.create req) db).2 ∧
  db_references (dispatch (TagViewSet.create req) db).2 ∧
  db_references (dispatch (update_action UserViewSet.viewset partial req pk) db).2 ∧
  db_references (dispatch (UserViewSet.update_profile req) db).2 ∧
  db_references (dispatch (update_action AlbumViewSet.viewset partial req pk) db).2 ∧
  db_references (dispatch (update_action PhotoViewSet.viewset partial req pk) db).2 ∧
  db_references (dispatch (update_action TagViewSet.viewset partial req pk) db).2.
Proof.
  intros Hrefs Hcaller. pose proof Hrefs as [Ha Hp].
  assert (Husers : ∀ now instance vd,
            db_references (UserSerializer.update now instance vd db).2).
  { intros now instance vd. unfold db_references, UserSerializer.update, bind, modify, ret.
    cbn [snd users albums photos set_users]. by rewrite save_row_pks. }
  split; [|split; [|split; [|split; [|split; [|split; [|split; [|split]]]]]]].
  - rewrite UserViewSet_create_run.
    destruct (UserSerializer.run_validation false None db (req_data req)); [done|].
    unfold db_references. cbn [snd users albums photos set_users]. split.
    + eapply Forall_impl; [exact Ha|]. intros x Hx.
      rewrite fmap_app. apply elem_of_app. by left.
    + eapply Forall_impl; [exact Hp|]. intros x [Hx1 Hx2]. split; [done|].
      rewrite fmap_app. apply elem_of_app. by left.
  - unfold AlbumViewSet.create. apply create_action_keeps; [done|].
    intros vd _. cbn [vs_serializer_create vs_perform_create AlbumViewSet.viewset].
    unfold AlbumSerializer.create. cbn [AlbumViewSet.perform_create ad_owner].
    destruct (req_user req) as [u|] eqn:Hu; [|done].
    unfold db_references. cbn [snd users albums photos set_albums]. split.
    + apply Forall_app. split; [done|]. repeat constructor. by apply Hcaller.
    + eapply Forall_impl; [exact Hp|]. intros x [Hx1 Hx2]. split; [|done].
      rewrite fmap_app. apply elem_of_app. by left.
  - unfold PhotoViewSet.create. apply create_action_keeps; [done|].
    intros vd Hvalid. cbn [vs_serializer_create vs_perform_create vs_run_validation
                           PhotoViewSet.viewset] in *.
    destruct (photo_validation_fields _ _ _ _ _ Hvalid) as (_ & _ & _ & Halbum).
    unfold PhotoSerializer.create, PhotoSerializer.Photo_objects_create, bind.
    cbn [PhotoSerializer.pop_tag_ids PhotoViewSet.perform_create pd_album pd_owner
         pd_title pd_description pd_image pd_tag_ids].
    destruct (pd_album vd) as [k|]; [|done].
    destruct (req_user req) as [u|] eqn:Hu; [|done].
    assert (Hdb1 : ∀ p, album p = k → owner p = u →
              db_references (set_photos (photos db ++ [p])%list db)).
    { intros p Hpa Hpo. unfold db_references. cbn [users albums photos set_photos].
      split; [done|]. apply Forall_app. split; [done|]. repeat constructor.
      - rewrite Hpa. by apply Halbum.
      - rewrite Hpo. by apply Hcaller. }
    destruct (decide _);
      rewrite ?photo_tags_set_queryset_run by apply unbounded_takes; by apply Hdb1.
  - unfold TagViewSet.create. apply create_action_keeps; [done|].
    intros vd _. by cbn.
  - apply update_action_keeps; [done|]. intros instance vd _ _ _. apply Husers.
  - apply update_profile_keeps; [done|]. intros row vd _ _. apply Husers.
  - apply update_action_keeps; [done|]. intros instance vd Hin _ Hvalid.
    cbn [vs_serializer_update vs_run_validation vs_get_queryset AlbumViewSet.viewset] in *.
    assert (Hno_owner : ad_owner vd = None).
    { unfold AlbumSerializer.run_validation in Hvalid.
      destruct (concat _) in Hvalid; [|done]. by simplify_eq/=. }
    assert (Hinstance : instance ∈ albums db).
    { unfold AlbumViewSet.get_queryset in Hin.
      destruct (req_user req); [|by apply not_elem_of_nil in Hin].
      by apply list_elem_of_filter in Hin as [_ Hin]. }
    unfold db_references, AlbumSerializer.update, bind, modify, ret.
    cbn [snd users albums photos set_albums]. rewrite save_row_pks, Hno_owner.
    split; [|done]. apply Forall_save_row; [done|]. cbn [album_owner default from_option id].
    rewrite Forall_forall in Ha. by apply Ha.
  - apply update_action_keeps; [done|]. intros instance vd Hin _ Hvalid.
    cbn [vs_serializer_update vs_run_validation vs_get_queryset PhotoViewSet.viewset] in *.
    destruct (photo_validation_fields _ _ _ _ _ Hvalid) as (Hno_owner & _ & _ & Halbum).
    assert (Hinstance : instance ∈ photos db).
    { unfold PhotoViewSet.get_queryset in Hin.
      destruct (req_user req); [|by apply not_elem_of_nil in Hin].
      by apply list_elem_of_filter in Hin as [_ Hin]. }
    rewrite Forall_forall in Hp. destruct (Hp instance Hinstance) as [Hia Hio].
    rewrite PhotoSerializer_update_run by apply unbounded_takes. cbn zeta. cbn [snd]. rewrite Hno_owner.
    assert (Hrow : ∀ db0, users db0 = users db → albums db0 = albums db →
              photos db0 = photos db →
              ∀ p, album p = default (album instance) (pd_album vd) →
                   owner p = owner instance →
                   db_references (set_photos (save_row photo_id p (photos db0)) db0)).
    { intros db0 Hu0 Ha0 Hp0 p Hpa Hpo. unfold db_references.
      cbn [users albums photos set_photos]. rewrite Hu0, Ha0, Hp0.
      split; [done|]. apply Forall_save_row; [by apply Forall_forall|].
      rewrite Hpa, Hpo. split; [|done].
      destruct (pd_album vd) as [k|]; [by apply Halbum|done]. }
    destruct (pd_tag_ids vd); by apply Hrow.
  - apply update_action_keeps; [done|]. intros instance vd _ _ _.
    by cbn.
Qed.

Lemma writes_keep_references_witness :
  db_references Sample.db ∧
  (∀ u, req_user (Sample.request (Some 1) Sample.sunset_body []) = Some u →
        u ∈ user_id <$> users Sample.db) ∧
  db_references
    (dispatch (PhotoViewSet.create (H := Sample.framework)
                 (Sample.request (Some 1) Sample.sunset_body [])) Sample.db).2.
Proof.
  assert (Hcaller : ∀ u, req_user (Sample.request (Some 1) Sample.sunset_body []) = Some u →
                         u ∈ user_id <$> users Sample.db).
  { intros u [= <-]. left. }
  split; [exact sample_db_references|]. split; [exact Hcaller|].
  apply (@writes_keep_references Sample.framework Sample.db
           (Sample.request (Some 1) Sample.sunset_body []) false 0
           sample_db_references Hcaller).
Defined.

(** ** Failed requests and reads *)

Section outcomes.
Context {Row VD : Type} (vs : ModelViewSet Row VD).

Lemma create_action_outcome req db :
  (∀ vd e db', vs_serializer_create vs (req_now req) vd db = (inl e, db') → db' = db) →
  status (dispatch (create_action vs req) db).1 = HTTP_201_CREATED ∨
  (dispatch (create_action vs req) db).2 = db.
Proof.
  intros Hraise.
  unfold dispatch, create_action, check_permissions, is_valid, serializer_data,
    bind, query, ret, raise.
  destruct (forallb _ _); [|by right].
  destruct (vs_run_validation vs false None db (req_data req)) as [errors|vd];
    [by right|].
  destruct (vs_serializer_create _ _ _ _) as [[e|obj] db'] eqn:Hcreate; [|by left].
  right. by apply Hraise in Hcreate.
Qed.

Lemma update_action_outcome partial req pk db :
  (∀ instance vd e db',
     vs_serializer_update vs (req_now req) instance vd db = (inl e, db') → db' = db) →
  status (dispatch (update_action vs partial req pk) db).1 = HTTP_200_OK ∨
  (dispatch (update_action vs partial req pk) db).2 = db.
Proof.
  intros Hraise.
  unfold dispatch, update_action, check_permissions, get_object, is_valid,
    serializer_data, bind, query, ret, raise.
  destruct (forallb _ _); [|by right].
  destruct (get_by_pk _ _ _) as [instance|]; [|by right].
  destruct (vs_run_validation vs partial (Some instance) db (req_data req))
    as [errors|vd]; [by right|].
  destruct (vs_serializer_update _ _ _ _ _) as [[e|obj] db'] eqn:Hupdate; [|by left].
  right. by apply Hraise in Hupdate.
Qed.

Lemma destroy_action_outcome req pk db :
  status (dispatch (destroy_action vs req pk) db).1 = HTTP_204_NO_CONTENT ∨
  (dispatch (destroy_action vs req pk) db).2 = db.
Proof.
  unfold dispatch, destroy_action, check_permissions, get_object, bind, query,
    modify, ret, raise.
  destruct (forallb _ _); [|by right].
  destruct (get_by_pk _ _ _) as [instance|]; [by left|by right].
Qed.

Lemma read_actions_unchanged req pk db :
  (dispatch (list_action vs req) db).2 = db ∧
  (dispatch (retrieve_action vs req pk) db).2 = db.
Proof.
  unfold dispatch, list_action, retrieve_action, check_permissions, get_object,
    serializer_data, bind, query, ret, raise.
  split.
  - by destruct (forallb _ _).
  - destruct (forallb _ _); [|done]. by destruct (get_by_pk _ _ _).
Qed.

End outcomes.

(** X21.  On every backend: a request that is not answered 200, 201 or
    204 changes nothing, with one exception.  Whatever registration,
    [update_profile], a delete or update action, or the creation of an
    album or a tag rejects (400, 401, 404) or fails on (500), the store is
    as before.  The creation of a photo is not atomic: it is answered 201,
    or leaves the store as before, or is answered 500 with the new photo
    appended; the last happens only to a valid request whose [tag_ids] the
    backend refuses.  The list and retrieve actions, [me] and the tag
    search never change the store. *)
Theorem failed_requests_change_nothing `{Framework} `{Backend} (db : DB)
    (req : Request) (partial : bool) (pk : Z) :
  (∀ run, run ∈ [dispatch (UserViewSet.create req);
                 dispatch (AlbumViewSet.create req);
                 dispatch (TagViewSet.create req);
                 dispatch (UserViewSet.update_profile req);
                 dispatch (update_action UserViewSet.viewset partial req pk);
                 dispatch (update_action AlbumViewSet.viewset partial req pk);
                 dispatch (update_action PhotoViewSet.viewset partial req pk);
                 dispatch (update_action TagViewSet.viewset partial req pk);
                 dispatch (UserViewSet.destroy req pk);
                 dispatch (AlbumViewSet.destroy req pk);
                 dispatch (PhotoViewSet.destroy req pk);
                 dispatch (TagViewSet.destroy req pk)] →
     status (run db).1 ∈ [HTTP_200_OK; HTTP_201_CREATED; HTTP_204_NO_CONTENT] ∨
     (run db).2 = db) ∧
  (status (dispatch (PhotoViewSet.create req) db).1 = HTTP_201_CREATED ∨
   (dispatch (PhotoViewSet.create req) db).2 = db ∨
   (status (dispatch (PhotoViewSet.create req) db).1 = HTTP_500_INTERNAL_SERVER_ERROR ∧
    ∃ vd ids p,
      PhotoSerializer.run_validation false None db (req_data req) = inr vd ∧
      pd_tag_ids vd = Some ids ∧
      forallb database_integer ids = false ∧
      (dispatch (PhotoViewSet.create req) db).2 =
        set_photos (photos db ++ [p])%list db)) ∧
  (∀ run, run ∈ [dispatch (UserViewSet.list req);
                 dispatch (UserViewSet.retrieve req pk);
                 dispatch (UserViewSet.me req);
                 dispatch (AlbumViewSet.list req);
                 dispatch (AlbumViewSet.retrieve req pk);
                 dispatch (PhotoViewSet.list req);
                 dispatch (PhotoViewSet.retrieve req pk);
                 dispatch (PhotoViewSet.search_by_tags req);
                 dispatch (TagViewSet.list req);
                 dispatch (TagViewSet.retrieve req pk)] →
     (run db).2 = db).
Proof.
  assert (H200 : ∀ s, s = HTTP_200_OK →
            s ∈ [HTTP_200_OK; HTTP_201_CREATED; HTTP_204_NO_CONTENT])
    by (intros s ->; left).
  assert (H201 : ∀ s, s = HTTP_201_CREATED →
            s ∈ [HTTP_200_OK; HTTP_201_CREATED; HTTP_204_NO_CONTENT])
    by (intros s ->; right; left).
  assert (H204 : ∀ s, s = HTTP_204_NO_CONTENT →
            s ∈ [HTTP_200_OK; HTTP_201_CREATED; HTTP_204_NO_CONTENT])
    by (intros s ->; do 2 right; left).
  split; [|split].
  - intros run Hrun.
    repeat (apply elem_of_cons in Hrun as [->|Hrun]);
      [..|by apply not_elem_of_nil in Hrun].
    + rewrite UserViewSet_create_run.
      destruct (UserSerializer.run_validation _ _ _ _); [by right|].
      left. by apply H201.
    + destruct (create_action_outcome AlbumViewSet.viewset req db) as [Hs|Hs];
        [|by left; apply H201|by right].
      intros vd e db'. cbn [vs_serializer_create AlbumViewSet.viewset].
      unfold AlbumSerializer.create, raise. destruct (ad_owner vd); by intros [= ? ?].
    + destruct (create_action_outcome TagViewSet.viewset req db) as [Hs|Hs];
        [|by left; apply H201|by right].
      intros vd e db'. by cbn.
    + unfold dispatch, UserViewSet.update_profile, UserViewSet.request_user,
        check_permissions, serializer_data, bind, query, raise, ret.
      destruct (forallb _ _); [|by right].
      destruct (req_user req ≫= _) as [row|]; [|by right].
      destruct (UserSerializer.run_validation _ _ _ _); [by right|].
      left. by apply H200.
    + destruct (update_action_outcome UserViewSet.viewset partial req pk db)
        as [Hs|Hs]; [|by left; apply H200|by right].
      intros instance vd e db'. by cbn.
    + destruct (update_action_outcome AlbumViewSet.viewset partial req pk db)
        as [Hs|Hs]; [|by left; apply H200|by right].
      intros instance vd e db'. by cbn.
    + destruct (update_action_outcome PhotoViewSet.viewset partial req pk db)
        as [Hs|Hs]; [|by left; apply H200|by right].
      intros instance vd e db'. cbn [vs_serializer_update PhotoViewSet.viewset].
      destruct (forallb database_integer (default [] (pd_tag_ids vd))) eqn:Hids.
      * by rewrite PhotoSerializer_update_run.
      * rewrite PhotoSerializer_update_overflow by done. by intros [= _ <-].
    + destruct (update_action_outcome TagViewSet.viewset partial req pk db)
        as [Hs|Hs]; [|by left; apply H200|by right].
      intros instance vd e db'. by cbn.
    + destruct (destroy_action_outcome UserViewSet.viewset req pk db) as [Hs|Hs];
        [by left; apply H204|by right].
    + destruct (destroy_action_outcome AlbumViewSet.viewset req pk db) as [Hs|Hs];
        [by left; apply H204|by right].
    + destruct (destroy_action_outcome PhotoViewSet.viewset req pk db) as [Hs|Hs];
        [by left; apply H204|by right].
    + destruct (destroy_action_outcome TagViewSet.viewset req pk db) as [Hs|Hs];
        [by left; apply H204|by right].
  - unfold PhotoViewSet.create.
    destruct (forallb (λ permission, permission req)
                (vs_get_permissions PhotoViewSet.viewset "create")) eqn:Hperm.
    2: { right. left. unfold dispatch, create_action, check_permissions, bind, raise.
         by rewrite Hperm. }
    destruct (PhotoSerializer.run_validation false None db (req_data req))
      as [errors|vd] eqn:Hvalid.
    { right. left.
      by rewrite (create_action_invalid PhotoViewSet.viewset req db errors Hperm Hvalid). }
    rewrite (create_action_run PhotoViewSet.viewset req db vd Hperm Hvalid).
    cbn [vs_serializer_create vs_perform_create vs_to_representation
         PhotoViewSet.viewset].
    destruct (pd_album vd) as [a|] eqn:Ha; [destruct (req_user req) as [u|] eqn:Hu|].
    + destruct (forallb database_integer (default [] (pd_tag_ids vd))) eqn:Hids.
      * left. rewrite (PhotoSerializer_create_run _ _ _ a u); [done|done| |done].
        cbn [PhotoViewSet.perform_create pd_owner]. by rewrite Hu.
      * right. right.
        rewrite (PhotoSerializer_create_overflow _ _ _ a u); [|done| |done].
        2: { cbn [PhotoViewSet.perform_create pd_owner]. by rewrite Hu. }
        split; [done|].
        destruct (pd_tag_ids vd) as [ids|] eqn:Htags; [|done].
        by eexists vd, ids, _.
    + right. left.
      unfold PhotoSerializer.create, PhotoSerializer.Photo_objects_create, bind, raise.
      cbn [PhotoSerializer.pop_tag_ids PhotoViewSet.perform_create pd_album pd_owner].
      by rewrite Ha, Hu.
    + right. left.
      unfold PhotoSerializer.create, PhotoSerializer.Photo_objects_create, bind, raise.
      cbn [PhotoSerializer.pop_tag_ids PhotoViewSet.perform_create pd_album pd_owner].
      by rewrite Ha.
  - intros run Hrun.
    repeat (apply elem_of_cons in Hrun as [->|Hrun]);
      [..|by apply not_elem_of_nil in Hrun];
      try apply (proj1 (read_actions_unchanged _ req pk db));
      try apply (proj2 (read_actions_unchanged _ req pk db)).
    + unfold dispatch, UserViewSet.me, UserViewSet.request_user, check_permissions,
        serializer_data, bind, query, raise, ret.
      destruct (forallb _ _); [|done].
      by destruct (req_user req ≫= _).
    + unfold dispatch, PhotoViewSet.search_by_tags, check_permissions, bind, query,
        raise, ret.
      by destruct (forallb _ _).
Qed.

Lemma failed_requests_change_nothing_witness :
  (dispatch (update_action
               (PhotoViewSet.viewset (H := Sample.framework) (backend := sqlite)) true
               (Sample.request (Some 1) Sample.overflow_body []) 1) Sample.db).1 =
    mkResponse HTTP_500_INTERNAL_SERVER_ERROR JNull ∧
  (dispatch (update_action
               (PhotoViewSet.viewset (H := Sample.framework) (backend := sqlite)) true
               (Sample.request (Some 1) Sample.overflow_body []) 1) Sample.db).2 =
    Sample.db.
Proof.
  split; [vm_compute; reflexivity|].
  destruct (proj1 (@failed_requests_change_nothing Sample.framework sqlite Sample.db
                     (Sample.request (Some 1) Sample.overflow_body []) true 1)
              (dispatch (update_action
                           (PhotoViewSet.viewset (H := Sample.framework)
                              (backend := sqlite)) true
                           (Sample.request (Some 1) Sample.overflow_body []) 1))
              ltac:(do 6 right; left)) as [Hstatus|Hsame]; [|exact Hsame].
  exfalso. vm_compute in Hstatus.
  repeat (apply elem_of_cons in Hstatus as [Heq|Hstatus]; [discriminate Heq|]).
  by apply not_elem_of_nil in Hstatus.
Defined.
